(** * Provider control scripts: a shallow embedding and its properties

    The repository holds two command-line scripts,
    [lib/scripts/hetzner_cloud.py] and [lib/scripts/proxmox_api.py].  Each
    one talks to a remote provider, and prints one JSON document.

    The embedding keeps the shape of the Python code: every operation is a
    computation in a state-and-exception monad over a [World] that holds
    what the script can observe of its environment (the provider, the wall
    clock, standard output) and a log of the provider calls it issued. *)

From Stdlib Require Import ZArith QArith List String Ascii Bool Lia Lqa.
From Stdlib Require Import DecimalString.
Import ListNotations.

Set Warnings "-register-all".

Open Scope string_scope.
Open Scope Z_scope.

(** ** Python values and control flow *)

Module Py.

(** The exceptions the two scripts can meet.  [SystemExit] is the one that
    is not a subclass of [Exception]: an [except Exception] clause lets it
    through. *)
Inductive exn : Type :=
| ValueError (msg : string)
| IndexError (msg : string)
| KeyError (key : string)
| AttributeError (msg : string)
| TypeError (msg : string)
| APIException (msg : string)
| SystemExit (code : Z).

(** [str(e)] *)
Definition str_exn (e : exn) : string :=
  match e with
  | ValueError m | IndexError m | AttributeError m | TypeError m
  | APIException m => m
  | KeyError k => "'" ++ k ++ "'"
  | SystemExit c => NilZero.string_of_int (Z.to_int c)
  end.

Definition is_Exception (e : exn) : bool :=
  match e with
  | SystemExit _ => false
  | _ => true
  end.

(** What running a piece of code gives: a value, a raised exception, or
    [OutOfFuel] when a loop was cut off before it ended. *)
Inductive Outcome (A : Type) : Type :=
| Ret (a : A)
| Raise (e : exn)
| OutOfFuel.

Arguments Ret {A} a.
Arguments Raise {A} e.
Arguments OutOfFuel {A}.

(** The values [json.dumps] is given.  [JTime t] stands for the ISO-8601
    text of the instant [t], as [datetime.now().isoformat()] renders it. *)
Inductive json : Type :=
| JNull
| JBool (b : bool)
| JInt (z : Z)
| JNum (q : Q)
| JStr (s : string)
| JTime (t : Q)
| JList (l : list json)
| JDict (d : list (string * json)).

(** A Python [dict] with string keys, in insertion order. *)
Definition dict : Type := list (string * json).

Fixpoint dict_get (k : string) (d : dict) : option json :=
  match d with
  | [] => None
  | (k', v) :: d' => if String.eqb k k' then Some v else dict_get k d'
  end.

(** [d.get(k, default)] *)
Definition dict_get_default (k : string) (default : json) (d : dict) : json :=
  match dict_get k d with
  | Some v => v
  | None => default
  end.

Definition dict_keys (d : dict) : list string := map fst d.

(** Truth value testing, on the values the scripts test. *)
Definition truthy_str (s : string) : bool :=
  match s with
  | EmptyString => false
  | _ => true
  end.

Definition truthy_opt_str (o : option string) : bool :=
  match o with
  | None => false
  | Some s => truthy_str s
  end.

Definition truthy_opt_dict (o : option dict) : bool :=
  match o with
  | None | Some [] => false
  | Some _ => true
  end.

Definition truthy_opt_Z (o : option Z) : bool :=
  match o with
  | None => false
  | Some z => negb (z =? 0)
  end.

Definition truthy (v : json) : bool :=
  match v with
  | JNull => false
  | JBool b => b
  | JInt z => negb (z =? 0)
  | JNum q => negb (Qeq_bool q 0)
  | JStr s => truthy_str s
  | JTime _ => true
  | JList l => match l with [] => false | _ => true end
  | JDict d => match d with [] => false | _ => true end
  end.

(** [v == s] for a string literal [s] *)
Definition eq_str (v : json) (s : string) : bool :=
  match v with
  | JStr t => String.eqb t s
  | _ => false
  end.

Definition json_of_opt_str (o : option string) : json :=
  match o with
  | Some s => JStr s
  | None => JNull
  end.

Definition json_of_opt_Z (o : option Z) : json :=
  match o with
  | Some z => JInt z
  | None => JNull
  end.

Definition json_of_opt_Q (o : option Q) : json :=
  match o with
  | Some q => JNum q
  | None => JNull
  end.

(** Integers in f-strings. *)
Definition str_Z (z : Z) : string := NilZero.string_of_int (Z.to_int z).

(** [str(v)], as an f-string renders a value, for the strings, integers,
    booleans and [None] the scripts format; a float, a list or an object
    is not rendered, and the statements that read the result exclude
    them. *)
Definition str_json (v : json) : string :=
  match v with
  | JStr s => s
  | JInt z => str_Z z
  | JNull => "None"
  | JBool true => "True"
  | JBool false => "False"
  | _ => "..."
  end.

(** [d[k] = v] *)
Fixpoint dict_set (k : string) (v : json) (d : dict) : dict :=
  match d with
  | [] => [(k, v)]
  | (k', v') :: d' =>
      if String.eqb k k' then (k, v) :: d' else (k', v') :: dict_set k v d'
  end.

(** [int(x)] on a float: truncation towards zero. *)
Definition int_of_float (q : Q) : Z := Z.quot (Qnum q) (Zpos (Qden q)).

Definition Qltb (x y : Q) : bool := negb (Qle_bool y x).

(** [int(s)] on a string: surrounding white space, an optional sign, decimal
    digits with single underscores between them; [None] is [ValueError]. *)
Definition is_space (c : ascii) : bool :=
  let n := nat_of_ascii c in
  (Nat.eqb n 32 || (Nat.leb 9 n && Nat.leb n 13))%bool.

Fixpoint lstrip (s : string) : string :=
  match s with
  | String c s' => if is_space c then lstrip s' else s
  | EmptyString => s
  end.

Fixpoint string_rev (acc s : string) : string :=
  match s with
  | EmptyString => acc
  | String c s' => string_rev (String c acc) s'
  end.

Definition strip (s : string) : string :=
  string_rev "" (lstrip (string_rev "" (lstrip s))).

Definition digit_of (c : ascii) : option Z :=
  let n := nat_of_ascii c in
  if (Nat.leb 48 n && Nat.leb n 57)%bool then Some (Z.of_nat (n - 48)) else None.

Fixpoint parse_digits (acc : Z) (after_digit : bool) (s : string) : option Z :=
  match s with
  | EmptyString => if after_digit then Some acc else None
  | String c s' =>
      if Ascii.eqb c "_"%char
      then (if after_digit then parse_digits acc false s' else None)
      else match digit_of c with
           | Some d => parse_digits (10 * acc + d) true s'
           | None => None
           end
  end.

Definition int_of_str (s : string) : option Z :=
  match strip s with
  | String "+"%char r => parse_digits 0 false r
  | String "-"%char r => option_map Z.opp (parse_digits 0 false r)
  | r => parse_digits 0 false r
  end.

(** [int(s)] as the interpreter runs it on ASCII input; the error quotes
    the input as [repr] does for a string without quotes or escapes. *)
Definition int (s : string) : Outcome Z :=
  match int_of_str s with
  | Some z => Ret z
  | None => Raise (ValueError ("invalid literal for int() with base 10: '" ++ s ++ "'"))
  end.

Definition upper_char (c : ascii) : ascii :=
  let n := nat_of_ascii c in
  if (Nat.leb 97 n && Nat.leb n 122)%bool then ascii_of_nat (n - 32) else c.

Definition lower_char (c : ascii) : ascii :=
  let n := nat_of_ascii c in
  if (Nat.leb 65 n && Nat.leb n 90)%bool then ascii_of_nat (n + 32) else c.

Fixpoint map_string (f : ascii -> ascii) (s : string) : string :=
  match s with
  | EmptyString => EmptyString
  | String c s' => String (f c) (map_string f s')
  end.

Definition upper : string -> string := map_string upper_char.
Definition lower : string -> string := map_string lower_char.

(** [s.startswith(p)] *)
Definition startswith (s p : string) : bool := String.prefix p s.

(** *** Computations: state passing with exceptions *)

Definition M (W A : Type) : Type := W -> Outcome A * W.

Definition ret {W A} (a : A) : M W A := fun w => (Ret a, w).

Definition raise {W A} (e : exn) : M W A := fun w => (Raise e, w).

Definition out_of_fuel {W A} : M W A := fun w => (OutOfFuel, w).

Definition bind {W A B} (m : M W A) (k : A -> M W B) : M W B :=
  fun w =>
    match m w with
    | (Ret a, w') => k a w'
    | (Raise e, w') => (Raise e, w')
    | (OutOfFuel, w') => (OutOfFuel, w')
    end.

(** [try: body except Exception as e: handler(e)] *)
Definition try_except {W A} (body : M W A) (handler : exn -> M W A) : M W A :=
  fun w =>
    match body w with
    | (Raise e, w') => if is_Exception e then handler e w' else (Raise e, w')
    | r => r
    end.

(** Lifting of a pure step that may raise. *)
Definition lift {W A} (o : Outcome A) : M W A := fun w => (o, w).

(** [d[k]] *)
Definition subscript {W} (d : dict) (k : string) : M W json :=
  match dict_get k d with
  | Some v => ret v
  | None => raise (KeyError k)
  end.

(** How the process ends. *)
Inductive Exit : Type :=
| Exited (code : Z)
| Unhandled (e : exn)
| Unfinished.

Definition exit_of (o : Outcome unit) : Exit :=
  match o with
  | Ret _ => Exited 0
  | Raise (SystemExit c) => Exited c
  | Raise e => Unhandled e
  | OutOfFuel => Unfinished
  end.

End Py.

Import Py.

Declare Scope py_scope.
Delimit Scope py_scope with py.
Notation "x <- m ;; k" := (bind m (fun x => k))
  (at level 61, m at next level, right associativity) : py_scope.
Notation "m ;;; k" := (bind m (fun _ => k))
  (at level 61, right associativity) : py_scope.
Open Scope py_scope.

(** ** The cloud provider script, [hetzner_cloud.py] *)

Module Hetzner.

(** *** What the SDK hands to the script *)

Record Server : Type := mkServer {
  server_id : Z;
  server_name : string;
  server_status : string;
  server_type_name : string;
  (** datacenter name and location name *)
  server_datacenter : option (string * string);
  public_ipv4 : option string;
  public_ipv6 : option string;
  (** [created.isoformat()] *)
  server_created : option string;
  backup_window : option string;
  locked : bool
}.

Record Image : Type := mkImage {
  image_id : Z;
  image_description : string;
  image_status : string;
  (** [created.isoformat()] *)
  image_created : option string;
  disk_size : Q;
  image_size : option Q;
  (** [created_from.id] *)
  created_from : option Z
}.

Record Action : Type := mkAction { action_id : Z }.

Record CreateImageResponse : Type := mkCreateImageResponse {
  response_image : Image;
  response_action : Action
}.

Definition STATUS_RUNNING : string := "running".
Definition STATUS_OFF : string := "off".

(** *** The provider and the rest of the environment *)

(** The provider's side: the servers and snapshots of the project. *)
Record Provider : Type := mkProvider {
  servers : list Server;
  images : list Image;
  next_id : Z
}.

(** The provider calls of the script, in the words of the SDK. *)
Inductive Event : Type :=
| ServersGetById (id : Z)
| ServerPowerOn (id : Z)
| ServerShutdown (id : Z)
| ServerReboot (id : Z)
| ActionWaitUntilFinished (id : Z) (max_retries : Z)
| ServerCreateImage (id : Z) (description : string)
| ImagesGetAll
| ImagesGetById (id : Z) (reply : Outcome (option Image))
| ImageDelete (id : Z)
| Sleep (seconds : Q).

(** What the environment does while one primitive runs: the call may fail
    in transport or at the provider, other clients and the provider's own
    jobs may change the provider's state, and time passes. *)
Record EnvStep : Type := mkEnvStep {
  fault : option string;
  evolve : Provider -> Provider;
  elapse : Q
}.

Definition quiet : EnvStep :=
  {| fault := None; evolve := fun p => p; elapse := 0%Q |}.

Record World : Type := mkWorld {
  provider : Provider;
  now : Q;
  (** what the environment will do at the coming primitives *)
  sched : list EnvStep;
  (** provider calls issued so far, latest first *)
  log : list Event;
  (** documents printed so far, latest first *)
  stdout : list json
}.

Definition env_step (w : World) : EnvStep * World :=
  match sched w with
  | [] => (quiet, w)
  | s :: rest =>
      (s, {| provider := evolve s (provider w);
             now := (now w + elapse s)%Q;
             sched := rest;
             log := log w;
             stdout := stdout w |})
  end.

Definition record (e : Event) (p : Provider) (w : World) : World :=
  {| provider := p; now := now w; sched := sched w;
     log := e :: log w; stdout := stdout w |}.

(** A call to the provider: the environment moves, then either the call
    fails with the SDK's exception and changes nothing, or the provider
    serves it. *)
Definition provider_call {A : Type} (ev : Outcome A -> Event)
    (serve : Provider -> A * Provider) : M World A :=
  fun w =>
    let (s, w1) := env_step w in
    match fault s with
    | Some msg =>
        let o := Raise (APIException msg) in
        (o, record (ev o) (provider w1) w1)
    | None =>
        let (a, p) := serve (provider w1) in
        (Ret a, record (ev (Ret a)) p w1)
    end.

(** The SDK's exception for an id the provider does not know: the API
    answers 404, and [get_by_id] raises instead of returning.  The text
    is the API's message; nothing below depends on its wording. *)
Definition not_found (kind : string) (id : Z) : exn :=
  APIException (kind ++ " with ID '" ++ str_Z id ++ "' not found").

(** A [get_by_id] of the SDK: the environment moves, then the call fails
    in transport, or the provider holds the resource and the SDK returns
    it, or it does not and the SDK raises.  It never returns [None]. *)
Definition provider_lookup {A : Type} (ev : Outcome (option A) -> Event)
    (kind : string) (id : Z) (find : Provider -> option A) : M World (option A) :=
  fun w =>
    let (s, w1) := env_step w in
    let o :=
      match fault s with
      | Some msg => Raise (APIException msg)
      | None =>
          match find (provider w1) with
          | Some a => Ret (Some a)
          | None => Raise (not_found kind id)
          end
      end in
    (o, record (ev o) (provider w1) w1).

(** [time.time()] *)
Definition time_time : M World Q :=
  fun w => let (_, w1) := env_step w in (Ret (now w1), w1).

(** [datetime.now().isoformat()] *)
Definition datetime_now_isoformat : M World json :=
  fun w => let (_, w1) := env_step w in (Ret (JTime (now w1)), w1).

(** [time.sleep(seconds)] *)
Definition time_sleep (seconds : Q) : M World unit :=
  fun w =>
    let (_, w1) := env_step w in
    (Ret tt, {| provider := provider w1;
                now := (now w1 + seconds)%Q;
                sched := sched w1;
                log := Sleep seconds :: log w1;
                stdout := stdout w1 |}).

(** [print(doc)] *)
Definition print (doc : json) : M World unit :=
  fun w =>
    (Ret tt, {| provider := provider w; now := now w; sched := sched w;
                log := log w; stdout := doc :: stdout w |}).

(** [sys.exit(code)] *)
Definition sys_exit {A : Type} (code : Z) : M World A := raise (SystemExit code).

(** *** The provider's operations *)

Definition set_status (id : Z) (st : string) (s : Server) : Server :=
  if server_id s =? id
  then {| server_id := server_id s; server_name := server_name s;
          server_status := st; server_type_name := server_type_name s;
          server_datacenter := server_datacenter s;
          public_ipv4 := public_ipv4 s; public_ipv6 := public_ipv6 s;
          server_created := server_created s;
          backup_window := backup_window s; locked := locked s |}
  else s.

Definition with_servers (f : list Server -> list Server) (p : Provider) : Provider :=
  {| servers := f (servers p); images := images p; next_id := next_id p + 1 |}.

Definition with_images (f : list Image -> list Image) (p : Provider) : Provider :=
  {| servers := servers p; images := f (images p); next_id := next_id p + 2 |}.

(** The snapshot the provider opens when asked for one: it starts in state
    [creating]. *)
Definition new_snapshot (p : Provider) (server : Server) (description : string) : Image :=
  {| image_id := next_id p;
     image_description := description;
     image_status := "creating";
     image_created := None;
     disk_size := 0%Q;
     image_size := None;
     created_from := Some (server_id server) |}.

(** [client.servers.get_by_id(id)]: the server, or the SDK's exception;
    the [if not server] that follows it in the script is never taken. *)
Definition servers_get_by_id (id : Z) : M World (option Server) :=
  provider_lookup (fun _ => ServersGetById id) "server" id
    (fun p => find (fun s => server_id s =? id) (servers p)).

(** [server.power_on()] *)
Definition server_power_on (server : Server) : M World Action :=
  provider_call (fun _ => ServerPowerOn (server_id server))
    (fun p => (mkAction (next_id p),
               with_servers (map (set_status (server_id server) "starting")) p)).

(** [server.shutdown()] *)
Definition server_shutdown (server : Server) : M World Action :=
  provider_call (fun _ => ServerShutdown (server_id server))
    (fun p => (mkAction (next_id p),
               with_servers (map (set_status (server_id server) "stopping")) p)).

(** [server.reboot()] *)
Definition server_reboot (server : Server) : M World Action :=
  provider_call (fun _ => ServerReboot (server_id server))
    (fun p => (mkAction (next_id p), with_servers (fun l => l) p)).

(** [action.wait_until_finished(max_retries=n)] *)
Definition action_wait_until_finished (action : Action) (max_retries : Z) : M World unit :=
  provider_call (fun _ => ActionWaitUntilFinished (action_id action) max_retries)
    (fun p => (tt, p)).

(** [server.create_image(description=description, type="snapshot")] *)
Definition server_create_image (server : Server) (description : string)
    : M World CreateImageResponse :=
  provider_call (fun _ => ServerCreateImage (server_id server) description)
    (fun p =>
       let img := new_snapshot p server description in
       ({| response_image := img; response_action := mkAction (next_id p + 1) |},
        with_images (fun l => (l ++ [img])%list) p)).

(** [client.images.get_all(type="snapshot")] *)
Definition images_get_all : M World (list Image) :=
  provider_call (fun _ => ImagesGetAll) (fun p => (images p, p)).

(** [client.images.get_by_id(id)]: the image, or the SDK's exception;
    the [if not image] that follows it in the script is never taken. *)
Definition images_get_by_id (id : Z) : M World (option Image) :=
  provider_lookup (fun o => ImagesGetById id o) "image" id
    (fun p => find (fun i => image_id i =? id) (images p)).

(** [image.delete()] *)
Definition image_delete (image : Image) : M World unit :=
  provider_call (fun _ => ImageDelete (image_id image))
    (fun p => (tt, {| servers := servers p;
                      images := filter (fun i => negb (image_id i =? image_id image)) (images p);
                      next_id := next_id p |})).

(** *** The script *)

(** The document is kept as the object handed to [json.dumps], which
    writes its keys in order and drops none. *)
Definition json_response (success : bool) (data : option dict) (error : option string)
    : M World json :=
  ts <- datetime_now_isoformat ;;
  let response := [("success", JBool success); ("timestamp", ts)] in
  let response :=
    match data with
    | Some d => if truthy (JDict d) then dict_set "data" (JDict d) response else response
    | None => response
    end in
  let response :=
    match error with
    | Some e => if truthy (JStr e) then dict_set "error" (JStr e) response else response
    | None => response
    end in
  ret (JDict response).

Definition none_has_no_attribute (a : string) : exn :=
  AttributeError ("'NoneType' object has no attribute '" ++ a ++ "'").

Definition start_server (api_token : string) (server_id : Z) : M World json :=
  try_except
    (server <- servers_get_by_id server_id ;;
     match server with
     | None =>
         json_response false None (Some ("Server " ++ str_Z server_id ++ " not found"))
     | Some server =>
         if (server_status server =? STATUS_RUNNING)%string
         then json_response true
                (Some [("server_id", JInt (Hetzner.server_id server));
                       ("name", JStr (server_name server));
                       ("status", JStr "running");
                       ("message", JStr "Server is already running")]) None
         else
           action <- server_power_on server ;;
           action_wait_until_finished action 60 ;;;
           server <- servers_get_by_id server_id ;;
           match server with
           | None => raise (none_has_no_attribute "id")
           | Some server =>
               json_response true
                 (Some [("server_id", JInt (Hetzner.server_id server));
                        ("name", JStr (server_name server));
                        ("status", JStr (server_status server));
                        ("public_ipv4", json_of_opt_str (public_ipv4 server));
                        ("message", JStr "Server started successfully")]) None
           end
     end)
    (fun e => json_response false None (Some (str_exn e))).

Definition stop_server (api_token : string) (server_id : Z) : M World json :=
  try_except
    (server <- servers_get_by_id server_id ;;
     match server with
     | None =>
         json_response false None (Some ("Server " ++ str_Z server_id ++ " not found"))
     | Some server =>
         if (server_status server =? STATUS_OFF)%string
         then json_response true
                (Some [("server_id", JInt (Hetzner.server_id server));
                       ("name", JStr (server_name server));
                       ("status", JStr "off");
                       ("message", JStr "Server is already stopped")]) None
         else
           action <- server_shutdown server ;;
           action_wait_until_finished action 60 ;;;
           server <- servers_get_by_id server_id ;;
           match server with
           | None => raise (none_has_no_attribute "id")
           | Some server =>
               json_response true
                 (Some [("server_id", JInt (Hetzner.server_id server));
                        ("name", JStr (server_name server));
                        ("status", JStr (server_status server));
                        ("message", JStr "Server stopped successfully")]) None
           end
     end)
    (fun e => json_response false None (Some (str_exn e))).

Definition reboot_server (api_token : string) (server_id : Z) : M World json :=
  try_except
    (server <- servers_get_by_id server_id ;;
     match server with
     | None =>
         json_response false None (Some ("Server " ++ str_Z server_id ++ " not found"))
     | Some server =>
         action <- server_reboot server ;;
         action_wait_until_finished action 60 ;;;
         json_response true
           (Some [("server_id", JInt (Hetzner.server_id server));
                  ("name", JStr (server_name server));
                  ("status", JStr "rebooting");
                  ("message", JStr "Server rebooted successfully")]) None
     end)
    (fun e => json_response false None (Some (str_exn e))).

Definition get_server_status (api_token : string) (server_id : Z) : M World json :=
  try_except
    (server <- servers_get_by_id server_id ;;
     match server with
     | None =>
         json_response false None (Some ("Server " ++ str_Z server_id ++ " not found"))
     | Some server =>
         json_response true
           (Some [("server_id", JInt (Hetzner.server_id server));
                  ("name", JStr (server_name server));
                  ("status", JStr (server_status server));
                  ("server_type", JStr (server_type_name server));
                  ("datacenter", json_of_opt_str (option_map fst (server_datacenter server)));
                  ("location", json_of_opt_str (option_map snd (server_datacenter server)));
                  ("public_ipv4", json_of_opt_str (public_ipv4 server));
                  ("public_ipv6", json_of_opt_str (public_ipv6 server));
                  ("created", json_of_opt_str (server_created server));
                  ("backup_window", json_of_opt_str (backup_window server));
                  ("locked", JBool (locked server))]) None
     end)
    (fun e => json_response false None (Some (str_exn e))).

(** [img.created_from and img.created_from.id == server_id] *)
Definition created_from_is (server_id : Z) (img : Image) : bool :=
  match created_from img with
  | Some id => id =? server_id
  | None => false
  end.

(** The [for img in images] loop of [check_snapshot_in_progress], with its
    early [return]. *)
Fixpoint check_images (server_id : Z) (images : list Image) : dict :=
  match images with
  | [] => [("in_progress", JBool false)]
  | img :: rest =>
      if created_from_is server_id img
      then if (image_status img =? "creating")%string
           then [("in_progress", JBool true);
                 ("snapshot_id", JInt (image_id img));
                 ("description", JStr (image_description img));
                 ("status", JStr (image_status img))]
           else check_images server_id rest
      else check_images server_id rest
  end.

Definition check_snapshot_in_progress (api_token : string) (server_id : Z) : M World dict :=
  try_except
    (images <- images_get_all ;;
     ret (check_images server_id images))
    (fun e => ret [("in_progress", JBool false); ("error", JStr (str_exn e))]).

Definition create_snapshot (api_token : string) (server_id : Z) (description : string)
    : M World json :=
  try_except
    (server <- servers_get_by_id server_id ;;
     match server with
     | None =>
         json_response false None (Some ("Server " ++ str_Z server_id ++ " not found"))
     | Some server =>
         check_result <- check_snapshot_in_progress api_token server_id ;;
         in_progress <- subscript check_result "in_progress" ;;
         if truthy in_progress
         then
           snapshot_id <- subscript check_result "snapshot_id" ;;
           description' <- subscript check_result "description" ;;
           status <- subscript check_result "status" ;;
           description'' <- subscript check_result "description" ;;
           json_response true
             (Some [("snapshot_id", snapshot_id);
                    ("description", description');
                    ("status", status);
                    ("already_in_progress", JBool true);
                    ("message", JStr ("Snapshot already in progress: "
                                      ++ str_json description''
                                      ++ ". Will wait for it to complete."))]) None
         else
           response <- server_create_image server description ;;
           let image := response_image response in
           let action := response_action response in
           json_response true
             (Some [("snapshot_id", JInt (image_id image));
                    ("description", JStr (image_description image));
                    ("status", JStr (image_status image));
                    ("created", json_of_opt_str (image_created image));
                    ("disk_size", JNum (disk_size image));
                    ("image_size", json_of_opt_Q (image_size image));
                    ("action_id", JInt (action_id action));
                    ("already_in_progress", JBool false);
                    ("message", JStr "Snapshot creation initiated")]) None
     end)
    (fun e => json_response false None (Some (str_exn e))).

(** The [while] loop of [wait_for_snapshot]; [fuel] bounds the number of
    turns. *)
Fixpoint wait_loop (fuel : nat) (snapshot_id : Z) (timeout : Z) (start_time : Q)
    : M World json :=
  match fuel with
  | O => out_of_fuel
  | S fuel' =>
      t <- time_time ;;
      if Qltb (t - start_time) (inject_Z timeout)
      then
        image <- images_get_by_id snapshot_id ;;
        match image with
        | None =>
            json_response false None
              (Some ("Snapshot " ++ str_Z snapshot_id ++ " not found"))
        | Some image =>
            if (image_status image =? "available")%string
            then
              t' <- time_time ;;
              json_response true
                (Some [("snapshot_id", JInt (image_id image));
                       ("description", JStr (image_description image));
                       ("status", JStr "available");
                       ("disk_size", JNum (disk_size image));
                       ("image_size", json_of_opt_Q (image_size image));
                       ("duration_seconds", JInt (int_of_float (t' - start_time)));
                       ("message", JStr "Snapshot completed successfully")]) None
            else if (image_status image =? "creating")%string
            then
              time_sleep 10 ;;;
              wait_loop fuel' snapshot_id timeout start_time
            else
              json_response false None
                (Some ("Unexpected snapshot status: " ++ image_status image))
        end
      else
        json_response false None
          (Some ("Snapshot creation timed out after " ++ str_Z timeout ++ " seconds"))
  end.

Definition wait_for_snapshot (fuel : nat) (api_token : string) (snapshot_id : Z)
    (timeout : Z) : M World json :=
  try_except
    (start_time <- time_time ;;
     wait_loop fuel snapshot_id timeout start_time)
    (fun e => json_response false None (Some (str_exn e))).

(** The four lists [list_snapshots] fills while it walks the images. *)
Record Lists : Type := mkLists {
  snapshots : list json;
  snapshots_with_prefix : list json;
  snapshots_for_server : list json;
  all_snapshots_for_project : list json
}.

Definition snapshot_info (img : Image) : json :=
  JDict [("snapshot_id", JInt (image_id img));
         ("description", JStr (image_description img));
         ("status", JStr (image_status img));
         ("created", json_of_opt_str (image_created img));
         ("disk_size", JNum (disk_size img));
         ("image_size", json_of_opt_Q (image_size img));
         ("created_from_id", json_of_opt_Z (created_from img))].

(** [server_id and img.created_from and
     img.created_from.id == int(server_id)]; the identifier is an integer
    when it is given. *)
Definition matches_server_id (server_id : option Z) (img : Image) : bool :=
  match server_id with
  | Some id =>
      if truthy (JInt id)
      then match created_from img with
           | Some from => from =? id
           | None => false
           end
      else false
  | None => false
  end.

(** [server_name and img.description.startswith(f"{server_name}-")] *)
Definition matches_prefix (server_name : option string) (img : Image) : bool :=
  match server_name with
  | Some name =>
      if truthy (JStr name)
      then startswith (image_description img) (name ++ "-")
      else false
  | None => false
  end.

(** One turn of the [for img in images] loop of [list_snapshots]. *)
Definition list_step (server_name : option string) (server_id : option Z)
    (acc : Lists) (img : Image) : Lists :=
  let info := snapshot_info img in
  let all := (all_snapshots_for_project acc ++ [info])%list in
  if (truthy_opt_str server_name || truthy_opt_Z server_id)%bool
  then
    let for_server :=
      if matches_server_id server_id img
      then (snapshots_for_server acc ++ [info])%list
      else snapshots_for_server acc in
    let with_prefix :=
      if matches_prefix server_name img
      then (snapshots_with_prefix acc ++ [info])%list
      else snapshots_with_prefix acc in
    {| snapshots := snapshots acc;
       snapshots_with_prefix := with_prefix;
       snapshots_for_server := for_server;
       all_snapshots_for_project := all |}
  else
    {| snapshots := (snapshots acc ++ [info])%list;
       snapshots_with_prefix := snapshots_with_prefix acc;
       snapshots_for_server := snapshots_for_server acc;
       all_snapshots_for_project := all |}.

Definition list_snapshots (api_token : string) (server_name : option string)
    (server_id : option Z) : M World json :=
  try_except
    (images <- images_get_all ;;
     let acc :=
       fold_left (list_step server_name server_id) images
         {| snapshots := []; snapshots_with_prefix := [];
            snapshots_for_server := []; all_snapshots_for_project := [] |} in
     let by_id := (truthy_opt_Z server_id && truthy (JList (snapshots_for_server acc)))%bool in
     let by_prefix :=
       (truthy_opt_str server_name && truthy (JList (snapshots_with_prefix acc)))%bool in
     let snapshots :=
       if by_id then snapshots_for_server acc
       else if by_prefix then snapshots_with_prefix acc
       else if (truthy_opt_str server_name || truthy_opt_Z server_id)%bool
            then all_snapshots_for_project acc
            else snapshots acc in
     json_response true
       (Some [("snapshots", JList snapshots);
              ("count", JInt (Z.of_nat (List.length snapshots)));
              ("filter_used",
               JStr (if by_id then "server_id"
                     else if by_prefix then "hostname_prefix"
                     else "all_project"))]) None)
    (fun e => json_response false None (Some (str_exn e))).

Definition delete_snapshot (api_token : string) (snapshot_id : Z) : M World json :=
  try_except
    (image <- images_get_by_id snapshot_id ;;
     match image with
     | None =>
         json_response false None
           (Some ("Snapshot " ++ str_Z snapshot_id ++ " not found"))
     | Some image =>
         image_delete image ;;;
         json_response true
           (Some [("snapshot_id", JInt snapshot_id);
                  ("message", JStr "Snapshot deleted successfully")]) None
     end)
    (fun e => json_response false None (Some (str_exn e))).

(** [sys.argv[i]] *)
Definition argv_at (argv : list string) (i : nat) : M World string :=
  match nth_error argv i with
  | Some s => ret s
  | None => raise (IndexError "list index out of range")
  end.

(** [print(json_response(False, error=msg)); sys.exit(1)] *)
Definition fail_with (msg : string) : M World unit :=
  doc <- json_response false None (Some msg) ;;
  print doc ;;;
  sys_exit 1.

Definition main (fuel : nat) (argv : list string) : M World unit :=
  if (List.length argv <? 3)%nat
  then fail_with "Usage: hetzner_cloud.py <command> <api_token> [args...]"
  else
    command <- argv_at argv 1 ;;
    api_token <- argv_at argv 2 ;;
    if (command =? "start")%string then
      if (List.length argv <? 4)%nat
      then fail_with "Usage: hetzner_cloud.py start <api_token> <server_id>"
      else
        a <- argv_at argv 3 ;;
        server_id <- lift (int a) ;;
        doc <- start_server api_token server_id ;;
        print doc
    else if (command =? "stop")%string then
      if (List.length argv <? 4)%nat
      then fail_with "Usage: hetzner_cloud.py stop <api_token> <server_id>"
      else
        a <- argv_at argv 3 ;;
        server_id <- lift (int a) ;;
        doc <- stop_server api_token server_id ;;
        print doc
    else if (command =? "reboot")%string then
      if (List.length argv <? 4)%nat
      then fail_with "Usage: hetzner_cloud.py reboot <api_token> <server_id>"
      else
        a <- argv_at argv 3 ;;
        server_id <- lift (int a) ;;
        doc <- reboot_server api_token server_id ;;
        print doc
    else if (command =? "status")%string then
      if (List.length argv <? 4)%nat
      then fail_with "Usage: hetzner_cloud.py status <api_token> <server_id>"
      else
        a <- argv_at argv 3 ;;
        server_id <- lift (int a) ;;
        doc <- get_server_status api_token server_id ;;
        print doc
    else if (command =? "create_snapshot")%string then
      if (List.length argv <? 5)%nat
      then fail_with
             "Usage: hetzner_cloud.py create_snapshot <api_token> <server_id> <description>"
      else
        a <- argv_at argv 3 ;;
        server_id <- lift (int a) ;;
        description <- argv_at argv 4 ;;
        doc <- create_snapshot api_token server_id description ;;
        print doc
    else if (command =? "wait_snapshot")%string then
      if (List.length argv <? 4)%nat
      then fail_with
             "Usage: hetzner_cloud.py wait_snapshot <api_token> <snapshot_id> [timeout]"
      else
        timeout <- (if (4 <? List.length argv)%nat
                    then b <- argv_at argv 4 ;; lift (int b)
                    else ret 900) ;;
        a <- argv_at argv 3 ;;
        snapshot_id <- lift (int a) ;;
        doc <- wait_for_snapshot fuel api_token snapshot_id timeout ;;
        print doc
    else if (command =? "list_snapshots")%string then
      server_name <- (if (3 <? List.length argv)%nat
                      then a <- argv_at argv 3 ;; ret (Some a)
                      else ret None) ;;
      doc <- list_snapshots api_token server_name None ;;
      print doc
    else if (command =? "delete_snapshot")%string then
      if (List.length argv <? 4)%nat
      then fail_with "Usage: hetzner_cloud.py delete_snapshot <api_token> <snapshot_id>"
      else
        a <- argv_at argv 3 ;;
        snapshot_id <- lift (int a) ;;
        doc <- delete_snapshot api_token snapshot_id ;;
        print doc
    else
      fail_with ("Unknown command: " ++ command).

End Hetzner.

(** ** The hypervisor script, [proxmox_api.py] *)

Module Proxmox.

(** *** The REST client and the environment

    [proxmoxer] turns an attribute path into one HTTP request:
    [proxmox.nodes(node).qemu(vmid).status.current.get()] is
    [GET nodes/<node>/qemu/<vmid>/status/current], and returns the decoded
    body or raises.  The [path] of a request lists, in order, the pieces
    the library joins into the URL. *)

Inductive Method : Type := GET | POST | DELETE.

Record Request : Type := mkRequest {
  meth : Method;
  path : list string;
  params : dict
}.

Inductive Reply : Type :=
| Answer (body : json)
| Failure (msg : string).

Record World : Type := mkWorld {
  (** what the API answers to the request issued after [n] others *)
  respond : nat -> Request -> Reply;
  (** successive readings of the wall clock *)
  clock : nat -> Q;
  ticks : nat;
  (** requests issued so far, latest first *)
  log : list Request;
  (** documents printed so far, latest first *)
  stdout : list json
}.

Definition request (m : Method) (p : list string) (args : dict) : M World json :=
  fun w =>
    let r := {| meth := m; path := p; params := args |} in
    let w' := {| respond := respond w; clock := clock w; ticks := ticks w;
                 log := r :: log w; stdout := stdout w |} in
    match respond w (List.length (log w)) r with
    | Answer body => (Ret body, w')
    | Failure msg => (Raise (APIException msg), w')
    end.

Definition tick (w : World) : World :=
  {| respond := respond w; clock := clock w; ticks := S (ticks w);
     log := log w; stdout := stdout w |}.

(** [datetime.now().isoformat()] *)
Definition datetime_now_isoformat : M World json :=
  fun w => (Ret (JTime (clock w (ticks w))), tick w).

(** [time.sleep(seconds)] *)
Definition time_sleep (seconds : Q) : M World unit :=
  fun w => (Ret tt, tick w).

(** [print(doc)] *)
Definition print (doc : json) : M World unit :=
  fun w =>
    (Ret tt, {| respond := respond w; clock := clock w; ticks := ticks w;
                log := log w; stdout := doc :: stdout w |}).

(** [sys.exit(code)] *)
Definition sys_exit {A : Type} (code : Z) : M World A := raise (SystemExit code).

(** [type(v).__name__] of a decoded body; a body holds no [JTime], which
    stands for the text of a timestamp. *)
Definition type_name (v : json) : string :=
  match v with
  | JNull => "NoneType"
  | JBool _ => "bool"
  | JInt _ => "int"
  | JNum _ => "float"
  | JStr _ | JTime _ => "str"
  | JList _ => "list"
  | JDict _ => "dict"
  end.

(** [v[k]] on a decoded body, with a string [k] *)
Definition item (v : json) (k : string) : M World json :=
  match v with
  | JDict d => subscript d k
  | JStr _ | JTime _ => raise (TypeError "string indices must be integers, not 'str'")
  | JList _ => raise (TypeError "list indices must be integers or slices, not str")
  | _ => raise (TypeError ("'" ++ type_name v ++ "' object is not subscriptable"))
  end.

(** [v.get(k, default)] on a decoded body *)
Definition get_or (v : json) (k : string) (default : json) : M World json :=
  match v with
  | JDict d => ret (dict_get_default k default d)
  | _ => raise (AttributeError ("'" ++ type_name v ++ "' object has no attribute 'get'"))
  end.

Fixpoint chars (s : string) : list json :=
  match s with
  | EmptyString => []
  | String c s' => JStr (String c EmptyString) :: chars s'
  end.

(** What [for x in v] walks through. *)
Definition iterate (v : json) : M World (list json) :=
  match v with
  | JList l => ret l
  | JDict d => ret (map JStr (dict_keys d))
  | JStr s => ret (chars s)
  | _ => raise (TypeError ("'" ++ type_name v ++ "' object is not iterable"))
  end.

(** [len(v)] *)
Definition len (v : json) : M World Z :=
  match v with
  | JList l => ret (Z.of_nat (List.length l))
  | JDict d => ret (Z.of_nat (List.length d))
  | JStr s => ret (Z.of_nat (String.length s))
  | _ => raise (TypeError ("object of type '" ++ type_name v ++ "' has no len()"))
  end.

(** [for x in xs: body(x)], collecting what the bodies append. *)
Fixpoint for_each {A B : Type} (body : A -> M World (list B)) (xs : list A)
    : M World (list B) :=
  match xs with
  | [] => ret []
  | x :: rest =>
      ys <- body x ;;
      zs <- for_each body rest ;;
      ret (ys ++ zs)%list
  end.

(** *** The script *)

Definition json_response (success : bool) (data : option dict) (error : option string)
    (message : option string) : M World json :=
  ts <- datetime_now_isoformat ;;
  let response := [("success", JBool success); ("timestamp", ts)] in
  let response :=
    match data with
    | Some d => if truthy (JDict d) then dict_set "data" (JDict d) response else response
    | None => response
    end in
  let response :=
    match error with
    | Some e => if truthy (JStr e) then dict_set "error" (JStr e) response else response
    | None => response
    end in
  let response :=
    match message with
    | Some m => if truthy (JStr m) then dict_set "message" (JStr m) response else response
    | None => response
    end in
  ret (JDict response).

(** The pieces of [s.split('=')]. *)
Fixpoint split_eq (cur : string) (s : string) : list string :=
  match s with
  | EmptyString => [string_rev "" cur]
  | String c s' =>
      if Ascii.eqb c "="%char
      then string_rev "" cur :: split_eq "" s'
      else split_eq (String c cur) s'
  end.

Fixpoint contains_eq (s : string) : bool :=
  match s with
  | EmptyString => false
  | String c s' => (Ascii.eqb c "="%char || contains_eq s')%bool
  end.

Record Client : Type := mkClient {
  host : string;
  user : string;
  token_name : string;
  token_value : string;
  backend : string;
  client_verify_ssl : bool
}.

Definition connect_proxmox (api_url username token : string) (verify_ssl : bool)
    : M World Client :=
  token_name <- (if contains_eq token
                 then match nth_error (split_eq "" token) 0 with
                      | Some s => ret s
                      | None => raise (IndexError "list index out of range")
                      end
                 else ret "api") ;;
  token_value <- (if contains_eq token
                  then match nth_error (split_eq "" token) 1 with
                       | Some s => ret s
                       | None => raise (IndexError "list index out of range")
                       end
                  else ret token) ;;
  ret {| host := "localhost"; user := username; token_name := token_name;
         token_value := token_value; backend := "https";
         client_verify_ssl := verify_ssl |}.

(** [if not proxmox]: the client object is always true. *)
Definition falsy_client (proxmox : Client) : bool := false.

Definition failed_to_connect : M World json :=
  json_response false None (Some "Failed to connect to Proxmox API") None.

Definition invalid_vm_type (vm_type : string) : M World json :=
  json_response false None (Some ("Invalid VM type: " ++ vm_type)) None.

(** The pieces of [s.split('/')]. *)
Fixpoint split_slash (cur : string) (s : string) : list string :=
  match s with
  | EmptyString => [string_rev "" cur]
  | String c s' =>
      if Ascii.eqb c "/"%char
      then string_rev "" cur :: split_slash "" s'
      else split_slash (String c cur) s'
  end.

(** [resource(id)] on a string, as in [proxmox.nodes(node)] and
    [snapshot(snap_name)]: an empty id gives the resource itself, and any
    other id adds its parts between slashes as pieces of the path. *)
Definition resource (id : string) : list string :=
  if (id =? "")%string then [] else split_slash "" id.

(** [proxmox.nodes(node).<kind>(vmid)]: the guest id is an integer and
    makes one piece. *)
Definition guest (node : string) (kind : string) (vmid : Z) : list string :=
  ("nodes" :: resource node ++ [kind; str_Z vmid])%list.

Definition get_vm_status (api_url username token node : string) (vmid : Z)
    (vm_type : string) (verify_ssl : bool) : M World json :=
  try_except
    (proxmox <- connect_proxmox api_url username token verify_ssl ;;
     if falsy_client proxmox then failed_to_connect else
     vm_info <- (if (vm_type =? "qemu")%string
                 then v <- request GET (guest node "qemu" vmid ++ ["status"; "current"]) [] ;;
                      ret (Some v)
                 else if (vm_type =? "lxc")%string
                 then v <- request GET (guest node "lxc" vmid ++ ["status"; "current"]) [] ;;
                      ret (Some v)
                 else ret None) ;;
     match vm_info with
     | None => invalid_vm_type vm_type
     | Some vm_info =>
         status <- item vm_info "status" ;;
         uptime <- get_or vm_info "uptime" (JInt 0) ;;
         cpus <- get_or vm_info "cpus" (JInt 0) ;;
         memory <- get_or vm_info "mem" (JInt 0) ;;
         maxmem <- get_or vm_info "maxmem" (JInt 0) ;;
         name <- get_or vm_info "name" (JStr (vm_type ++ "-" ++ str_Z vmid)) ;;
         json_response true
           (Some [("vmid", JInt vmid); ("node", JStr node); ("type", JStr vm_type);
                  ("status", status); ("uptime", uptime); ("cpus", cpus);
                  ("memory", memory); ("maxmem", maxmem); ("name", name)]) None None
     end)
    (fun e => json_response false None (Some (str_exn e)) None).

(** The status check that opens [start_vm], [stop_vm] and [shutdown_vm] for
    one kind of guest: [Some doc] when the function returns early with
    [doc], [None] when it goes on after the [action] request. *)
Definition check_then_post (node : string) (kind : string) (vmid : Z)
    (vm_type : string) (settled : string) (action : string) : M World (option json) :=
  current <- request GET (guest node kind vmid ++ ["status"; "current"]) [] ;;
  status <- item current "status" ;;
  if eq_str status settled
  then
    doc <- json_response true (Some [("status", JStr settled)]) None
             (Some (upper vm_type ++ " is already " ++ settled)) ;;
    ret (Some doc)
  else
    request POST (guest node kind vmid ++ ["status"; action]) [] ;;;
    ret None.

(** [if vm_type == 'qemu': ... else: ...] around the second status query *)
Definition refreshed_status (node : string) (vmid : Z) (vm_type : string) : M World json :=
  if (vm_type =? "qemu")%string
  then request GET (guest node "qemu" vmid ++ ["status"; "current"]) []
  else request GET (guest node "lxc" vmid ++ ["status"; "current"]) [].

Definition start_vm (api_url username token node : string) (vmid : Z)
    (vm_type : string) (verify_ssl : bool) : M World json :=
  try_except
    (proxmox <- connect_proxmox api_url username token verify_ssl ;;
     if falsy_client proxmox then failed_to_connect else
     early <- (if (vm_type =? "qemu")%string
               then check_then_post node "qemu" vmid vm_type "running" "start"
               else if (vm_type =? "lxc")%string
               then check_then_post node "lxc" vmid vm_type "running" "start"
               else doc <- invalid_vm_type vm_type ;; ret (Some doc)) ;;
     match early with
     | Some doc => ret doc
     | None =>
         time_sleep 2 ;;;
         new_status <- refreshed_status node vmid vm_type ;;
         status <- item new_status "status" ;;
         json_response true
           (Some [("vmid", JInt vmid); ("node", JStr node); ("type", JStr vm_type);
                  ("status", status)]) None
           (Some (upper vm_type ++ " start initiated"))
     end)
    (fun e => json_response false None (Some (str_exn e)) None).

Definition stop_vm (api_url username token node : string) (vmid : Z)
    (vm_type : string) (verify_ssl : bool) : M World json :=
  try_except
    (proxmox <- connect_proxmox api_url username token verify_ssl ;;
     if falsy_client proxmox then failed_to_connect else
     early <- (if (vm_type =? "qemu")%string
               then check_then_post node "qemu" vmid vm_type "stopped" "stop"
               else if (vm_type =? "lxc")%string
               then check_then_post node "lxc" vmid vm_type "stopped" "stop"
               else doc <- invalid_vm_type vm_type ;; ret (Some doc)) ;;
     match early with
     | Some doc => ret doc
     | None =>
         time_sleep 2 ;;;
         new_status <- refreshed_status node vmid vm_type ;;
         status <- item new_status "status" ;;
         json_response true
           (Some [("vmid", JInt vmid); ("node", JStr node); ("type", JStr vm_type);
                  ("status", status)]) None
           (Some (upper vm_type ++ " stop initiated"))
     end)
    (fun e => json_response false None (Some (str_exn e)) None).

Definition shutdown_vm (api_url username token node : string) (vmid : Z)
    (vm_type : string) (verify_ssl : bool) : M World json :=
  try_except
    (proxmox <- connect_proxmox api_url username token verify_ssl ;;
     if falsy_client proxmox then failed_to_connect else
     early <- (if (vm_type =? "qemu")%string
               then check_then_post node "qemu" vmid vm_type "stopped" "shutdown"
               else if (vm_type =? "lxc")%string
               then check_then_post node "lxc" vmid vm_type "stopped" "shutdown"
               else doc <- invalid_vm_type vm_type ;; ret (Some doc)) ;;
     match early with
     | Some doc => ret doc
     | None =>
         json_response true
           (Some [("vmid", JInt vmid); ("node", JStr node); ("type", JStr vm_type);
                  ("status", JStr "shutting_down")]) None
           (Some (upper vm_type ++ " graceful shutdown initiated"))
     end)
    (fun e => json_response false None (Some (str_exn e)) None).

(** The [if vm_type == 'qemu': ... elif vm_type == 'lxc': ... else: return]
    of the operations that issue one request: [None] is the early return. *)
Definition by_kind (vm_type : string) (on_qemu on_lxc : M World json)
    : M World (option json) :=
  if (vm_type =? "qemu")%string then v <- on_qemu ;; ret (Some v)
  else if (vm_type =? "lxc")%string then v <- on_lxc ;; ret (Some v)
  else ret None.

Definition reboot_vm (api_url username token node : string) (vmid : Z)
    (vm_type : string) (verify_ssl : bool) : M World json :=
  try_except
    (proxmox <- connect_proxmox api_url username token verify_ssl ;;
     if falsy_client proxmox then failed_to_connect else
     done <- by_kind vm_type
               (request POST (guest node "qemu" vmid ++ ["status"; "reboot"]) [])
               (request POST (guest node "lxc" vmid ++ ["status"; "reboot"]) []) ;;
     match done with
     | None => invalid_vm_type vm_type
     | Some _ =>
         json_response true
           (Some [("vmid", JInt vmid); ("node", JStr node); ("type", JStr vm_type)]) None
           (Some (upper vm_type ++ " reboot initiated"))
     end)
    (fun e => json_response false None (Some (str_exn e)) None).

(** [x not in ['current', None]] *)
Definition not_current_or_none (x : json) : bool :=
  negb (eq_str x "current" ||
        match x with JNull => true | _ => false end)%bool.

(** The body of the [for snap in snapshots] loop. *)
Definition snapshot_entry (snap : json) : M World (list json) :=
  name <- get_or snap "name" JNull ;;
  if not_current_or_none name
  then
    name' <- get_or snap "name" JNull ;;
    description <- get_or snap "description" (JStr "") ;;
    snaptime <- get_or snap "snaptime" (JInt 0) ;;
    vmstate <- get_or snap "vmstate" (JInt 0) ;;
    ret [JDict [("name", name'); ("description", description);
                ("snaptime", snaptime); ("vmstate", vmstate)]]
  else ret [].

Definition list_snapshots (api_url username token node : string) (vmid : Z)
    (vm_type : string) (verify_ssl : bool) : M World json :=
  try_except
    (proxmox <- connect_proxmox api_url username token verify_ssl ;;
     if falsy_client proxmox then failed_to_connect else
     snapshots <- by_kind vm_type
                    (request GET (guest node "qemu" vmid ++ ["snapshot"]) [])
                    (request GET (guest node "lxc" vmid ++ ["snapshot"]) []) ;;
     match snapshots with
     | None => invalid_vm_type vm_type
     | Some snapshots =>
         snaps <- iterate snapshots ;;
         snapshot_list <- for_each snapshot_entry snaps ;;
         json_response true
           (Some [("vmid", JInt vmid); ("node", JStr node); ("type", JStr vm_type);
                  ("snapshots", JList snapshot_list);
                  ("count", JInt (Z.of_nat (List.length snapshot_list)))]) None None
     end)
    (fun e => json_response false None (Some (str_exn e)) None).

Definition create_snapshot (api_url username token node : string) (vmid : Z)
    (vm_type snap_name description : string) (verify_ssl : bool) : M World json :=
  try_except
    (proxmox <- connect_proxmox api_url username token verify_ssl ;;
     if falsy_client proxmox then failed_to_connect else
     done <- by_kind vm_type
               (request POST (guest node "qemu" vmid ++ ["snapshot"])
                  [("snapname", JStr snap_name); ("description", JStr description);
                   ("vmstate", JInt 0)])
               (request POST (guest node "lxc" vmid ++ ["snapshot"])
                  [("snapname", JStr snap_name); ("description", JStr description)]) ;;
     match done with
     | None => invalid_vm_type vm_type
     | Some _ =>
         json_response true
           (Some [("vmid", JInt vmid); ("node", JStr node); ("type", JStr vm_type);
                  ("snapshot_name", JStr snap_name)]) None
           (Some ("Snapshot " ++ snap_name ++ " created"))
     end)
    (fun e => json_response false None (Some (str_exn e)) None).

Definition rollback_snapshot (api_url username token node : string) (vmid : Z)
    (vm_type snap_name : string) (verify_ssl : bool) : M World json :=
  try_except
    (proxmox <- connect_proxmox api_url username token verify_ssl ;;
     if falsy_client proxmox then failed_to_connect else
     done <- by_kind vm_type
               (request POST (guest node "qemu" vmid ++ "snapshot"
                                :: resource snap_name ++ ["rollback"]) [])
               (request POST (guest node "lxc" vmid ++ "snapshot"
                                :: resource snap_name ++ ["rollback"]) []) ;;
     match done with
     | None => invalid_vm_type vm_type
     | Some _ =>
         json_response true
           (Some [("vmid", JInt vmid); ("node", JStr node); ("type", JStr vm_type);
                  ("snapshot_name", JStr snap_name)]) None
           (Some ("Rolled back to snapshot " ++ snap_name))
     end)
    (fun e => json_response false None (Some (str_exn e)) None).

Definition delete_snapshot (api_url username token node : string) (vmid : Z)
    (vm_type snap_name : string) (verify_ssl : bool) : M World json :=
  try_except
    (proxmox <- connect_proxmox api_url username token verify_ssl ;;
     if falsy_client proxmox then failed_to_connect else
     done <- by_kind vm_type
               (request DELETE (guest node "qemu" vmid ++ "snapshot"
                                  :: resource snap_name) [])
               (request DELETE (guest node "lxc" vmid ++ "snapshot"
                                  :: resource snap_name) []) ;;
     match done with
     | None => invalid_vm_type vm_type
     | Some _ =>
         json_response true
           (Some [("vmid", JInt vmid); ("node", JStr node); ("type", JStr vm_type);
                  ("snapshot_name", JStr snap_name)]) None
           (Some ("Snapshot " ++ snap_name ++ " deleted"))
     end)
    (fun e => json_response false None (Some (str_exn e)) None).

(** The body of the two loops of [list_vms]. *)
Definition vm_entry (kind : string) (prefix : string) (vm : json) : M World (list json) :=
  vmid <- item vm "vmid" ;;
  vmid' <- item vm "vmid" ;;
  name <- get_or vm "name" (JStr (prefix ++ "-" ++ str_json vmid')) ;;
  status <- get_or vm "status" (JStr "unknown") ;;
  cpus <- get_or vm "cpus" (JInt 0) ;;
  maxmem <- get_or vm "maxmem" (JInt 0) ;;
  ret [JDict [("vmid", vmid); ("name", name); ("type", JStr kind);
              ("status", status); ("cpus", cpus); ("maxmem", maxmem)]].

Definition list_vms (api_url username token node : string) (verify_ssl : bool)
    : M World json :=
  try_except
    (proxmox <- connect_proxmox api_url username token verify_ssl ;;
     if falsy_client proxmox then failed_to_connect else
     qemu_vms <- request GET ("nodes" :: resource node ++ ["qemu"]) [] ;;
     qemu_vms <- iterate qemu_vms ;;
     vms <- for_each (vm_entry "qemu" "vm") qemu_vms ;;
     lxc_containers <- request GET ("nodes" :: resource node ++ ["lxc"]) [] ;;
     lxc_containers <- iterate lxc_containers ;;
     cts <- for_each (vm_entry "lxc" "ct") lxc_containers ;;
     let vms := (vms ++ cts)%list in
     json_response true
       (Some [("node", JStr node); ("vms", JList vms);
              ("count", JInt (Z.of_nat (List.length vms)))]) None None)
    (fun e => json_response false None (Some (str_exn e)) None).

Definition test_connection (api_url username token : string) (verify_ssl : bool)
    : M World json :=
  try_except
    (proxmox <- connect_proxmox api_url username token verify_ssl ;;
     if falsy_client proxmox then failed_to_connect else
     version <- request GET ["version"] [] ;;
     nodes <- request GET ["nodes"] [] ;;
     v <- get_or version "version" (JStr "unknown") ;;
     each <- iterate nodes ;;
     names <- for_each (fun node => n <- item node "node" ;; ret [n]) each ;;
     node_count <- len nodes ;;
     json_response true
       (Some [("version", v); ("nodes", JList names); ("node_count", JInt node_count)])
       None (Some "Connection successful"))
    (fun e => json_response false None (Some (str_exn e)) None).

(** [sys.argv[i]] *)
Definition argv_at (argv : list string) (i : nat) : M World string :=
  match nth_error argv i with
  | Some s => ret s
  | None => raise (IndexError "list index out of range")
  end.

(** [sys.argv[i:j]] *)
Definition argv_slice (argv : list string) (i j : nat) : list string :=
  firstn (j - i) (skipn i argv).

Definition not_enough_values (expected : nat) (got : nat) : exn :=
  ValueError ("not enough values to unpack (expected " ++ str_Z (Z.of_nat expected)
              ++ ", got " ++ str_Z (Z.of_nat got) ++ ")").

(** [a, b, c, d = xs] *)
Definition unpack4 (xs : list string) : M World (string * string * string * string) :=
  match xs with
  | [a; b; c; d] => ret (a, b, c, d)
  | _ => raise (not_enough_values 4 (List.length xs))
  end.

(** [a, b, c, d, e, f = xs] *)
Definition unpack6 (xs : list string)
    : M World (string * string * string * string * string * string) :=
  match xs with
  | [a; b; c; d; e; f] => ret (a, b, c, d, e, f)
  | _ => raise (not_enough_values 6 (List.length xs))
  end.

(** [a, b, c, d, e, f, g = xs] *)
Definition unpack7 (xs : list string)
    : M World (string * string * string * string * string * string * string) :=
  match xs with
  | [a; b; c; d; e; f; g] => ret (a, b, c, d, e, f, g)
  | _ => raise (not_enough_values 7 (List.length xs))
  end.

(** [sys.argv[i].lower() == 'true' if len(sys.argv) > i else True] *)
Definition verify_ssl_at (argv : list string) (i : nat) : M World bool :=
  if (i <? List.length argv)%nat
  then a <- argv_at argv i ;; ret (lower a =? "true")%string
  else ret true.

(** The six arguments of the per-guest commands, then the call. *)
Definition on_guest (argv : list string)
    (op : string -> string -> string -> string -> Z -> string -> bool -> M World json)
    : M World unit :=
  args <- unpack6 (argv_slice argv 2 8) ;;
  let '(api_url, username, token, node, vmid, vm_type) := args in
  verify_ssl <- verify_ssl_at argv 8 ;;
  vmid <- lift (int vmid) ;;
  doc <- op api_url username token node vmid vm_type verify_ssl ;;
  print doc.

Definition dispatch (command : string) (argv : list string) : M World unit :=
  if (command =? "test_connection")%string then
    api_url <- argv_at argv 2 ;;
    username <- argv_at argv 3 ;;
    token <- argv_at argv 4 ;;
    verify_ssl <- verify_ssl_at argv 5 ;;
    doc <- test_connection api_url username token verify_ssl ;;
    print doc
  else if (command =? "get_vm_status")%string then on_guest argv get_vm_status
  else if (command =? "start_vm")%string then on_guest argv start_vm
  else if (command =? "stop_vm")%string then on_guest argv stop_vm
  else if (command =? "shutdown_vm")%string then on_guest argv shutdown_vm
  else if (command =? "reboot_vm")%string then on_guest argv reboot_vm
  else if (command =? "list_snapshots")%string then on_guest argv list_snapshots
  else if (command =? "create_snapshot")%string then
    args <- unpack7 (argv_slice argv 2 9) ;;
    let '(api_url, username, token, node, vmid, vm_type, snap_name) := args in
    description <- (if (9 <? List.length argv)%nat then argv_at argv 9 else ret "") ;;
    verify_ssl <- verify_ssl_at argv 10 ;;
    vmid <- lift (int vmid) ;;
    doc <- create_snapshot api_url username token node vmid vm_type snap_name
             description verify_ssl ;;
    print doc
  else if (command =? "rollback_snapshot")%string then
    args <- unpack7 (argv_slice argv 2 9) ;;
    let '(api_url, username, token, node, vmid, vm_type, snap_name) := args in
    verify_ssl <- verify_ssl_at argv 9 ;;
    vmid <- lift (int vmid) ;;
    doc <- rollback_snapshot api_url username token node vmid vm_type snap_name
             verify_ssl ;;
    print doc
  else if (command =? "delete_snapshot")%string then
    args <- unpack7 (argv_slice argv 2 9) ;;
    let '(api_url, username, token, node, vmid, vm_type, snap_name) := args in
    verify_ssl <- verify_ssl_at argv 9 ;;
    vmid <- lift (int vmid) ;;
    doc <- delete_snapshot api_url username token node vmid vm_type snap_name
             verify_ssl ;;
    print doc
  else if (command =? "list_vms")%string then
    args <- unpack4 (argv_slice argv 2 6) ;;
    let '(api_url, username, token, node) := args in
    verify_ssl <- verify_ssl_at argv 6 ;;
    doc <- list_vms api_url username token node verify_ssl ;;
    print doc
  else
    doc <- json_response false None (Some ("Unknown command: " ++ command)) None ;;
    print doc ;;;
    sys_exit 1.

(** The two [except] clauses of the main block: [except IndexError], then
    [except Exception as e]. *)
Definition on_error (command : string) (e : exn) : M World unit :=
  match e with
  | IndexError _ =>
      doc <- json_response false None
               (Some ("Missing required arguments for command: " ++ command)) None ;;
      print doc ;;;
      sys_exit 1
  | _ =>
      doc <- json_response false None (Some (str_exn e)) None ;;
      print doc ;;;
      sys_exit 1
  end.

(** The body under [if __name__ == "__main__":]. *)
Definition main (argv : list string) : M World unit :=
  if (List.length argv <? 2)%nat
  then
    doc <- json_response false None (Some "Usage: proxmox_api.py <command> <args>") None ;;
    print doc ;;;
    sys_exit 1
  else
    command <- argv_at argv 1 ;;
    try_except (dispatch command argv) (on_error command).

End Proxmox.

(** ** Reading results and logs *)

(** A key of the printed document. *)
Definition field (k : string) (doc : json) : option json :=
  match doc with
  | JDict d => dict_get k d
  | _ => None
  end.

(** A key of the document's [data] object. *)
Definition data_field (k : string) (doc : json) : option json :=
  match field "data" doc with
  | Some d => field k d
  | None => None
  end.

Definition keys (doc : json) : list string :=
  match doc with
  | JDict d => dict_keys d
  | _ => []
  end.

Definition succeeded (doc : json) : Prop := field "success" doc = Some (JBool true).

Definition failed_with (msg : string) (doc : json) : Prop :=
  field "success" doc = Some (JBool false) /\ field "error" doc = Some (JStr msg).

(** The [error] key [json_response] writes for the text of an exception:
    an empty text is false, and leaves no key. *)
Definition error_text (msg : string) : option json :=
  if truthy_str msg then Some (JStr msg) else None.

(** *** How a piece of code can end

    [out] reads the documents printed so far from a world. *)

Section Conduct.
Context {W : Type} (out : W -> list json).

(** What code can leave behind for an enclosing [except Exception]: a
    value or an exception of that class. *)
Definition catchable {A : Type} (o : Outcome A) : Prop :=
  match o with
  | Ret _ => True
  | Raise e => is_Exception e = true
  | OutOfFuel => False
  end.

(** Code that ends with a value or with an exception an [except Exception]
    clause catches, and prints nothing. *)
Definition safe {A : Type} (m : M W A) : Prop :=
  forall w, catchable (fst (m w)) /\ out (snd (m w)) = out w.

(** Code that ends with a value and prints nothing. *)
Definition returns {A : Type} (m : M W A) : Prop :=
  forall w, exists a w', m w = (Ret a, w') /\ out w' = out w.

(** Code that has printed exactly one document when it ends, unless it
    ends with an exception an [except Exception] clause catches, and then
    it has printed none. *)
Definition reports (m : M W unit) : Prop :=
  forall w,
    match fst (m w) with
    | Ret _ | Raise (SystemExit _) => exists doc, out (snd (m w)) = doc :: out w
    | Raise _ => out (snd (m w)) = out w
    | OutOfFuel => False
    end.

(** Code that ends with a value, or is cut off in a loop, and prints
    nothing. *)
Definition settles {A : Type} (m : M W A) : Prop :=
  forall w,
    (exists a w', m w = (Ret a, w') /\ out w' = out w) \/
    (exists w', m w = (OutOfFuel, w') /\ out w' = out w).

End Conduct.

Module HetznerLog.
Import Hetzner.

Definition is_create (e : Event) : bool :=
  match e with
  | ServerCreateImage _ _ => true
  | _ => false
  end.

Definition is_power_on (e : Event) : bool :=
  match e with
  | ServerPowerOn _ => true
  | _ => false
  end.

Definition is_poll (e : Event) : bool :=
  match e with
  | ImagesGetById _ _ => true
  | _ => false
  end.

(** Number of create calls in a log. *)
Definition creates (l : list Event) : nat := List.length (filter is_create l).

(** A snapshot of the server that is being created. *)
Definition creating_for (server_id : Z) (img : Image) : bool :=
  (created_from_is server_id img && (image_status img =? "creating")%string)%bool.

(** Number of snapshots the provider holds in state [creating] for a server. *)
Definition creating_count (server_id : Z) (p : Provider) : nat :=
  List.length (filter (creating_for server_id) (images p)).

(** A call of [create_snapshot] from [w] that attaches to a snapshot job
    under way: a success tagged [already_in_progress], and no create
    call. *)
Definition attaches (w : World) (r : Outcome json * World) : Prop :=
  match r with
  | (Ret doc, w') =>
      succeeded doc /\
      data_field "already_in_progress" doc = Some (JBool true) /\
      creates (log w') = creates (log w)
  | _ => False
  end.

(** The status query of snapshot [id] answered with [img]. *)
Definition polled (id : Z) (events : list Event) (img : Image) : Prop :=
  In (ImagesGetById id (Ret (Some img))) events.

(** Every status query among the events answered with a snapshot in state
    [creating]. *)
Definition all_creating (id : Z) (events : list Event) : Prop :=
  forall e, In e events -> is_poll e = true ->
    exists img, e = ImagesGetById id (Ret (Some img)) /\ image_status img = "creating".

Definition timed_out (timeout : Z) : string :=
  "Snapshot creation timed out after " ++ str_Z timeout ++ " seconds".

(** How a run of the polling loop can end, with the events it added to the
    log (latest first). *)
Inductive ended (id : Z) (timeout : Z) : list Event -> Outcome json -> Prop :=
| ended_timeout events doc :
    all_creating id events ->
    failed_with (timed_out timeout) doc ->
    ended id timeout events (Ret doc)
| ended_available img duration events doc :
    all_creating id events ->
    image_status img = "available" ->
    succeeded doc ->
    field "data" doc
      = Some (JDict [("snapshot_id", JInt (image_id img));
                     ("description", JStr (image_description img));
                     ("status", JStr "available");
                     ("disk_size", JNum (disk_size img));
                     ("image_size", json_of_opt_Q (image_size img));
                     ("duration_seconds", JInt duration);
                     ("message", JStr "Snapshot completed successfully")]) ->
    ended id timeout (ImagesGetById id (Ret (Some img)) :: events) (Ret doc)
| ended_unexpected img events doc :
    all_creating id events ->
    image_status img <> "available" ->
    image_status img <> "creating" ->
    failed_with ("Unexpected snapshot status: " ++ image_status img) doc ->
    ended id timeout (ImagesGetById id (Ret (Some img)) :: events) (Ret doc)
| ended_not_found events doc :
    all_creating id events ->
    failed_with ("Snapshot " ++ str_Z id ++ " not found") doc ->
    ended id timeout (ImagesGetById id (Ret None) :: events) (Ret doc)
| ended_raised msg events :
    all_creating id events ->
    ended id timeout (ImagesGetById id (Raise (APIException msg)) :: events)
      (Raise (APIException msg))
| ended_cut events :
    ended id timeout events OutOfFuel.

Definition is_sleep (e : Event) : bool :=
  match e with
  | Sleep _ => true
  | _ => false
  end.

(** Number of sleeps among the events. *)
Definition sleeps (events : list Event) : nat := List.length (filter is_sleep events).

(** The time the environment lets pass during the given steps. *)
Definition total_elapse (steps : list EnvStep) : Q :=
  fold_right (fun s q => (elapse s + q)%Q) 0%Q steps.

(** The seconds between the first reading of the clock of a wait that
    starts in [w] and the reading it takes after the status query that
    ends it, given the events of the wait: the first step of the
    environment belongs to the first reading; each turn of the loop then
    makes three calls (clock, status query, and sleep or clock) during
    which the environment lets time pass, and each sleep lasts ten
    seconds. *)
Definition elapsed (w : World) (events : list Event) : Q :=
  (total_elapse (firstn (3 * sleeps events + 3) (skipn 1 (sched w)))
   + 10 * inject_Z (Z.of_nat (sleeps events)))%Q.

(** What a result of [wait_for_snapshot] must obey, given the events the
    run added to the log: a success comes with a query that saw the
    snapshot [available], and carries its sizes and the elapsed seconds; a
    query that saw a status other than [creating] and [available] makes the
    result a failure that names the status; and queries that all saw
    [creating] make it the timeout failure. *)
Definition verdicts (id timeout : Z) (events : list Event) (doc : json) : Prop :=
  (succeeded doc ->
   exists img duration,
     polled id events img /\
     image_status img = "available" /\
     field "data" doc
       = Some (JDict [("snapshot_id", JInt (image_id img));
                      ("description", JStr (image_description img));
                      ("status", JStr "available");
                      ("disk_size", JNum (disk_size img));
                      ("image_size", json_of_opt_Q (image_size img));
                      ("duration_seconds", JInt duration);
                      ("message", JStr "Snapshot completed successfully")])) /\
  (forall img,
      polled id events img ->
      image_status img <> "creating" ->
      image_status img <> "available" ->
      failed_with ("Unexpected snapshot status: " ++ image_status img) doc) /\
  (all_creating id events -> failed_with (timed_out timeout) doc).

(** The precedence of [list_snapshots] in the words of the specification:
    the snapshots recorded as made from the server when there are any,
    else those whose description starts with the server's name and a
    dash when there are any, else every snapshot of the project; with the
    name of the strategy that gave the list. *)
Definition from_server (server_id : option Z) (img : Image) : bool :=
  match server_id, created_from img with
  | Some id, Some from => from =? id
  | _, _ => false
  end.

Definition named_after (server_name : option string) (img : Image) : bool :=
  match server_name with
  | Some name => startswith (image_description img) (name ++ "-")
  | None => false
  end.

Definition chosen (server_name : option string) (server_id : option Z)
    (imgs : list Image) : list Image * string :=
  match filter (from_server server_id) imgs with
  | (_ :: _) as matching => (matching, "server_id")
  | [] =>
      match filter (named_after server_name) imgs with
      | (_ :: _) as matching => (matching, "hostname_prefix")
      | [] => (imgs, "all_project")
      end
  end.

(** How [main] of the cloud script can end from [w]: with one document
    printed, on return or on [sys.exit]; with a [ValueError] and nothing
    printed; or cut off in the polling loop. *)
Definition main_ends (w : World) (r : Outcome unit * World) : Prop :=
  match fst r with
  | Ret _ | Raise (SystemExit _) => exists doc, stdout (snd r) = doc :: stdout w
  | Raise (ValueError _) => stdout (snd r) = stdout w
  | Raise _ => False
  | OutOfFuel => True
  end.

(** Nobody but the script acts on the provider while the script runs. *)
Definition undisturbed (w : World) : Prop :=
  Forall (fun s => forall p, evolve s p = p) (sched w).

(** No call of the script fails, and nobody else acts on the provider. *)
Definition calm (w : World) : Prop :=
  Forall (fun s => fault s = None /\ forall p, evolve s p = p) (sched w).

(** The clock never runs backwards while the script runs. *)
Definition monotone (w : World) : Prop :=
  Forall (fun s => (0 <= elapse s)%Q) (sched w).

End HetznerLog.

Module ProxmoxLog.
Import Proxmox.

(** The status query of a guest. *)
Definition status_query (node kind : string) (vmid : Z) : Request :=
  {| meth := GET;
     path := (guest node kind vmid ++ ["status"; "current"])%list;
     params := [] |}.

(** A request that changes something at the hypervisor. *)
Definition is_write (r : Request) : bool :=
  match meth r with
  | GET => false
  | POST | DELETE => true
  end.

(** An entry of a returned snapshot list that has a name, and one that is
    neither [None] nor ['current']. *)
Definition named_entry (entry : json) : Prop :=
  exists name,
    field "name" entry = Some name /\ name <> JNull /\ name <> JStr "current".

(** The listing of a guest's snapshots. *)
Definition snapshot_query (node kind : string) (vmid : Z) : Request :=
  {| meth := GET; path := (guest node kind vmid ++ ["snapshot"])%list; params := [] |}.

(** The snapshots the hypervisor reports that [list_snapshots] keeps, and
    the entry it returns for one of them. *)
Definition listed (snap : dict) : bool :=
  match dict_get "name" snap with
  | None | Some JNull | Some (JStr "current") => false
  | Some _ => true
  end.

Definition entry_of (snap : dict) : json :=
  JDict [("name", dict_get_default "name" JNull snap);
         ("description", dict_get_default "description" (JStr "") snap);
         ("snaptime", dict_get_default "snaptime" (JInt 0) snap);
         ("vmstate", dict_get_default "vmstate" (JInt 0) snap)].

End ProxmoxLog.

(** ** Small worlds to run the scripts in *)

Module Scenario.
Import Hetzner.

Definition web : Server :=
  {| server_id := 1; server_name := "web"; server_status := "running";
     server_type_name := "cx22"; server_datacenter := Some ("fsn1-dc14", "fsn1");
     public_ipv4 := Some "203.0.113.7"; public_ipv6 := None;
     server_created := None; backup_window := None; locked := false |}.

Definition nightly : Image :=
  {| image_id := 7; image_description := "web-nightly";
     image_status := "creating"; image_created := None;
     disk_size := 40%Q; image_size := None; created_from := Some 1 |}.

Definition weekly : Image :=
  {| image_id := 5; image_description := "web-weekly";
     image_status := "available"; image_created := None;
     disk_size := 40%Q; image_size := Some (5 # 2)%Q; created_from := Some 1 |}.

Definition legacy : Image :=
  {| image_id := 3; image_description := "old backup";
     image_status := "available"; image_created := None;
     disk_size := 20%Q; image_size := Some 1%Q; created_from := None |}.

(** One server whose nightly snapshot is still being created. *)
Definition busy : Provider :=
  {| servers := [web]; images := [legacy; weekly; nightly]; next_id := 100 |}.

(** The same server with no snapshot job under way. *)
Definition idle : Provider :=
  {| servers := [web]; images := [legacy; weekly]; next_id := 100 |}.

Definition at_rest (p : Provider) (steps : list EnvStep) : World :=
  {| provider := p; now := 0%Q; sched := steps; log := []; stdout := [] |}.

Definition failing (msg : string) : EnvStep :=
  {| fault := Some msg; evolve := fun p => p; elapse := 0%Q |}.

(** The provider answers every call. *)
Definition busy_world : World := at_rest busy [].
Definition idle_world : World := at_rest idle [].

(** The provider answers the server query, then the listing of the images
    fails in transport. *)
Definition busy_check_down : World :=
  at_rest busy [quiet; failing "connection timed out"].

(** Another client opens a snapshot of server 1 after the in-progress check
    and before the create call. *)
Definition racing : EnvStep :=
  {| fault := None;
     evolve := fun p => {| servers := servers p;
                           images := (images p ++ [nightly])%list;
                           next_id := next_id p |};
     elapse := 0%Q |}.

Definition idle_raced : World := at_rest idle [quiet; quiet; racing].

End Scenario.

Module PveScenario.
Import Proxmox.

(** A hypervisor that gives the same answer to every request. *)
Definition answering (body : json) : World :=
  {| respond := fun _ _ => Answer body;
     clock := fun _ => 0%Q; ticks := 0; log := []; stdout := [] |}.

Definition running_guest : json :=
  JDict [("status", JStr "running"); ("name", JStr "db"); ("uptime", JInt 86400)].

Definition guest_snapshots : json :=
  JList [JDict [("name", JStr "before-upgrade"); ("snaptime", JInt 1700000000)];
         JDict [("description", JStr "no name")];
         JDict [("name", JStr "current"); ("description", JStr "You are here!")]].

End PveScenario.

(** A second server, switched off, beside the first. *)
Module Estate.
Import Hetzner.

Definition db : Server :=
  {| server_id := 2; server_name := "db"; server_status := "off";
     server_type_name := "cx32"; server_datacenter := Some ("nbg1-dc3", "nbg1");
     public_ipv4 := Some "203.0.113.9"; public_ipv6 := None;
     server_created := None; backup_window := None; locked := false |}.

Definition fleet : Provider :=
  {| servers := [Scenario.web; db];
     images := [Scenario.legacy; Scenario.weekly]; next_id := 100 |}.

Definition fleet_world : World := Scenario.at_rest fleet [].

(** The lookup and the power-on answer, then waiting for the action
    fails. *)
Definition fleet_wait_fails : World :=
  Scenario.at_rest fleet
    [quiet; quiet; Scenario.failing "action did not finish in time"].

(** Somebody deletes the servers while the script waits for an action. *)
Definition decommissioning : EnvStep :=
  {| fault := None;
     evolve := fun p => {| servers := []; images := images p; next_id := next_id p |};
     elapse := 0%Q |}.

Definition idle_decommissioned : World :=
  Scenario.at_rest Scenario.idle [quiet; quiet; decommissioning].

(** The nightly snapshot, once it is there. *)
Definition nightly_done : Image :=
  {| image_id := 7; image_description := "web-nightly";
     image_status := "available"; image_created := None;
     disk_size := 40%Q; image_size := Some 3%Q; created_from := Some 1 |}.

(** The provider finishes the nightly snapshot while the script sleeps,
    and the sleep takes two seconds longer than asked. *)
Definition finishing : EnvStep :=
  {| fault := None;
     evolve := fun p => {| servers := servers p;
                           images := [Scenario.legacy; Scenario.weekly; nightly_done];
                           next_id := next_id p |};
     elapse := 2%Q |}.

Definition busy_finishing : World :=
  Scenario.at_rest Scenario.busy [quiet; quiet; quiet; finishing].

End Estate.

(** The requests of the hypervisor script, as they appear in its log. *)
Module ProxmoxRequests.
Import Proxmox.

(** [proxmox.nodes(node).<kind>(vmid).status.<action>.post()] *)
Definition power_request (node kind : string) (vmid : Z) (action : string) : Request :=
  {| meth := POST;
     path := (guest node kind vmid ++ ["status"; action])%list;
     params := [] |}.

(** [proxmox.nodes(node).<kind>(vmid).snapshot.post(...)]: the state of
    the memory is named, as not saved, for [qemu] only. *)
Definition snapshot_request (node kind : string) (vmid : Z)
    (snap_name description : string) : Request :=
  {| meth := POST;
     path := (guest node kind vmid ++ ["snapshot"])%list;
     params := ([("snapname", JStr snap_name); ("description", JStr description)]
                ++ (if (kind =? "qemu")%string then [("vmstate", JInt 0)] else []))%list |}.

(** [proxmox.nodes(node).<kind>(vmid).snapshot(snap_name).rollback.post()] *)
Definition rollback_request (node kind : string) (vmid : Z) (snap_name : string)
    : Request :=
  {| meth := POST;
     path := (guest node kind vmid ++ "snapshot" :: resource snap_name ++ ["rollback"])%list;
     params := [] |}.

(** [proxmox.nodes(node).<kind>(vmid).snapshot(snap_name).delete()] *)
Definition removal_request (node kind : string) (vmid : Z) (snap_name : string)
    : Request :=
  {| meth := DELETE;
     path := (guest node kind vmid ++ "snapshot" :: resource snap_name)%list;
     params := [] |}.

(** [proxmox.nodes(node).<kind>.get()] *)
Definition guests_query (node kind : string) : Request :=
  {| meth := GET; path := ("nodes" :: resource node ++ [kind])%list; params := [] |}.

Definition version_query : Request :=
  {| meth := GET; path := ["version"]; params := [] |}.

Definition nodes_query : Request :=
  {| meth := GET; path := ["nodes"]; params := [] |}.

(** A name that makes one piece of a path as it is: not empty, and
    without a slash. *)
Fixpoint has_slash (s : string) : bool :=
  match s with
  | EmptyString => false
  | String c s' => (Ascii.eqb c "/"%char || has_slash s')%bool
  end.

Definition plain (s : string) : bool := (negb (s =? "")%string && negb (has_slash s))%bool.

(** What a single request makes of the result: a success when the
    hypervisor answers, and a failure with its text when it does not. *)
Definition follows (reply : Reply) (message : string) (doc : json) : Prop :=
  match reply with
  | Answer _ => succeeded doc /\ field "message" doc = Some (JStr message)
  | Failure msg =>
      field "success" doc = Some (JBool false) /\ field "error" doc = error_text msg
  end.

(** A guest of a listing that has an identifier, and the entry
    [list_vms] returns for it. *)
Definition identified (vm : dict) : bool :=
  match dict_get "vmid" vm with
  | Some _ => true
  | None => false
  end.

(** A guest whose identifier is an integer or a string, the values an
    f-string prints as [str_json] does. *)
Definition numbered (vm : dict) : bool :=
  match dict_get "vmid" vm with
  | Some (JInt _) | Some (JStr _) => true
  | _ => false
  end.

Definition guest_entry (kind prefix : string) (vm : dict) : json :=
  JDict [("vmid", dict_get_default "vmid" JNull vm);
         ("name", dict_get_default "name"
                    (JStr (prefix ++ "-" ++ str_json (dict_get_default "vmid" JNull vm)))
                    vm);
         ("type", JStr kind);
         ("status", dict_get_default "status" (JStr "unknown") vm);
         ("cpus", dict_get_default "cpus" (JInt 0) vm);
         ("maxmem", dict_get_default "maxmem" (JInt 0) vm)].

End ProxmoxRequests.

(** A hypervisor whose answers depend on how many requests came
    before. *)
Module Cluster.
Import Proxmox.

Definition in_turn (answers : list Reply) (otherwise : Reply) : World :=
  {| respond := fun n _ => nth n answers otherwise;
     clock := fun _ => 0%Q; ticks := 0; log := []; stdout := [] |}.

Definition stopped_guest : json :=
  JDict [("status", JStr "stopped"); ("name", JStr "cache")].

Definition task : json := JStr "UPID:pve1:0003A1F2:qmstart:101:root@pam:".

(** A stopped guest that runs after it was started. *)
Definition booting : World :=
  in_turn [Answer stopped_guest; Answer task] (Answer PveScenario.running_guest).

(** A hypervisor that refuses every request. *)
Definition refusing (msg : string) : World := in_turn [] (Failure msg).

Definition machines : list dict :=
  [[("vmid", JInt 101); ("name", JStr "db"); ("status", JStr "running");
    ("cpus", JInt 4); ("maxmem", JInt 8589934592)];
   [("vmid", JInt 102)]].

Definition containers : list dict :=
  [[("vmid", JInt 200); ("status", JStr "stopped")]].

Definition inventory : World :=
  in_turn [Answer (JList (map JDict machines))]
    (Answer (JList (map JDict containers))).

(** One of the virtual machines comes without its identifier. *)
Definition orphaned : list dict :=
  [[("vmid", JInt 101)]; [("name", JStr "orphan")]].

Definition release : dict := [("release", JStr "8.2"); ("repoid", JStr "a1b2c3")].

Definition members : list dict :=
  [[("node", JStr "pve1"); ("status", JStr "online")];
   [("node", JStr "pve2"); ("status", JStr "offline")]].

Definition two_nodes : World :=
  in_turn [Answer (JDict release)] (Answer (JList (map JDict members))).

End Cluster.

(** ** Properties of the result documents *)

Section Responses.

(** The keys [json_response] writes, for the cloud script. *)
Lemma hetzner_json_response_spec (success : bool) (data : option dict)
    (error : option string) (w : Hetzner.World) :
  exists doc,
    Hetzner.json_response success data error w
      = (Ret (JDict doc), snd (Hetzner.env_step w)) /\
    dict_get "success" doc = Some (JBool success) /\
    dict_get "data" doc
      = (if truthy_opt_dict data then option_map JDict data else None) /\
    dict_get "error" doc
      = (if truthy_opt_str error then option_map JStr error else None) /\
    dict_keys doc
      = (["success"; "timestamp"]
           ++ (if truthy_opt_dict data then ["data"] else [])
           ++ (if truthy_opt_str error then ["error"] else []))%list.
Proof.
  unfold Hetzner.json_response, Hetzner.datetime_now_isoformat, bind, ret.
  destruct (Hetzner.env_step w) as [s w1]; simpl.
  destruct data as [[|kv d]|]; destruct error as [[|c e]|]; simpl;
    eexists; repeat split; reflexivity.
Qed.

(** The keys [json_response] writes, for the hypervisor script. *)
Lemma proxmox_json_response_spec (success : bool) (data : option dict)
    (error message : option string) (w : Proxmox.World) :
  exists doc,
    Proxmox.json_response success data error message w
      = (Ret (JDict doc), Proxmox.tick w) /\
    dict_get "success" doc = Some (JBool success) /\
    dict_get "data" doc
      = (if truthy_opt_dict data then option_map JDict data else None) /\
    dict_get "error" doc
      = (if truthy_opt_str error then option_map JStr error else None) /\
    dict_get "message" doc
      = (if truthy_opt_str message then option_map JStr message else None) /\
    dict_keys doc
      = (["success"; "timestamp"]
           ++ (if truthy_opt_dict data then ["data"] else [])
           ++ (if truthy_opt_str error then ["error"] else [])
           ++ (if truthy_opt_str message then ["message"] else []))%list.
Proof.
  unfold Proxmox.json_response, Proxmox.datetime_now_isoformat, bind, ret.
  destruct data as [[|kv d]|]; destruct error as [[|c e]|];
    destruct message as [[|c' m]|]; simpl;
    eexists; repeat split; reflexivity.
Qed.

(** C8.  In both scripts the document [json_response] builds has a [data]
    key exactly when the data argument is true (neither [None] nor an empty
    dict) and an [error] key exactly when the error argument is true
    (neither [None] nor the empty string); a success built from an empty
    data dict has the keys [success] and [timestamp] and no other. *)
Theorem json_response_omits_falsy_fields :
  (forall success data error w,
      exists doc w',
        Hetzner.json_response success data error w = (Ret doc, w') /\
        field "data" doc
          = (if truthy_opt_dict data then option_map JDict data else None) /\
        field "error" doc
          = (if truthy_opt_str error then option_map JStr error else None)) /\
  (forall success data error message w,
      exists doc w',
        Proxmox.json_response success data error message w = (Ret doc, w') /\
        field "data" doc
          = (if truthy_opt_dict data then option_map JDict data else None) /\
        field "error" doc
          = (if truthy_opt_str error then option_map JStr error else None)) /\
  (forall w, exists doc w',
      Hetzner.json_response true (Some []) None w = (Ret doc, w') /\
      keys doc = ["success"; "timestamp"]) /\
  (forall w, exists doc w',
      Proxmox.json_response true (Some []) None None w = (Ret doc, w') /\
      keys doc = ["success"; "timestamp"]).
Proof.
  repeat split.
  - intros success data error w.
    destruct (hetzner_json_response_spec success data error w)
      as (doc & Hrun & _ & Hdata & Herror & _).
    exists (JDict doc), (snd (Hetzner.env_step w)). auto.
  - intros success data error message w.
    destruct (proxmox_json_response_spec success data error message w)
      as (doc & Hrun & _ & Hdata & Herror & _).
    exists (JDict doc), (Proxmox.tick w). auto.
  - intros w.
    destruct (hetzner_json_response_spec true (Some []) None w)
      as (doc & Hrun & _ & _ & _ & Hkeys).
    exists (JDict doc), (snd (Hetzner.env_step w)). auto.
  - intros w.
    destruct (proxmox_json_response_spec true (Some []) None None w)
      as (doc & Hrun & _ & _ & _ & _ & Hkeys).
    exists (JDict doc), (Proxmox.tick w). auto.
Qed.

End Responses.

(** ** How code ends: composition *)

Section ConductRules.
Context {W : Type} (out : W -> list json).

Lemma safe_ret {A : Type} (a : A) : safe out (ret a : M W A).
Proof. intros w. split; [exact I | reflexivity]. Qed.

Lemma safe_raise {A : Type} (e : exn) :
  is_Exception e = true -> safe out (raise e : M W A).
Proof. intros H w. split; [exact H | reflexivity]. Qed.

Lemma safe_lift {A : Type} (o : Outcome A) : catchable o -> safe out (lift o : M W A).
Proof. intros H w. split; [exact H | reflexivity]. Qed.

Lemma safe_bind {A B : Type} (m : M W A) (k : A -> M W B) :
  safe out m -> (forall a, safe out (k a)) -> safe out (bind m k).
Proof.
  intros Hm Hk w. unfold bind. destruct (Hm w) as [C S].
  destruct (m w) as [[a|e|] w1]; simpl in *; auto.
  destruct (Hk a w1) as [C' S']. split; [exact C' | congruence].
Qed.

Lemma returns_ret {A : Type} (a : A) : returns out (ret a : M W A).
Proof. intros w. exists a, w. split; reflexivity. Qed.

Lemma returns_safe {A : Type} (m : M W A) : returns out m -> safe out m.
Proof.
  intros H w. destruct (H w) as (a & w' & -> & S). split; [exact I | exact S].
Qed.

Lemma try_except_returns {A : Type} (body : M W A) (handler : exn -> M W A) :
  safe out body -> (forall e, returns out (handler e)) ->
  returns out (try_except body handler).
Proof.
  intros Hb Hh w. unfold try_except. destruct (Hb w) as [C S].
  destruct (body w) as [[a|e|] w1]; simpl in *; [eauto | | contradiction].
  rewrite C. destruct (Hh e w1) as (a & w' & -> & S'). exists a, w'.
  split; [reflexivity | congruence].
Qed.

Lemma reports_bind {A : Type} (m : M W A) (k : A -> M W unit) :
  safe out m -> (forall a, reports out (k a)) -> reports out (bind m k).
Proof.
  intros Hm Hk w. unfold bind. destruct (Hm w) as [C S].
  destruct (m w) as [[a|e|] w1]; simpl in *; [| |contradiction].
  - specialize (Hk a w1). rewrite <- S.
    destruct (fst (k a w1)) as [u|e|]; auto.
  - destruct e; try discriminate C; exact S.
Qed.

Lemma safe_int (s : string) : safe out (lift (int s) : M W Z).
Proof.
  apply safe_lift. unfold int. destruct (int_of_str s); reflexivity || exact I.
Qed.

End ConductRules.

(** ** The cloud script: calls and their traces *)

Section HetznerCalls.
Import Hetzner HetznerLog.

Lemma env_step_keeps (w : World) :
  log (snd (env_step w)) = log w /\ stdout (snd (env_step w)) = stdout w.
Proof. unfold env_step. destruct (sched w); simpl; auto. Qed.

Lemma env_step_undisturbed (w : World) :
  undisturbed w ->
  provider (snd (env_step w)) = provider w /\ undisturbed (snd (env_step w)).
Proof.
  unfold undisturbed, env_step. destruct (sched w) as [|s rest] eqn:E; simpl.
  - intros _. rewrite E. auto.
  - intros H. inversion H; subst. auto.
Qed.

Lemma undisturbed_after (w w' : World) :
  undisturbed w ->
  provider w' = provider (snd (env_step w)) ->
  sched w' = sched (snd (env_step w)) ->
  provider w' = provider w /\ undisturbed w'.
Proof.
  intros U P S. destruct (env_step_undisturbed w U) as [P' U'].
  split; [congruence|]. unfold undisturbed in *. rewrite S. exact U'.
Qed.

Lemma provider_lookup_inv {A : Type} (ev : Outcome (option A) -> Event)
    (kind : string) (id : Z) (find : Provider -> option A)
    (w w' : World) (o : Outcome (option A)) :
  provider_lookup ev kind id find w = (o, w') ->
  log w' = ev o :: log w /\
  stdout w' = stdout w /\
  provider w' = provider (snd (env_step w)) /\
  now w' = now (snd (env_step w)) /\
  sched w' = sched (snd (env_step w)) /\
  ((exists msg, o = Raise (APIException msg)) \/
   exists a, o = Ret (Some a) /\ find (provider w') = Some a).
Proof.
  unfold provider_lookup, not_found.
  destruct (env_step_keeps w) as [Hl Hs].
  destruct (env_step w) as [s w1]; simpl in *.
  intros H; inversion H; subst; simpl; rewrite Hl, Hs.
  repeat split.
  destruct (fault s); eauto.
  destruct (find (provider w1)); eauto.
Qed.

Lemma servers_get_by_id_inv (id : Z) (w w' : World) (o : Outcome (option Server)) :
  servers_get_by_id id w = (o, w') ->
  log w' = ServersGetById id :: log w /\
  stdout w' = stdout w /\
  provider w' = provider (snd (env_step w)) /\
  sched w' = sched (snd (env_step w)) /\
  ((exists msg, o = Raise (APIException msg)) \/ exists found, o = Ret found) /\
  forall server, o = Ret (Some server) -> server_id server = id.
Proof.
  intros H. apply provider_lookup_inv in H.
  destruct H as (L & S & P & _ & Sc & O). repeat split; auto.
  - destruct O as [O | (a & -> & _)]; eauto.
  - intros server E. destruct O as [(msg & O) | (a & O & F)]; [congruence|].
    assert (a = server) by congruence. subst a.
    apply find_some in F. destruct F as [_ F]. apply Z.eqb_eq in F. exact F.
Qed.

Lemma images_get_all_inv (w w' : World) (o : Outcome (list Image)) :
  images_get_all w = (o, w') ->
  log w' = ImagesGetAll :: log w /\
  stdout w' = stdout w /\
  provider w' = provider (snd (env_step w)) /\
  sched w' = sched (snd (env_step w)) /\
  ((exists msg, o = Raise (APIException msg)) \/ o = Ret (images (provider w'))).
Proof.
  unfold images_get_all, provider_call.
  destruct (env_step_keeps w) as [Hl Hs].
  destruct (env_step w) as [s w1]; simpl in *.
  destruct (fault s); intros H; inversion H; subst; simpl; rewrite Hl, Hs;
    repeat split; eauto.
Qed.

Lemma server_create_image_inv (server : Server) (description : string)
    (w w' : World) (o : Outcome CreateImageResponse) :
  server_create_image server description w = (o, w') ->
  log w' = ServerCreateImage (server_id server) description :: log w /\
  stdout w' = stdout w /\
  ((exists msg, o = Raise (APIException msg)) \/ exists response, o = Ret response).
Proof.
  unfold server_create_image, provider_call.
  destruct (env_step_keeps w) as [Hl Hs].
  destruct (env_step w) as [s w1]; simpl in *.
  destruct (fault s); intros H; inversion H; subst; simpl; rewrite Hl, Hs;
    repeat split; eauto.
Qed.

Lemma check_images_found (server_id : Z) (imgs : list Image) (img : Image) :
  find (creating_for server_id) imgs = Some img ->
  check_images server_id imgs
  = [("in_progress", JBool true);
     ("snapshot_id", JInt (image_id img));
     ("description", JStr (image_description img));
     ("status", JStr "creating")].
Proof.
  induction imgs as [|i rest IH]; simpl; [discriminate|].
  unfold creating_for at 1.
  destruct (created_from_is server_id i); simpl; auto.
  destruct (String.eqb_spec (image_status i) "creating") as [E|E]; auto.
  intros H; inversion H; subst. rewrite E. reflexivity.
Qed.

Lemma check_images_none (server_id : Z) (imgs : list Image) :
  filter (creating_for server_id) imgs = [] ->
  check_images server_id imgs = [("in_progress", JBool false)].
Proof.
  induction imgs as [|i rest IH]; simpl; auto.
  unfold creating_for at 1.
  destruct (created_from_is server_id i); simpl; auto.
  destruct (image_status i =? "creating")%string; simpl; auto. discriminate.
Qed.

(** Runs the [json_response] met in the goal. *)
Ltac run_response doc Hsuccess Hdata Herror :=
  match goal with
  | |- context [json_response ?s ?d ?e ?w] =>
      let Hrun := fresh "Hrun" in
      destruct (hetzner_json_response_spec s d e w)
        as (doc & Hrun & Hsuccess & Hdata & Herror & _);
      rewrite Hrun; clear Hrun
  end.

(** Runs the [json_response] met in the goal and offers its document as
    the result. *)
Ltac respond :=
  match goal with
  | |- context [json_response ?s ?d ?e ?w] =>
      let doc := fresh "doc" in
      let Hsuccess := fresh "Hsuccess" in
      let Hdata := fresh "Hdata" in
      let Herror := fresh "Herror" in
      run_response doc Hsuccess Hdata Herror;
      exists (JDict doc), (snd (env_step w));
      unfold succeeded, failed_with, data_field, field
  end.

(** C1, as amended.  When the server is found and the listing of the
    in-progress check answers with a snapshot of that server in state
    [creating], [create_snapshot] returns a success that carries the first
    such snapshot's identifier and description with
    [already_in_progress] true; its only provider calls are the two reads,
    so it issues no create call and, when nobody else acts, leaves the
    provider as it found it. *)
Theorem create_snapshot_attaches_when_check_finds_one
    (api_token : string) (server_id : Z) (description : string)
    (w w1 w2 : World) (server : Server) (imgs : list Image) (img : Image) :
  servers_get_by_id server_id w = (Ret (Some server), w1) ->
  images_get_all w1 = (Ret imgs, w2) ->
  find (creating_for server_id) imgs = Some img ->
  exists doc w3,
    create_snapshot api_token server_id description w = (Ret doc, w3) /\
    succeeded doc /\
    data_field "snapshot_id" doc = Some (JInt (image_id img)) /\
    data_field "description" doc = Some (JStr (image_description img)) /\
    data_field "status" doc = Some (JStr "creating") /\
    data_field "already_in_progress" doc = Some (JBool true) /\
    log w3 = ImagesGetAll :: ServersGetById server_id :: log w /\
    creates (log w3) = creates (log w) /\
    (undisturbed w -> provider w3 = provider w).
Proof.
  intros H1 H2 H3.
  unfold create_snapshot, try_except, bind. rewrite H1.
  unfold check_snapshot_in_progress, try_except, bind. rewrite H2.
  unfold ret. rewrite (check_images_found _ _ _ H3). simpl.
  apply servers_get_by_id_inv in H1. destruct H1 as (L1 & _ & P1 & S1 & _).
  apply images_get_all_inv in H2. destruct H2 as (L2 & _ & P2 & S2 & _).
  destruct (env_step_keeps w2) as [L3 _].
  respond. rewrite Hsuccess, Hdata. simpl.
  rewrite L3, L2, L1. repeat split.
  intros U.
  destruct (undisturbed_after w w1 U P1 S1) as [Q1 U1].
  destruct (undisturbed_after w1 w2 U1 P2 S2) as [Q2 U2].
  destruct (env_step_undisturbed w2 U2) as [Q3 _]. congruence.
Qed.

(** The amended C1 at work: the nightly snapshot of server 1 is being
    created, and a second request attaches to it. *)
Lemma create_snapshot_attaches_example :
  exists doc w3,
    create_snapshot "token" 1 "web-retry" Scenario.busy_world = (Ret doc, w3) /\
    succeeded doc /\
    data_field "snapshot_id" doc = Some (JInt 7) /\
    data_field "description" doc = Some (JStr "web-nightly") /\
    data_field "status" doc = Some (JStr "creating") /\
    data_field "already_in_progress" doc = Some (JBool true) /\
    log w3 = [ImagesGetAll; ServersGetById 1] /\
    creates (log w3) = 0%nat /\
    (undisturbed Scenario.busy_world -> provider w3 = Scenario.busy).
Proof.
  apply (create_snapshot_attaches_when_check_finds_one
           "token" 1 "web-retry" Scenario.busy_world
           (snd (servers_get_by_id 1 Scenario.busy_world))
           (snd (images_get_all (snd (servers_get_by_id 1 Scenario.busy_world))))
           Scenario.web (images Scenario.busy) Scenario.nightly);
    reflexivity.
Defined.

(** C1 as stated fails.  The provider holds a [creating] snapshot of
    server 1, the listing of the in-progress check fails in transport, and
    [create_snapshot] goes on to the create call: the result does not carry
    [already_in_progress] true, and the provider then holds two snapshots
    of the server in state [creating].  Two are also held, with no call
    failing, when another client opens one between the check and the
    create call. *)
Lemma create_snapshot_duplicates_when_check_fails :
  creating_count 1 (provider Scenario.busy_check_down) = 1%nat /\
  ~ attaches Scenario.busy_check_down
      (create_snapshot "token" 1 "web-retry" Scenario.busy_check_down) /\
  creates (log (snd (create_snapshot "token" 1 "web-retry" Scenario.busy_check_down)))
    = 1%nat /\
  creating_count 1
    (provider (snd (create_snapshot "token" 1 "web-retry" Scenario.busy_check_down)))
    = 2%nat /\
  creating_count 1
    (provider (snd (create_snapshot "token" 1 "web-manual" Scenario.idle_raced)))
    = 2%nat.
Proof.
  split; [reflexivity|]. split; [|repeat split; reflexivity].
  vm_compute. intros (_ & H & _). discriminate H.
Qed.

(** What the in-progress check answers, and what it leaves in the log. *)
Lemma check_snapshot_in_progress_inv (api_token : string) (server_id : Z)
    (w w' : World) (o : Outcome dict) :
  check_snapshot_in_progress api_token server_id w = (o, w') ->
  log w' = ImagesGetAll :: log w /\
  ((exists msg, images_get_all w = (Raise (APIException msg), w') /\
      o = Ret [("in_progress", JBool false); ("error", JStr msg)]) \/
   (images_get_all w = (Ret (images (provider w')), w') /\
      o = Ret (check_images server_id (images (provider w'))))).
Proof.
  unfold check_snapshot_in_progress, try_except, bind, ret.
  destruct (images_get_all w) as [o' w2] eqn:E.
  pose proof (images_get_all_inv _ _ _ E) as (L & _ & _ & _ & [[msg ->]| ->]);
    simpl; intros H; inversion H; subst; split; eauto.
Qed.

(** C2.  When the server is found and the provider holds no snapshot of it
    in state [creating] at the time of the in-progress check,
    [create_snapshot] issues exactly one create call; when that call
    answers, the result is a success that carries the new snapshot's
    identifier with [already_in_progress] false. *)
Theorem create_snapshot_creates_once_when_none_in_progress
    (api_token : string) (server_id : Z) (description : string)
    (w w1 w2 : World) (server : Server) (check_result : dict) :
  servers_get_by_id server_id w = (Ret (Some server), w1) ->
  check_snapshot_in_progress api_token server_id w1 = (Ret check_result, w2) ->
  creating_count server_id (provider w2) = 0%nat ->
  exists doc w',
    create_snapshot api_token server_id description w = (Ret doc, w') /\
    log w' = ServerCreateImage server_id description
               :: ImagesGetAll :: ServersGetById server_id :: log w /\
    creates (log w') = S (creates (log w)) /\
    forall response w3,
      server_create_image server description w2 = (Ret response, w3) ->
      succeeded doc /\
      data_field "snapshot_id" doc = Some (JInt (image_id (response_image response))) /\
      data_field "already_in_progress" doc = Some (JBool false).
Proof.
  intros H1 H2 H3.
  unfold create_snapshot, try_except, bind. rewrite H1, H2.
  apply servers_get_by_id_inv in H1. destruct H1 as (L1 & _ & _ & _ & _ & I1).
  specialize (I1 server eq_refl).
  assert (Hin : dict_get "in_progress" check_result = Some (JBool false)).
  { apply check_snapshot_in_progress_inv in H2.
    destruct H2 as (_ & [(msg & _ & E)|(_ & E)]); inversion E; subst; auto.
    rewrite check_images_none; auto.
    unfold creating_count in H3. now apply length_zero_iff_nil in H3. }
  apply check_snapshot_in_progress_inv in H2. destruct H2 as (L2 & _).
  unfold subscript. rewrite Hin. simpl.
  destruct (server_create_image server description w2) as [o w3] eqn:E.
  pose proof (server_create_image_inv _ _ _ _ _ E) as (L3 & _ & O).
  rewrite I1 in L3. destruct (env_step_keeps w3) as [L4 _].
  destruct O as [[msg ->]|[response ->]]; simpl;
    respond; (split; [reflexivity|]); rewrite L4, L3, L2, L1;
    (split; [reflexivity|]); (split; [reflexivity|]); intros r w3' F.
  - discriminate.
  - inversion F; subst. rewrite Hsuccess, Hdata. simpl. auto.
Qed.

(** C2 at work: no snapshot job is under way for server 1, and the request
    opens snapshot 100. *)
Lemma create_snapshot_creates_once_example :
  exists doc w',
    create_snapshot "token" 1 "web-manual" Scenario.idle_world = (Ret doc, w') /\
    log w' = [ServerCreateImage 1 "web-manual"; ImagesGetAll; ServersGetById 1] /\
    creates (log w') = 1%nat /\
    forall response w3,
      server_create_image Scenario.web "web-manual"
        (snd (check_snapshot_in_progress "token" 1
                (snd (servers_get_by_id 1 Scenario.idle_world))))
        = (Ret response, w3) ->
      succeeded doc /\
      data_field "snapshot_id" doc = Some (JInt (image_id (response_image response))) /\
      data_field "already_in_progress" doc = Some (JBool false).
Proof.
  apply (create_snapshot_creates_once_when_none_in_progress
           "token" 1 "web-manual" Scenario.idle_world
           (snd (servers_get_by_id 1 Scenario.idle_world))
           (snd (check_snapshot_in_progress "token" 1
                   (snd (servers_get_by_id 1 Scenario.idle_world))))
           Scenario.web [("in_progress", JBool false)]);
    reflexivity.
Defined.

(** C5.  When the listing of the in-progress check raises,
    [check_snapshot_in_progress] answers [in_progress] false with the
    error text, and [create_snapshot] goes on to the create call: its
    result is the one the create call decides, a success with the new
    snapshot when the call answers and a failure with the create call's
    own message when it raises (an empty message leaves no [error] key).  The check itself never raises. *)
Theorem create_snapshot_proceeds_when_check_fails
    (api_token : string) (server_id : Z) (description : string)
    (w w1 w2 : World) (server : Server) (e : exn) :
  servers_get_by_id server_id w = (Ret (Some server), w1) ->
  images_get_all w1 = (Raise e, w2) ->
  check_snapshot_in_progress api_token server_id w1
    = (Ret [("in_progress", JBool false); ("error", JStr (str_exn e))], w2) /\
  (forall w0, exists answer w0',
      check_snapshot_in_progress api_token server_id w0 = (Ret answer, w0')) /\
  exists doc w',
    create_snapshot api_token server_id description w = (Ret doc, w') /\
    log w' = ServerCreateImage server_id description
               :: ImagesGetAll :: ServersGetById server_id :: log w /\
    (forall response w3,
        server_create_image server description w2 = (Ret response, w3) ->
        succeeded doc /\
        data_field "snapshot_id" doc
          = Some (JInt (image_id (response_image response))) /\
        data_field "already_in_progress" doc = Some (JBool false)) /\
    (forall e' w3,
        server_create_image server description w2 = (Raise e', w3) ->
        field "success" doc = Some (JBool false) /\
        field "error" doc = error_text (str_exn e')).
Proof.
  intros H1 H2.
  assert (C : check_snapshot_in_progress api_token server_id w1
              = (Ret [("in_progress", JBool false); ("error", JStr (str_exn e))], w2)).
  { unfold check_snapshot_in_progress, try_except, bind. rewrite H2.
    apply images_get_all_inv in H2.
    destruct H2 as (_ & _ & _ & _ & [[msg E]|E]); inversion E; subst. reflexivity. }
  split; [exact C|]. split.
  { intros w0.
    destruct (check_snapshot_in_progress api_token server_id w0) as [o w0'] eqn:E.
    apply check_snapshot_in_progress_inv in E.
    destruct E as (_ & [(msg & _ & ->)|(_ & ->)]); eauto. }
  unfold create_snapshot, try_except, bind. rewrite H1, C. simpl.
  apply servers_get_by_id_inv in H1. destruct H1 as (L1 & _ & _ & _ & _ & I1).
  specialize (I1 server eq_refl).
  apply images_get_all_inv in H2. destruct H2 as (L2 & _).
  destruct (server_create_image server description w2) as [o w3] eqn:E.
  pose proof (server_create_image_inv _ _ _ _ _ E) as (L3 & _ & O).
  rewrite I1 in L3. destruct (env_step_keeps w3) as [L4 _].
  destruct O as [[msg ->]|[response ->]]; simpl;
    respond; (split; [reflexivity|]); rewrite L4, L3, L2, L1;
    (split; [reflexivity|]); split; intros r w3' F; inversion F; subst.
  - rewrite Hsuccess, Herror. simpl. auto.
  - rewrite Hsuccess, Hdata. simpl. auto.
Qed.

(** C5 at work: the listing fails, and snapshot 100 is opened all the
    same. *)
Lemma create_snapshot_proceeds_example :
  check_snapshot_in_progress "token" 1
    (snd (servers_get_by_id 1 Scenario.busy_check_down))
    = (Ret [("in_progress", JBool false); ("error", JStr "connection timed out")],
       snd (images_get_all (snd (servers_get_by_id 1 Scenario.busy_check_down)))) /\
  creates (log (snd (create_snapshot "token" 1 "web-retry" Scenario.busy_check_down)))
    = 1%nat.
Proof.
  destruct (create_snapshot_proceeds_when_check_fails
              "token" 1 "web-retry" Scenario.busy_check_down
              (snd (servers_get_by_id 1 Scenario.busy_check_down))
              (snd (images_get_all (snd (servers_get_by_id 1 Scenario.busy_check_down))))
              Scenario.web (APIException "connection timed out")
              eq_refl eq_refl) as (C & _ & _).
  split; [exact C | reflexivity].
Defined.

Lemma env_step_clock (w : World) :
  monotone w ->
  (now w <= now (snd (env_step w)))%Q /\ monotone (snd (env_step w)).
Proof.
  unfold monotone, env_step. destruct (sched w) as [|s rest] eqn:E; simpl.
  - intros _. rewrite E. split; [lra | constructor].
  - intros H. inversion H; subst. split; [lra | assumption].
Qed.

Lemma time_time_inv (w w' : World) (o : Outcome Q) :
  time_time w = (o, w') ->
  o = Ret (now w') /\ w' = snd (env_step w).
Proof.
  unfold time_time. destruct (env_step w) as [s w1]; simpl.
  intros H; inversion H; subst. auto.
Qed.

Lemma images_get_by_id_inv (id : Z) (w w' : World) (o : Outcome (option Image)) :
  images_get_by_id id w = (o, w') ->
  log w' = ImagesGetById id o :: log w /\
  now w' = now (snd (env_step w)) /\
  sched w' = sched (snd (env_step w)) /\
  ((exists msg, o = Raise (APIException msg)) \/ exists found, o = Ret found).
Proof.
  intros H. apply provider_lookup_inv in H.
  destruct H as (L & _ & _ & N & Sc & O). repeat split; auto.
  destruct O as [O | (a & -> & _)]; eauto.
Qed.

Lemma time_sleep_inv (seconds : Q) (w w' : World) (o : Outcome unit) :
  time_sleep seconds w = (o, w') ->
  o = Ret tt /\
  log w' = Sleep seconds :: log w /\
  now w' = (now (snd (env_step w)) + seconds)%Q /\
  sched w' = sched (snd (env_step w)).
Proof.
  unfold time_sleep. destruct (env_step_keeps w) as [Hl Hs].
  destruct (env_step w) as [s w1]; simpl in *.
  intros H; inversion H; subst; simpl. rewrite Hl. auto.
Qed.

Lemma all_creating_nil (id : Z) : all_creating id [].
Proof. intros e []. Qed.

Lemma all_creating_step (id : Z) (img : Image) (events : list Event) :
  image_status img = "creating" ->
  all_creating id events ->
  all_creating id (events ++ [Sleep 10; ImagesGetById id (Ret (Some img))]).
Proof.
  intros S A e I P. apply in_app_or in I. destruct I as [I|[<-|[<-|[]]]]; eauto.
  discriminate.
Qed.

Lemma ended_step (id timeout : Z) (img : Image) (events : list Event)
    (o : Outcome json) :
  image_status img = "creating" ->
  ended id timeout events o ->
  ended id timeout (events ++ [Sleep 10; ImagesGetById id (Ret (Some img))]) o.
Proof.
  intros S E. destruct E; simpl;
    try (econstructor; eauto using all_creating_step; fail).
Qed.

Lemma wait_loop_ended (fuel : nat) (id timeout : Z) (start_time : Q) :
  forall (w w' : World) (o : Outcome json),
    wait_loop fuel id timeout start_time w = (o, w') ->
    exists events, log w' = (events ++ log w)%list /\ ended id timeout events o.
Proof.
  induction fuel as [|fuel IH]; intros w w' o; cbn [wait_loop].
  - unfold out_of_fuel. intros H; inversion H; subst.
    exists []. split; [reflexivity | constructor].
  - unfold bind at 1.
    destruct (time_time w) as [ot wa] eqn:T.
    apply time_time_inv in T. destruct T as [-> ->].
    destruct (env_step_keeps w) as [La _]. set (wa := snd (env_step w)) in *.
    destruct (Qltb (now wa - start_time) (inject_Z timeout)).
    + unfold bind at 1.
      destruct (images_get_by_id id wa) as [oi wb] eqn:I.
      apply images_get_by_id_inv in I.
      destruct I as (Lb & _ & _ & [[msg ->]|[[img|] ->]]).
      * intros H; inversion H; subst.
        exists [ImagesGetById id (Raise (APIException msg))].
        split; [simpl; congruence|]. constructor. apply all_creating_nil.
      * destruct (String.eqb_spec (image_status img) "available") as [A|A].
        -- unfold bind at 1.
           destruct (time_time wb) as [ot wc] eqn:T.
           apply time_time_inv in T. destruct T as [-> ->].
           destruct (env_step_keeps wb) as [Lc _].
           set (wc := snd (env_step wb)) in *.
           destruct (env_step_keeps wc) as [Ld _].
           run_response doc Hsuccess Hdata Herror.
           intros H; inversion H; subst.
           exists [ImagesGetById id (Ret (Some img))].
           split; [simpl; congruence|].
           eapply ended_available; eauto using all_creating_nil.
           simpl. rewrite Hdata. reflexivity.
        -- destruct (String.eqb_spec (image_status img) "creating") as [C|C].
           ++ unfold bind at 1.
              destruct (time_sleep 10 wb) as [os wc] eqn:S.
              apply time_sleep_inv in S. destruct S as (-> & Lc & _).
              intros H. apply IH in H. destruct H as (events & L & E).
              exists (events ++ [Sleep 10; ImagesGetById id (Ret (Some img))])%list.
              split; [rewrite L, Lc, Lb, La, <- app_assoc; reflexivity|].
              now apply ended_step.
           ++ destruct (env_step_keeps wb) as [Lc _].
              run_response doc Hsuccess Hdata Herror.
              intros H; inversion H; subst.
              exists [ImagesGetById id (Ret (Some img))].
              split; [simpl; congruence|].
              eapply ended_unexpected; eauto using all_creating_nil.
              split; assumption.
      * destruct (env_step_keeps wb) as [Lc _].
        run_response doc Hsuccess Hdata Herror.
        intros H; inversion H; subst.
        exists [ImagesGetById id (Ret None)].
        split; [simpl; congruence|].
        eapply ended_not_found; eauto using all_creating_nil.
        split; assumption.
    + destruct (env_step_keeps wa) as [Lb _].
      run_response doc Hsuccess Hdata Herror.
      intros H; inversion H; subst.
      exists []. split; [simpl; congruence|].
      apply ended_timeout; [apply all_creating_nil|]. split; assumption.
Qed.

Lemma monotone_after (w w' : World) :
  monotone w ->
  sched w' = sched (snd (env_step w)) ->
  monotone w'.
Proof.
  intros M S. destruct (env_step_clock w M) as [_ M'].
  unfold monotone in *. rewrite S. exact M'.
Qed.

Lemma Qltb_false (x y : Q) : (y <= x)%Q -> Qltb x y = false.
Proof.
  intros H. unfold Qltb. apply Qle_bool_iff in H. rewrite H. reflexivity.
Qed.

Lemma wait_loop_returns (n : nat) (id timeout : Z) (start_time : Q) :
  forall w : World,
    monotone w ->
    (inject_Z timeout - (now w - start_time) <= 10 * inject_Z (Z.of_nat n))%Q ->
    fst (wait_loop (S n) id timeout start_time w) <> OutOfFuel.
Proof.
  induction n as [|n IH]; intros w M R; cbn [wait_loop]; unfold bind at 1;
    destruct (time_time w) as [ot wa] eqn:T;
    apply time_time_inv in T; destruct T as [-> ->];
    destruct (env_step_clock w M) as [Ca Ma]; set (wa := snd (env_step w)) in *.
  - rewrite Qltb_false.
    + run_response doc Hsuccess Hdata Herror. discriminate.
    + change (inject_Z (Z.of_nat 0)) with 0%Q in R. lra.
  - destruct (Qltb (now wa - start_time) (inject_Z timeout)).
    + unfold bind at 1.
      destruct (images_get_by_id id wa) as [oi wb] eqn:I.
      apply images_get_by_id_inv in I.
      destruct I as (_ & Nb & Sb & [[msg ->]|[[img|] ->]]).
      * discriminate.
      * destruct (image_status img =? "available")%string.
        -- unfold bind at 1.
           destruct (time_time wb) as [ot wc] eqn:T.
           apply time_time_inv in T. destruct T as [-> ->].
           run_response doc Hsuccess Hdata Herror. discriminate.
        -- destruct (image_status img =? "creating")%string.
           ++ unfold bind at 1.
              destruct (time_sleep 10 wb) as [os wc] eqn:S.
              apply time_sleep_inv in S. destruct S as (-> & _ & Nc & Sc).
              pose proof (monotone_after wa wb Ma Sb) as Mb.
              destruct (env_step_clock wa Ma) as [Cb _].
              destruct (env_step_clock wb Mb) as [Cc _].
              apply IH; [exact (monotone_after wb wc Mb Sc)|].
              rewrite Nc. rewrite <- Nb in Cb.
              rewrite Nat2Z.inj_succ, <- Z.add_1_r, inject_Z_plus in R.
              change (inject_Z 1) with 1%Q in R. lra.
           ++ run_response doc Hsuccess Hdata Herror. discriminate.
      * run_response doc Hsuccess Hdata Herror. discriminate.
    + run_response doc Hsuccess Hdata Herror. discriminate.
Qed.

Lemma enough_fuel (timeout : Z) (n : nat) :
  (Z.to_nat (timeout / 10) + 1 <= n)%nat ->
  (inject_Z timeout <= 10 * inject_Z (Z.of_nat n))%Q.
Proof.
  intros H.
  assert (timeout <= 10 * Z.of_nat n)%Z as L.
  { pose proof (Z.mod_pos_bound timeout 10 ltac:(lia)).
    pose proof (Z.div_mod timeout 10 ltac:(lia)). lia. }
  rewrite Zle_Qle, inject_Z_mult in L.
  change (inject_Z 10) with 10%Q in L. exact L.
Qed.


Lemma polled_creating (id : Z) (events : list Event) (img : Image) :
  all_creating id events -> polled id events img -> image_status img = "creating".
Proof.
  intros A P. destruct (A _ P eq_refl) as (img' & E & S). congruence.
Qed.

Lemma polled_head (id : Z) (o : Outcome (option Image)) (events : list Event)
    (img : Image) :
  all_creating id events ->
  polled id (ImagesGetById id o :: events) img ->
  image_status img <> "creating" ->
  o = Ret (Some img).
Proof.
  intros A [E|P] C.
  - congruence.
  - destruct C. eapply polled_creating; eauto.
Qed.

Lemma not_all_creating_head (id : Z) (o : Outcome (option Image))
    (events : list Event) :
  all_creating id (ImagesGetById id o :: events) ->
  exists img, o = Ret (Some img) /\ image_status img = "creating".
Proof.
  intros A. destruct (A _ (or_introl eq_refl) eq_refl) as (img & E & S).
  exists img. split; congruence.
Qed.

Lemma failure_is_no_success (doc : json) :
  field "success" doc = Some (JBool false) -> ~ succeeded doc.
Proof. unfold succeeded. congruence. Qed.

Lemma ended_verdicts (id timeout : Z) (events : list Event) (doc : json) :
  ended id timeout events (Ret doc) -> verdicts id timeout events doc.
Proof.
  intros E. remember (Ret doc) as o eqn:Eo.
  destruct E as [ev d A F | img duration ev d A S Su D | img ev d A NA NC F
                | ev d A F | msg ev A | ev];
    inversion Eo; subst; unfold verdicts.
  - split; [|split]; auto.
    + intros S. destruct F as [F _]. now apply failure_is_no_success in F.
    + intros img P C. destruct C. eapply polled_creating; eauto.
  - split; [|split].
    + intros _. exists img, duration. repeat split; auto. left. reflexivity.
    + intros img' P C N. apply polled_head in P; auto. congruence.
    + intros B. apply not_all_creating_head in B.
      destruct B as (img' & I & C). congruence.
  - split; [|split].
    + intros S. destruct F as [F _]. now apply failure_is_no_success in F.
    + intros img' P C N. apply polled_head in P; auto.
      inversion P; subst. exact F.
    + intros B. apply not_all_creating_head in B.
      destruct B as (img' & I & C). congruence.
  - split; [|split].
    + intros S. destruct F as [F _]. now apply failure_is_no_success in F.
    + intros img' P C N. apply polled_head in P; auto. discriminate.
    + intros B. apply not_all_creating_head in B.
      destruct B as (img' & I & C). discriminate.
Qed.

Lemma raised_verdicts (id timeout : Z) (events : list Event) (e : exn) (doc : json) :
  ended id timeout events (Raise e) ->
  field "success" doc = Some (JBool false) ->
  verdicts id timeout events doc.
Proof.
  intros E F. remember (Raise e) as o eqn:Eo.
  destruct E as [ev d A F' | img duration ev d A S Su D | img ev d A NA NC F'
                | ev d A F' | msg ev A | ev];
    inversion Eo; subst. split; [|split].
  - intros S. now apply failure_is_no_success in F.
  - intros img' P C N. apply polled_head in P; auto. discriminate.
  - intros B. apply not_all_creating_head in B.
    destruct B as (img' & I & C). discriminate.
Qed.

(** *** The elapsed seconds of a success *)

(** Truncation does not depend on how the fraction is written. *)
Lemma int_of_float_compat (p q : Q) : (p == q)%Q -> int_of_float p = int_of_float q.
Proof.
  unfold Qeq, int_of_float. intros E.
  rewrite <- (Z.quot_mul_cancel_r (Qnum p) (Zpos (Qden p)) (Zpos (Qden q)))
    by discriminate.
  rewrite <- (Z.quot_mul_cancel_r (Qnum q) (Zpos (Qden q)) (Zpos (Qden p)))
    by discriminate.
  rewrite E. f_equal. apply Z.mul_comm.
Qed.

Lemma env_step_now (w : World) :
  (now (snd (env_step w)) == now w + elapse (hd quiet (sched w)))%Q /\
  sched (snd (env_step w)) = tl (sched w).
Proof.
  unfold env_step. destruct (sched w) as [|s rest] eqn:E; simpl.
  - rewrite E. split; [lra | reflexivity].
  - split; [lra | reflexivity].
Qed.

Lemma total_elapse_step (n : nat) (steps : list EnvStep) :
  (total_elapse (firstn (S n) steps)
   == elapse (hd quiet steps) + total_elapse (firstn n (tl steps)))%Q.
Proof.
  destruct steps as [|s rest]; simpl.
  - destruct n; simpl; lra.
  - lra.
Qed.

Lemma sleeps_after_turn (events : list Event) (id : Z) (reply : Outcome (option Image)) :
  sleeps (events ++ [Sleep 10; ImagesGetById id reply]) = S (sleeps events).
Proof.
  unfold sleeps. rewrite filter_app, length_app. simpl. lia.
Qed.

(** The reading of the clock a success of the loop reports, counted from
    the state the loop starts in. *)
Lemma wait_loop_duration (fuel : nat) (id timeout : Z) (start_time : Q) :
  forall (w w' : World) (doc : json),
    wait_loop fuel id timeout start_time w = (Ret doc, w') ->
    succeeded doc ->
    exists events reading,
      log w' = (events ++ log w)%list /\
      data_field "duration_seconds" doc
        = Some (JInt (int_of_float (reading - start_time))) /\
      (reading == now w + total_elapse (firstn (3 * sleeps events + 3) (sched w))
                  + 10 * inject_Z (Z.of_nat (sleeps events)))%Q.
Proof.
  induction fuel as [|fuel IH]; intros w w' doc; cbn [wait_loop].
  - unfold out_of_fuel. discriminate.
  - unfold bind at 1.
    destruct (time_time w) as [ot wa] eqn:T.
    apply time_time_inv in T. destruct T as [-> ->].
    destruct (env_step_keeps w) as [La _].
    destruct (env_step_now w) as [Na Sa]. set (wa := snd (env_step w)) in *.
    assert (Failed : forall d e wx,
               json_response false d e wx = (Ret doc, w') -> succeeded doc -> False).
    { intros d e wx. run_response doc' Hsuccess Hdata Herror.
      intros H; inversion H; subst. unfold succeeded, field. congruence. }
    destruct (Qltb (now wa - start_time) (inject_Z timeout));
      [|intros H Ok; destruct (Failed _ _ _ H Ok)].
    unfold bind at 1.
    destruct (images_get_by_id id wa) as [oi wb] eqn:G.
    apply images_get_by_id_inv in G.
    destruct G as (Lb & Nb & Sb & [[msg ->]|[[img|] ->]]);
      [discriminate | | intros H Ok; destruct (Failed _ _ _ H Ok)].
    destruct (env_step_now wa) as [Na' Sa'].
    destruct (image_status img =? "available")%string.
    + unfold bind at 1.
      destruct (time_time wb) as [ot wc] eqn:T.
      apply time_time_inv in T. destruct T as [-> ->].
      destruct (env_step_keeps wb) as [Lc _].
      destruct (env_step_now wb) as [Nc Sc]. set (wc := snd (env_step wb)) in *.
      destruct (env_step_keeps wc) as [Ld _].
      run_response doc' Hsuccess Hdata Herror.
      intros H _; inversion H; subst.
      exists [ImagesGetById id (Ret (Some img))], (now wc).
      split; [simpl; congruence|]. split.
      * unfold data_field, field. rewrite Hdata. reflexivity.
      * change (sleeps [ImagesGetById id (Ret (Some img))]) with 0%nat.
        change (3 * 0 + 3)%nat with 3%nat.
        rewrite !total_elapse_step. simpl firstn. simpl total_elapse.
        rewrite Sb, Sa', Sa in Nc. rewrite Nb in Nc.
        rewrite Sa in Na'.
        change (inject_Z (Z.of_nat 0)) with 0%Q. lra.
    + destruct (image_status img =? "creating")%string;
        [|intros H Ok; destruct (Failed _ _ _ H Ok)].
      unfold bind at 1.
      destruct (time_sleep 10 wb) as [os wc] eqn:S.
      apply time_sleep_inv in S. destruct S as (-> & Lc & Nc & Sc).
      destruct (env_step_now wb) as [Nb' Sb'].
      intros H Ok. destruct (IH _ _ _ H Ok) as (events & reading & L & D & R).
      exists (events ++ [Sleep 10; ImagesGetById id (Ret (Some img))])%list, reading.
      split; [rewrite L, Lc, Lb, La, <- app_assoc; reflexivity|].
      split; [exact D|].
      rewrite sleeps_after_turn.
      replace (3 * S (sleeps events) + 3)%nat
        with (S (S (S (3 * sleeps events + 3)))) by lia.
      rewrite !total_elapse_step.
      rewrite Nat2Z.inj_succ, <- Z.add_1_r, inject_Z_plus.
      change (inject_Z 1) with 1%Q.
      rewrite Sc, Sb', Sb, Sa', Sa in R.
      rewrite Sb, Sa', Sa in Nb'. rewrite Nb in Nb'. rewrite Sa in Na'.
      rewrite Nc in R. lra.
Qed.

(** C3.  Whatever the snapshot, the timeout and the environment, a result
    of [wait_for_snapshot] is a success only if a status query of the run
    saw the snapshot [available], and then carries its sizes and the
    elapsed seconds: the whole seconds between the first reading of the
    clock and the reading that follows this query, which is the time the
    environment let pass during the calls in between and ten seconds for
    each sleep.  If a query saw a status that is neither [creating] nor
    [available], the result is the failure that names this status; if
    every query saw [creating], the result is the timeout failure.  No
    exception leaves the function, and with a clock that does not run
    backwards the loop ends within [timeout / 10 + 2] turns, so a result
    there is. *)
Theorem wait_for_snapshot_verdicts
    (fuel : nat) (api_token : string) (snapshot_id timeout : Z) (w : World) :
  (forall doc w',
      wait_for_snapshot fuel api_token snapshot_id timeout w = (Ret doc, w') ->
      exists events,
        log w' = (events ++ log w)%list /\
        (succeeded doc ->
         exists img,
           polled snapshot_id events img /\
           image_status img = "available" /\
           field "data" doc
             = Some (JDict [("snapshot_id", JInt (image_id img));
                            ("description", JStr (image_description img));
                            ("status", JStr "available");
                            ("disk_size", JNum (disk_size img));
                            ("image_size", json_of_opt_Q (image_size img));
                            ("duration_seconds",
                             JInt (int_of_float (elapsed w events)));
                            ("message", JStr "Snapshot completed successfully")])) /\
        (forall img,
            polled snapshot_id events img ->
            image_status img <> "creating" ->
            image_status img <> "available" ->
            failed_with ("Unexpected snapshot status: " ++ image_status img) doc) /\
        (all_creating snapshot_id events ->
         failed_with (timed_out timeout) doc)) /\
  (forall e w',
      wait_for_snapshot fuel api_token snapshot_id timeout w <> (Raise e, w')) /\
  (monotone w ->
   (Z.to_nat (timeout / 10) + 2 <= fuel)%nat ->
   exists doc w',
     wait_for_snapshot fuel api_token snapshot_id timeout w = (Ret doc, w')).
Proof.
  unfold wait_for_snapshot, try_except, bind.
  destruct (time_time w) as [ot wa] eqn:T.
  apply time_time_inv in T. destruct T as [-> ->].
  destruct (env_step_keeps w) as [La _].
  destruct (wait_loop fuel snapshot_id timeout (now (snd (env_step w)))
              (snd (env_step w))) as [o wb] eqn:W.
  split; [|split].
  - intros doc w' R.
    destruct (wait_loop_ended _ _ _ _ _ _ _ W) as (events & L & E).
    exists events.
    destruct o as [d|e|].
    + inversion R; subst. split; [congruence|].
      destruct (ended_verdicts _ _ _ _ E) as (Success & Rest).
      split; [|exact Rest].
      intros Ok. destruct (Success Ok) as (img & duration & P & A & D).
      exists img. split; [exact P|]. split; [exact A|].
      destruct (wait_loop_duration _ _ _ _ _ _ _ W Ok)
        as (events' & reading & L' & D' & Rd).
      assert (events' = events)
        by (apply (app_inv_tail (log (snd (env_step w)))); congruence).
      subst events'.
      unfold data_field in D'. rewrite D in D'. simpl in D'.
      inversion D' as [Dq]. rewrite D, Dq.
      assert (Eq : int_of_float (reading - now (snd (env_step w)))
                   = int_of_float (elapsed w events)).
      { apply int_of_float_compat.
        destruct (env_step_now w) as [_ Sa]. rewrite Sa in Rd.
        unfold elapsed. change (skipn 1 (sched w)) with (tl (sched w)). lra. }
      rewrite Eq. reflexivity.
    + assert (X : is_Exception e = true) by (inversion E; reflexivity).
      rewrite X in R. destruct (env_step_keeps wb) as [Lb _].
      revert R. run_response doc' Hsuccess Hdata Herror.
      intros R; inversion R; subst.
      split; [congruence|].
      destruct (raised_verdicts _ _ _ _ (JDict doc') E) as (Success & Rest);
        [unfold field; exact Hsuccess|].
      split; [|exact Rest].
      intros Ok. unfold succeeded, field in Ok. congruence.
    + discriminate.
  - intros e w' R.
    destruct (wait_loop_ended _ _ _ _ _ _ _ W) as (events & _ & E).
    destruct o as [d|e'|]; try discriminate R.
    assert (X : is_Exception e' = true) by (inversion E; reflexivity).
    rewrite X in R. revert R. run_response doc' Hsuccess Hdata Herror.
    discriminate.
  - intros M F.
    destruct (env_step_clock w M) as [_ Ma].
    destruct fuel as [|n]; [lia|].
    pose proof (wait_loop_returns n snapshot_id timeout
                  (now (snd (env_step w))) (snd (env_step w)) Ma) as T.
    rewrite W in T. simpl in T.
    assert (R : (inject_Z timeout <= 10 * inject_Z (Z.of_nat n))%Q)
      by (apply enough_fuel; lia).
    specialize (T ltac:(lra)).
    destruct (wait_loop_ended _ _ _ _ _ _ _ W) as (events & _ & E).
    destruct o as [d|e|]; [eauto| |congruence].
    assert (X : is_Exception e = true) by (inversion E; reflexivity).
    rewrite X. run_response doc' Hsuccess Hdata Herror. eauto.
Qed.

(** C9.  With a timeout of zero or less and a clock that does not run
    backwards, [wait_for_snapshot] returns the timeout failure and adds
    nothing to the log of provider calls: no status query is issued,
    whatever the state of the snapshot. *)
Theorem wait_for_snapshot_without_budget_never_polls
    (fuel : nat) (api_token : string) (snapshot_id timeout : Z) (w : World) :
  timeout <= 0 ->
  monotone w ->
  exists doc w',
    wait_for_snapshot (S fuel) api_token snapshot_id timeout w = (Ret doc, w') /\
    failed_with (timed_out timeout) doc /\
    log w' = log w.
Proof.
  intros T M.
  unfold wait_for_snapshot, try_except, bind at 1.
  destruct (time_time w) as [ot wa] eqn:E.
  apply time_time_inv in E. destruct E as [-> ->].
  destruct (env_step_keeps w) as [La _].
  destruct (env_step_clock w M) as [_ Ma].
  set (wa := snd (env_step w)) in *.
  cbn [wait_loop]. unfold bind at 1.
  destruct (time_time wa) as [ot wb] eqn:E.
  apply time_time_inv in E. destruct E as [-> ->].
  destruct (env_step_keeps wa) as [Lb _].
  destruct (env_step_clock wa Ma) as [Cb _].
  set (wb := snd (env_step wa)) in *.
  rewrite Qltb_false.
  - destruct (env_step_keeps wb) as [Lc _].
    respond. split; [reflexivity|]. split; [split; assumption|]. congruence.
  - assert (inject_Z timeout <= inject_Z 0)%Q by (rewrite <- Zle_Qle; exact T).
    change (inject_Z 0) with 0%Q in *. lra.
Qed.

Lemma fold_list_step (server_name : option string) (server_id : option Z)
    (imgs : list Image) :
  forall acc : Lists,
    fold_left (list_step server_name server_id) imgs acc
    = {| snapshots :=
           (snapshots acc
              ++ (if (truthy_opt_str server_name || truthy_opt_Z server_id)%bool
                  then [] else map snapshot_info imgs))%list;
         snapshots_with_prefix :=
           (snapshots_with_prefix acc
              ++ map snapshot_info (filter (matches_prefix server_name) imgs))%list;
         snapshots_for_server :=
           (snapshots_for_server acc
              ++ map snapshot_info (filter (matches_server_id server_id) imgs))%list;
         all_snapshots_for_project :=
           (all_snapshots_for_project acc ++ map snapshot_info imgs)%list |}.
Proof.
  induction imgs as [|img rest IH]; intros acc; simpl.
  - destruct (truthy_opt_str server_name || truthy_opt_Z server_id)%bool;
      rewrite !app_nil_r; destruct acc; reflexivity.
  - rewrite IH. unfold list_step.
    destruct (truthy_opt_str server_name || truthy_opt_Z server_id)%bool eqn:G; simpl.
    + destruct (matches_server_id server_id img), (matches_prefix server_name img);
        simpl; rewrite <- ?app_assoc; reflexivity.
    + apply orb_false_iff in G. destruct G as [Gn Gi].
      assert (Hp : matches_prefix server_name img = false).
      { destruct server_name as [[|c n]|]; simpl in *; auto; discriminate. }
      assert (Hi : matches_server_id server_id img = false).
      { destruct server_id as [z|]; simpl in *; auto. rewrite Gi. reflexivity. }
      rewrite Hp, Hi. simpl. rewrite <- ?app_assoc. reflexivity.
Qed.

Lemma matches_server_id_spec (server_id : option Z) (img : Image) :
  server_id <> Some 0 ->
  matches_server_id server_id img = from_server server_id img.
Proof.
  intros H. destruct server_id as [z|]; simpl; auto.
  destruct (Z.eqb_spec z 0) as [->|N]; [congruence|]. reflexivity.
Qed.

Lemma matches_prefix_spec (server_name : option string) (img : Image) :
  server_name <> Some "" ->
  matches_prefix server_name img = named_after server_name img.
Proof.
  intros H. destruct server_name as [[|c n]|]; simpl; auto. congruence.
Qed.

Lemma filter_nothing {A : Type} (f : A -> bool) (l : list A) :
  (forall x, f x = false) -> filter f l = [].
Proof.
  intros H. induction l as [|x l IH]; simpl; auto. now rewrite H.
Qed.

(** C4.  When the listing of the images answers, [list_snapshots] returns
    the snapshots the precedence of the specification chooses (made from
    the server, else named after it, else all), their number, and
    [filter_used] names the strategy that gave them.  A server id of 0 and
    an empty server name count as no filter in the script, and are left
    out. *)
Theorem list_snapshots_follows_precedence
    (api_token : string) (server_name : option string) (server_id : option Z)
    (w w1 : World) (imgs : list Image) :
  images_get_all w = (Ret imgs, w1) ->
  server_id <> Some 0 ->
  server_name <> Some "" ->
  exists doc w',
    list_snapshots api_token server_name server_id w = (Ret doc, w') /\
    succeeded doc /\
    data_field "snapshots" doc
      = Some (JList (map snapshot_info (fst (chosen server_name server_id imgs)))) /\
    data_field "count" doc
      = Some (JInt (Z.of_nat (List.length (fst (chosen server_name server_id imgs))))) /\
    data_field "filter_used" doc
      = Some (JStr (snd (chosen server_name server_id imgs))).
Proof.
  intros H Hi Hn.
  unfold list_snapshots, try_except, bind. rewrite H.
  rewrite fold_list_step. cbn [snapshots snapshots_with_prefix snapshots_for_server
                               all_snapshots_for_project app].
  rewrite (filter_ext _ _ (fun img => matches_server_id_spec server_id img Hi)).
  rewrite (filter_ext _ _ (fun img => matches_prefix_spec server_name img Hn)).
  assert (Ti : truthy_opt_Z server_id
               = match server_id with Some _ => true | None => false end).
  { destruct server_id as [z|]; simpl; auto.
    destruct (Z.eqb_spec z 0) as [->|N]; [congruence|]. reflexivity. }
  assert (Tn : truthy_opt_str server_name
               = match server_name with Some _ => true | None => false end).
  { destruct server_name as [[|c n]|]; simpl; auto; congruence. }
  rewrite Ti, Tn. clear Ti Tn.
  respond. split; [reflexivity|]. rewrite Hsuccess, Hdata. clear Hdata.
  unfold chosen.
  assert (N1 : server_id = None -> filter (from_server server_id) imgs = [])
    by (intros ->; now apply filter_nothing).
  assert (N2 : server_name = None -> filter (named_after server_name) imgs = [])
    by (intros ->; now apply filter_nothing).
  destruct (filter (from_server server_id) imgs) as [|i1 l1];
    destruct (filter (named_after server_name) imgs) as [|i2 l2];
    destruct server_id as [z|], server_name as [n|];
    try (specialize (N1 eq_refl)); try (specialize (N2 eq_refl));
    try discriminate; simpl; rewrite ?length_map; auto.
Qed.

(** C4 at work: no id is given, the name "web" matches two descriptions. *)
Lemma list_snapshots_follows_precedence_example :
  exists doc w',
    list_snapshots "token" (Some "web") None Scenario.busy_world = (Ret doc, w') /\
    succeeded doc /\
    data_field "snapshots" doc
      = Some (JList [snapshot_info Scenario.weekly; snapshot_info Scenario.nightly]) /\
    data_field "count" doc = Some (JInt 2) /\
    data_field "filter_used" doc = Some (JStr "hostname_prefix").
Proof.
  apply (list_snapshots_follows_precedence "token" (Some "web") None
           Scenario.busy_world (snd (images_get_all Scenario.busy_world))
           (images Scenario.busy));
    [reflexivity | discriminate | discriminate].
Defined.

(** C9 at work: snapshot 5 is available, and a wait with no budget does
    not look at it. *)
Lemma wait_for_snapshot_without_budget_example :
  exists doc w',
    wait_for_snapshot 1 "token" 5 0 Scenario.busy_world = (Ret doc, w') /\
    failed_with (timed_out 0) doc /\
    log w' = [].
Proof.
  apply (wait_for_snapshot_without_budget_never_polls 0 "token" 5 0
           Scenario.busy_world); [lia | constructor].
Defined.

(** C3 at work: snapshot 7 stays in state [creating], and a wait of 15
    seconds ends in the timeout failure after two status queries; and
    when the provider finishes the snapshot during the first sleep, which
    takes twelve seconds, the second query sees it [available] and the
    success reports twelve elapsed seconds. *)
Lemma wait_for_snapshot_verdicts_example :
  (exists doc w',
      wait_for_snapshot 3 "token" 7 15 Scenario.busy_world = (Ret doc, w') /\
      failed_with (timed_out 15) doc /\
      List.length (filter is_poll (log w')) = 2%nat) /\
  (exists doc w',
      wait_for_snapshot 8 "token" 7 60 Estate.busy_finishing = (Ret doc, w') /\
      succeeded doc /\
      data_field "image_size" doc = Some (JNum 3) /\
      data_field "duration_seconds" doc = Some (JInt 12) /\
      log w' = [ImagesGetById 7 (Ret (Some Estate.nightly_done)); Sleep 10;
                ImagesGetById 7 (Ret (Some Scenario.nightly))]).
Proof.
  split.
  - destruct (wait_for_snapshot_verdicts 3 "token" 7 15 Scenario.busy_world)
      as (V & _ & R).
    destruct R as (doc & w' & R); [constructor | simpl; lia |].
    exists doc, w'. split; [exact R|].
    destruct (V doc w' R) as (events & L & _ & _ & T).
    vm_compute in R. inversion R; subst doc w'. clear R.
    cbn [log] in L. rewrite app_nil_r in L. subst events.
    split; [|reflexivity]. apply T.
    intros e I P.
    destruct I as [<-|[<-|[<-|[<-|[]]]]]; try discriminate P;
      exists Scenario.nightly; split; reflexivity.
  - destruct (wait_for_snapshot_verdicts 8 "token" 7 60 Estate.busy_finishing)
      as (V & _ & R).
    destruct R as (doc & w' & R); [repeat constructor; simpl; lra | simpl; lia |].
    exists doc, w'. split; [exact R|].
    destruct (V doc w' R) as (events & L & S & _ & _).
    assert (Ok : succeeded doc)
      by (vm_compute in R; inversion R; subst doc; reflexivity).
    destruct (S Ok) as (img & _ & _ & D).
    assert (Log : log w' = [ImagesGetById 7 (Ret (Some Estate.nightly_done)); Sleep 10;
                            ImagesGetById 7 (Ret (Some Scenario.nightly))])
      by (vm_compute in R; inversion R; subst w'; reflexivity).
    rewrite Log in L. cbn [log Estate.busy_finishing Scenario.at_rest] in L.
    rewrite app_nil_r in L. subst events.
    split; [exact Ok|].
    split; [vm_compute in R; inversion R; subst doc; reflexivity|].
    split; [|exact Log].
    unfold data_field. rewrite D. reflexivity.
Defined.

(** What [start_server] does for a server that runs already. *)
Lemma start_server_running_is_noop (api_token : string) (server_id : Z)
    (w w1 : World) (server : Server) :
  servers_get_by_id server_id w = (Ret (Some server), w1) ->
  server_status server = STATUS_RUNNING ->
  exists doc w',
    start_server api_token server_id w = (Ret doc, w') /\
    succeeded doc /\
    data_field "status" doc = Some (JStr "running") /\
    data_field "message" doc = Some (JStr "Server is already running") /\
    log w' = ServersGetById server_id :: log w.
Proof.
  intros H S. unfold start_server, try_except, bind. rewrite H, S. simpl.
  apply servers_get_by_id_inv in H. destruct H as (L & _).
  destruct (env_step_keeps w1) as [L1 _].
  respond. rewrite Hsuccess, Hdata. simpl. repeat split. congruence.
Qed.

(** *** Detection before creation, in a calm world *)

Lemma env_step_calm (w : World) :
  calm w ->
  fault (fst (env_step w)) = None /\
  provider (snd (env_step w)) = provider w /\
  calm (snd (env_step w)).
Proof.
  unfold calm, env_step. destruct (sched w) as [|s rest] eqn:E; simpl.
  - intros _. rewrite E. auto.
  - intros H. inversion H as [|? ? [F P] R]; subst. auto.
Qed.

Lemma provider_call_calm {A : Type} (ev : Outcome A -> Event)
    (serve : Provider -> A * Provider) (w : World) :
  calm w ->
  exists w',
    provider_call ev serve w = (Ret (fst (serve (provider w))), w') /\
    provider w' = snd (serve (provider w)) /\
    calm w'.
Proof.
  intros C. destruct (env_step_calm w C) as (F & P & C').
  unfold provider_call. destruct (env_step w) as [s w1]; simpl in *.
  rewrite F, P. destruct (serve (provider w)) as [a p]. simpl.
  eexists. split; [reflexivity|]. split; [reflexivity | exact C'].
Qed.

Lemma creating_count_found (server_id : Z) (p : Provider) :
  creating_count server_id p <> 0%nat ->
  exists img, find (creating_for server_id) (images p) = Some img.
Proof.
  unfold creating_count. induction (images p) as [|i rest IH]; simpl.
  - congruence.
  - destruct (creating_for server_id i); eauto.
Qed.

Lemma provider_lookup_calm {A : Type} (ev : Outcome (option A) -> Event)
    (kind : string) (id : Z) (find : Provider -> option A) (w : World) :
  calm w ->
  let o := match find (provider w) with
           | Some a => Ret (Some a)
           | None => Raise (not_found kind id)
           end in
  exists w',
    provider_lookup ev kind id find w = (o, w') /\
    provider w' = provider w /\
    calm w' /\
    log w' = ev o :: log w.
Proof.
  intros C. destruct (env_step_calm w C) as (F & P & C').
  destruct (env_step_keeps w) as [L _].
  unfold provider_lookup. destruct (env_step w) as [s w1]; simpl in *.
  rewrite F, P. eexists. split; [reflexivity|]. simpl.
  split; [reflexivity|]. split; [exact C'|]. rewrite L. reflexivity.
Qed.

Lemma servers_get_by_id_calm (id : Z) (w : World) :
  calm w ->
  exists w',
    servers_get_by_id id w
      = (match find (fun s => server_id s =? id) (servers (provider w)) with
         | Some server => Ret (Some server)
         | None => Raise (not_found "server" id)
         end, w') /\
    provider w' = provider w /\ calm w'.
Proof.
  intros C. unfold servers_get_by_id.
  destruct (provider_lookup_calm (fun _ => ServersGetById id) "server" id
              (fun p => find (fun s => server_id s =? id) (servers p)) w C)
    as (w' & E & P & C' & _).
  exists w'. auto.
Qed.

Lemma images_get_all_calm (w : World) :
  calm w ->
  exists w',
    images_get_all w = (Ret (images (provider w)), w') /\
    provider w' = provider w /\ calm w'.
Proof.
  intros C. unfold images_get_all.
  exact (provider_call_calm (fun _ => ImagesGetAll) (fun p => (images p, p)) w C).
Qed.

Lemma server_create_image_calm (server : Server) (description : string) (w : World) :
  calm w ->
  exists response w',
    server_create_image server description w = (Ret response, w') /\
    images (provider w')
      = (images (provider w) ++ [new_snapshot (provider w) server description])%list /\
    calm w'.
Proof.
  intros C. unfold server_create_image.
  destruct (provider_call_calm
              (fun _ => ServerCreateImage (server_id server) description)
              (fun p =>
                 let img := new_snapshot p server description in
                 ({| response_image := img;
                     response_action := mkAction (next_id p + 1) |},
                  with_images (fun l => (l ++ [img])%list) p))
              w C) as (w' & E & P & C').
  eexists. exists w'. split; [exact E|]. rewrite P. auto.
Qed.

(** In a calm world a call of [create_snapshot] never takes the number of
    snapshots in state [creating] of the server above one. *)
Lemma create_snapshot_keeps_at_most_one_when_calm
    (api_token : string) (server_id : Z) (description : string) (w : World) :
  calm w ->
  (creating_count server_id (provider w) <= 1)%nat ->
  (creating_count server_id
     (provider (snd (create_snapshot api_token server_id description w))) <= 1)%nat.
Proof.
  intros C B. unfold create_snapshot, try_except, bind.
  destruct (servers_get_by_id_calm server_id w C) as (w1 & -> & P1 & C1).
  destruct (find _ (servers (provider w))) as [server|] eqn:F.
  - apply find_some in F. destruct F as [_ F]. apply Z.eqb_eq in F.
    unfold check_snapshot_in_progress, try_except, bind.
    destruct (images_get_all_calm w1 C1) as (w2 & -> & P2 & C2).
    unfold ret. rewrite P1.
    destruct (Nat.eq_dec (creating_count server_id (provider w)) 0) as [Z0|NZ].
    + rewrite check_images_none
        by (unfold creating_count in Z0; now apply length_zero_iff_nil in Z0).
      simpl.
      destruct (server_create_image_calm server description w2 C2)
        as (response & w3 & -> & P3 & C3).
      run_response doc Hsuccess Hdata Herror. simpl.
      destruct (env_step_calm w3 C3) as (_ & Q3 & _).
      unfold creating_count in *. rewrite Q3, P3, P2, P1.
      rewrite filter_app, length_app, Z0. simpl.
      destruct (creating_for server_id _); simpl; lia.
    + destruct (creating_count_found server_id (provider w) NZ) as (img & Fi).
      rewrite (check_images_found _ _ _ Fi). simpl.
      run_response doc Hsuccess Hdata Herror. simpl.
      destruct (env_step_calm w2 C2) as (_ & Q2 & _).
      unfold creating_count in *. rewrite Q2, P2, P1. exact B.
  - run_response doc Hsuccess Hdata Herror. simpl.
    destruct (env_step_calm w1 C1) as (_ & Q1 & _).
    unfold creating_count in *. rewrite Q1, P1. exact B.
Qed.

(** *** No operation of the cloud script raises *)

Lemma safe_provider_call {A : Type} (ev : Outcome A -> Event)
    (serve : Provider -> A * Provider) :
  safe stdout (provider_call ev serve).
Proof.
  intros w. unfold provider_call. destruct (env_step_keeps w) as [_ S].
  destruct (env_step w) as [s w1]; simpl in *.
  destruct (fault s); [|destruct (serve (provider w1))]; simpl; split;
    solve [reflexivity | exact I | exact S].
Qed.

Lemma safe_provider_lookup {A : Type} (ev : Outcome (option A) -> Event)
    (kind : string) (id : Z) (find : Provider -> option A) :
  safe stdout (provider_lookup ev kind id find).
Proof.
  intros w. destruct (provider_lookup ev kind id find w) as [o w'] eqn:E.
  apply provider_lookup_inv in E.
  destruct E as (_ & S & _ & _ & _ & [(msg & ->) | (a & -> & _)]);
    simpl; split; solve [reflexivity | exact I | exact S].
Qed.

Lemma hetzner_json_response_returns (success : bool) (data : option dict)
    (error : option string) :
  returns stdout (json_response success data error).
Proof.
  intros w.
  destruct (hetzner_json_response_spec success data error w) as (doc & -> & _).
  eexists. eexists. split; [reflexivity|]. apply env_step_keeps.
Qed.

Lemma safe_time_time : safe stdout time_time.
Proof.
  intros w. destruct (time_time w) as [o w'] eqn:E.
  apply time_time_inv in E. destruct E as [-> ->].
  split; [exact I | apply env_step_keeps].
Qed.

Lemma safe_subscript (d : dict) (k : string) : safe stdout (subscript d k).
Proof.
  intros w. unfold subscript. destruct (dict_get k d); split; reflexivity || exact I.
Qed.

Create HintDb cloud_safe.

#[local] Hint Resolve safe_provider_call safe_provider_lookup
  hetzner_json_response_returns
  safe_time_time safe_subscript : cloud_safe.
#[local] Hint Resolve safe_ret returns_safe : cloud_safe.

Ltac stroll :=
  repeat first
    [ solve [auto with cloud_safe]
    | apply safe_raise; reflexivity
    | apply returns_safe; apply try_except_returns; [|intro]
    | match goal with
      | |- safe _ (if ?c then _ else _) => destruct c
      | |- safe _ (match ?x with _ => _ end) => destruct x
      end
    | apply safe_bind; [|intro] ].

Ltac cloud_operation :=
  intros; apply try_except_returns;
    [ stroll | intro; apply hetzner_json_response_returns ].

(** Every operation of [hetzner_cloud.py] but the bounded wait ends with a
    document: an exception raised inside is turned into a failure. *)
Lemma hetzner_operations_return (api_token : string) :
  (forall id, returns stdout (start_server api_token id)) /\
  (forall id, returns stdout (stop_server api_token id)) /\
  (forall id, returns stdout (reboot_server api_token id)) /\
  (forall id, returns stdout (get_server_status api_token id)) /\
  (forall id description, returns stdout (create_snapshot api_token id description)) /\
  (forall server_name server_id,
      returns stdout (list_snapshots api_token server_name server_id)) /\
  (forall id, returns stdout (delete_snapshot api_token id)).
Proof.
  repeat split;
    unfold start_server, stop_server, reboot_server, get_server_status,
      create_snapshot, check_snapshot_in_progress, list_snapshots, delete_snapshot,
      servers_get_by_id, server_power_on, server_shutdown, server_reboot,
      action_wait_until_finished, server_create_image, images_get_all,
      images_get_by_id, image_delete;
    cloud_operation.
  apply returns_ret.
Qed.

(** *** The only exception that leaves [main] of the cloud script *)

Lemma returns_settles {A : Type} (m : M World A) :
  returns stdout m -> settles stdout m.
Proof. intros H w. left. apply H. Qed.

Lemma wait_loop_quiet (fuel : nat) (id timeout : Z) (start_time : Q) (w : World) :
  stdout (snd (wait_loop fuel id timeout start_time w)) = stdout w /\
  match fst (wait_loop fuel id timeout start_time w) with
  | Raise e => is_Exception e = true
  | _ => True
  end.
Proof.
  destruct (wait_loop fuel id timeout start_time w) as [o w'] eqn:E.
  revert w w' o E. induction fuel as [|fuel IH]; intros w w' o; cbn [wait_loop].
  - unfold out_of_fuel. intros H; inversion H; subst. simpl. auto.
  - unfold bind at 1.
    destruct (time_time w) as [ot wa] eqn:T.
    apply time_time_inv in T. destruct T as [-> ->].
    destruct (env_step_keeps w) as [_ Sa]. set (wa := snd (env_step w)) in *.
    destruct (Qltb (now wa - start_time) (inject_Z timeout)).
    + unfold bind at 1.
      destruct (images_get_by_id id wa) as [oi wb] eqn:G.
      destruct (safe_provider_lookup (fun o => ImagesGetById id o) "image" id
                  (fun p => find (fun i => image_id i =? id) (images p)) wa)
        as [Cb Sb].
      unfold images_get_by_id in G. rewrite G in Cb, Sb. simpl in Cb, Sb.
      destruct oi as [[img|]|e|]; [| | |contradiction].
      * destruct (image_status img =? "available")%string.
        -- unfold bind at 1.
           destruct (time_time wb) as [ot wc] eqn:T.
           apply time_time_inv in T. destruct T as [-> ->].
           destruct (env_step_keeps wb) as [_ Sc].
           destruct (env_step_keeps (snd (env_step wb))) as [_ Sd].
           run_response doc Hsuccess Hdata Herror.
           intros H; inversion H; subst. simpl. split; [congruence | exact I].
        -- destruct (image_status img =? "creating")%string.
           ++ unfold bind at 1.
              destruct (time_sleep 10 wb) as [os wc] eqn:S.
              pose proof S as S'. apply time_sleep_inv in S'.
              destruct S' as (-> & _).
              assert (Sc : stdout wc = stdout wb).
              { revert S. unfold time_sleep. destruct (env_step_keeps wb) as [_ K].
                destruct (env_step wb) as [s w1]. simpl in K.
                intros H; inversion H; subst. exact K. }
              intros H. apply IH in H. simpl in *. destruct H as [H1 H2].
              split; [congruence | exact H2].
           ++ destruct (env_step_keeps wb) as [_ Sc].
              run_response doc Hsuccess Hdata Herror.
              intros H; inversion H; subst. simpl. split; [congruence | exact I].
      * destruct (env_step_keeps wb) as [_ Sc].
        run_response doc Hsuccess Hdata Herror.
        intros H; inversion H; subst. simpl. split; [congruence | exact I].
      * intros H; inversion H; subst. simpl. split; [congruence | exact Cb].
    + destruct (env_step_keeps wa) as [_ Sb].
      run_response doc Hsuccess Hdata Herror.
      intros H; inversion H; subst. simpl. split; [congruence | exact I].
Qed.

Lemma wait_for_snapshot_settles (fuel : nat) (api_token : string)
    (snapshot_id timeout : Z) :
  settles stdout (wait_for_snapshot fuel api_token snapshot_id timeout).
Proof.
  intros w. unfold wait_for_snapshot, try_except, bind.
  destruct (time_time w) as [ot wa] eqn:T.
  apply time_time_inv in T. destruct T as [-> ->].
  destruct (env_step_keeps w) as [_ Sa].
  destruct (wait_loop_quiet fuel snapshot_id timeout (now (snd (env_step w)))
              (snd (env_step w))) as [Q C].
  destruct (wait_loop _ _ _ _ _) as [[doc|e|] wb]; simpl in *.
  - left. exists doc, wb. split; [reflexivity | congruence].
  - rewrite C. destruct (env_step_keeps wb) as [_ Sb].
    run_response doc Hsuccess Hdata Herror.
    left. eexists. eexists. split; [reflexivity | congruence].
  - right. exists wb. split; [reflexivity | congruence].
Qed.

Lemma ends_print (op : M World json) (w : World) :
  settles stdout op -> main_ends w ((doc <- op ;; print doc) w).
Proof.
  intros H. unfold bind, print, main_ends.
  destruct (H w) as [(doc & w' & -> & S)|(w' & -> & S)]; simpl; [|exact I].
  exists doc. congruence.
Qed.

Lemma ends_fail_with (msg : string) (w : World) : main_ends w (fail_with msg w).
Proof.
  unfold fail_with, bind, print, sys_exit, raise, main_ends.
  destruct (hetzner_json_response_returns false None (Some msg) w)
    as (doc & w' & -> & S).
  simpl. exists doc. congruence.
Qed.

Lemma ends_int (s : string) (k : Z -> M World unit) (w : World) :
  (forall z, main_ends w (k z w)) -> main_ends w ((z <- lift (int s) ;; k z) w).
Proof.
  intros H. unfold bind, lift, int.
  destruct (int_of_str s) as [z|]; [apply H | reflexivity].
Qed.

Lemma ends_argv_at (argv : list string) (i : nat) (k : string -> M World unit)
    (w : World) :
  (i <? List.length argv)%nat = true ->
  (forall a, main_ends w (k a w)) -> main_ends w ((a <- argv_at argv i ;; k a) w).
Proof.
  intros L H. unfold bind, argv_at. apply Nat.ltb_lt in L.
  destruct (nth_error argv i) as [a|] eqn:E; [apply H|].
  apply nth_error_None in E. lia.
Qed.

Lemma ends_int_at (argv : list string) (i : nat) (k : Z -> M World unit) (w : World) :
  (i <? List.length argv)%nat = true ->
  (forall z, main_ends w (k z w)) ->
  main_ends w ((z <- (b <- argv_at argv i ;; lift (int b)) ;; k z) w).
Proof.
  intros L H. unfold bind, argv_at, lift, int. apply Nat.ltb_lt in L.
  destruct (nth_error argv i) as [a|] eqn:E.
  - unfold ret. destruct (int_of_str a) as [z|]; [apply H | reflexivity].
  - apply nth_error_None in E. lia.
Qed.

Lemma ends_name_at (argv : list string) (i : nat)
    (k : option string -> M World unit) (w : World) :
  (i <? List.length argv)%nat = true ->
  (forall a, main_ends w (k a w)) ->
  main_ends w ((name <- (a <- argv_at argv i ;; ret (Some a)) ;; k name) w).
Proof.
  intros L H. unfold bind, argv_at, ret. apply Nat.ltb_lt in L.
  destruct (nth_error argv i) as [a|] eqn:E; [apply H|].
  apply nth_error_None in E. lia.
Qed.

Ltac in_range :=
  repeat match goal with
         | H : (_ <? _)%nat = false |- _ => apply Nat.ltb_ge in H
         | H : (_ <? _)%nat = true |- _ => apply Nat.ltb_lt in H
         end;
  apply Nat.ltb_lt; lia.

Lemma ends_ret {A : Type} (a : A) (k : A -> M World unit) (w : World) :
  main_ends w (k a w) -> main_ends w ((x <- ret a ;; k x) w).
Proof. intros H. exact H. Qed.

(** [main] of the cloud script prints one document and ends, or ends on a
    [ValueError] with nothing printed (a failed [int] conversion), or is
    cut off in the polling loop: no other exception leaves it. *)
Lemma hetzner_main_ends (fuel : nat) (argv : list string) (w : World) :
  main_ends w (main fuel argv w).
Proof.
  unfold main.
  destruct (List.length argv <? 3)%nat eqn:L3; [apply ends_fail_with|].
  apply ends_argv_at; [in_range|]. intros command.
  apply ends_argv_at; [in_range|]. intros api_token.
  destruct (hetzner_operations_return api_token)
    as (Start & Stop & Reboot & Status & Create & List & Delete).
  repeat match goal with
         | |- main_ends _ ((if (_ =? _)%string then _ else _) _) =>
             destruct (_ =? _)%string
         end;
    try apply ends_fail_with;
    try match goal with
        | |- main_ends _ ((if ?c then _ else _) _) =>
            destruct c eqn:?; [apply ends_fail_with|]
        end;
    try match goal with
        | |- main_ends _ ((_ <- (if ?c then _ else _) ;; _) _) => destruct c eqn:?
        end;
    repeat first
      [ apply ends_argv_at; [in_range|intro]
      | apply ends_int_at; [in_range|intro]
      | apply ends_name_at; [in_range|intro]
      | apply ends_int; intro
      | apply ends_ret ];
    apply ends_print;
    solve [ apply wait_for_snapshot_settles | apply returns_settles; auto ].
Qed.

(** An exception whose text is empty becomes a failure document without an
    [error] key: [json_response] drops a false [error]. *)
Lemma failure_without_text_has_no_error_key :
  exists doc w',
    start_server "token" 1 (Scenario.at_rest Scenario.idle [Scenario.failing ""])
      = (Ret doc, w') /\
    field "success" doc = Some (JBool false) /\
    keys doc = ["success"; "timestamp"].
Proof. eexists. eexists. repeat split. Qed.

End HetznerCalls.

(** ** The hypervisor script: requests and their traces *)

Section ProxmoxCalls.
Import Proxmox ProxmoxLog.

#[local] Abbreviation safe := (safe stdout).
#[local] Abbreviation returns := (returns stdout).
#[local] Abbreviation reports := (reports stdout).

Lemma request_inv (m : Method) (p : list string) (args : dict)
    (w w' : World) (o : Outcome json) :
  request m p args w = (o, w') ->
  log w' = {| meth := m; path := p; params := args |} :: log w /\
  stdout w' = stdout w /\
  match respond w (List.length (log w)) {| meth := m; path := p; params := args |} with
  | Answer body => o = Ret body
  | Failure msg => o = Raise (APIException msg)
  end.
Proof.
  unfold request.
  destruct (respond w _ _); intros H; inversion H; subst; simpl; auto.
Qed.

Lemma split_eq_nonempty (s cur : string) :
  exists first rest, split_eq cur s = first :: rest.
Proof.
  revert cur. induction s as [|c s IH]; intros cur; simpl; eauto.
  destruct (Ascii.eqb c "="); eauto.
Qed.

Lemma split_eq_second (s cur : string) :
  contains_eq s = true ->
  exists first second rest, split_eq cur s = first :: second :: rest.
Proof.
  revert cur. induction s as [|c s IH]; intros cur; simpl; [discriminate|].
  destruct (Ascii.eqb c "="); simpl.
  - intros _. destruct (split_eq_nonempty s "") as (a & l & ->). eauto.
  - intros H. apply IH. exact H.
Qed.

Lemma connect_proxmox_returns (api_url username token : string) (verify_ssl : bool)
    (w : World) :
  exists proxmox,
    connect_proxmox api_url username token verify_ssl w = (Ret proxmox, w).
Proof.
  unfold connect_proxmox, bind, ret.
  destruct (contains_eq token) eqn:C; eauto.
  destruct (split_eq_second token "" C) as (a & b & l & ->). simpl. eauto.
Qed.

Ltac run_response doc Hsuccess Hdata Herror Hmessage :=
  match goal with
  | |- context [json_response ?s ?d ?e ?m ?w] =>
      let Hrun := fresh "Hrun" in
      destruct (proxmox_json_response_spec s d e m w)
        as (doc & Hrun & Hsuccess & Hdata & Herror & Hmessage & _);
      rewrite Hrun; clear Hrun
  end.

Ltac respond :=
  match goal with
  | |- context [json_response ?s ?d ?e ?m ?w] =>
      let doc := fresh "doc" in
      let Hsuccess := fresh "Hsuccess" in
      let Hdata := fresh "Hdata" in
      let Herror := fresh "Herror" in
      let Hmessage := fresh "Hmessage" in
      run_response doc Hsuccess Hdata Herror Hmessage;
      exists (JDict doc), (tick w);
      unfold succeeded, failed_with, data_field, field
  end.

Lemma check_then_post_settled (node kind : string) (vmid : Z)
    (vm_type settled action : string) (w : World) (current : json) :
  respond w (List.length (log w)) (status_query node kind vmid) = Answer current ->
  field "status" current = Some (JStr settled) ->
  exists doc w',
    check_then_post node kind vmid vm_type settled action w
      = (Ret (Some doc), w') /\
    succeeded doc /\
    data_field "status" doc = Some (JStr settled) /\
    field "message" doc = Some (JStr (upper vm_type ++ " is already " ++ settled)) /\
    log w' = status_query node kind vmid :: log w.
Proof.
  intros R S. unfold check_then_post, bind at 1.
  destruct (request GET _ [] w) as [o w1] eqn:Q.
  apply request_inv in Q. destruct Q as (L & _ & Q).
  fold (status_query node kind vmid) in Q, L. rewrite R in Q.
  subst o.
  destruct current as [| | | | | | |d]; try discriminate S. simpl in S.
  unfold bind at 1, item, subscript. rewrite S. unfold ret at 1.
  unfold eq_str. rewrite String.eqb_refl. unfold bind, ret.
  run_response doc Hsuccess Hdata Herror Hmessage.
  exists (JDict doc), (tick w1).
  unfold succeeded, data_field, field. rewrite Hsuccess, Hdata, Hmessage.
  assert (T : truthy_opt_str (Some (upper vm_type ++ " is already " ++ settled)) = true).
  { destruct (upper vm_type); reflexivity. }
  rewrite T. simpl. repeat split. exact L.
Qed.

(** What [start_vm] does for a guest that runs already. *)
Lemma start_vm_running_is_noop (api_url username token node : string) (vmid : Z)
    (vm_type : string) (verify_ssl : bool) (w : World) (current : json) :
  vm_type = "qemu" \/ vm_type = "lxc" ->
  respond w (List.length (log w)) (status_query node vm_type vmid) = Answer current ->
  field "status" current = Some (JStr "running") ->
  exists doc w',
    start_vm api_url username token node vmid vm_type verify_ssl w = (Ret doc, w') /\
    succeeded doc /\
    data_field "status" doc = Some (JStr "running") /\
    field "message" doc = Some (JStr (upper vm_type ++ " is already running")) /\
    log w' = status_query node vm_type vmid :: log w.
Proof.
  intros K R S. unfold start_vm, try_except, bind at 1.
  destruct (connect_proxmox_returns api_url username token verify_ssl w)
    as (proxmox & ->).
  unfold falsy_client.
  destruct (check_then_post_settled node vm_type vmid vm_type "running" "start"
              w current R S) as (doc & w' & E & P).
  exists doc, w'. split; [|exact P].
  unfold bind. destruct K as [-> | ->].
  - change (("qemu" =? "qemu")%string) with true. cbv iota. rewrite E. reflexivity.
  - change (("lxc" =? "qemu")%string) with false.
    change (("lxc" =? "lxc")%string) with true. cbv iota. rewrite E. reflexivity.
Qed.

Lemma not_current_or_none_named (name : json) :
  not_current_or_none name = true -> name <> JNull /\ name <> JStr "current".
Proof.
  unfold not_current_or_none. intros H. split; intros ->; discriminate H.
Qed.

Lemma snapshot_entry_inv (snap : json) (w : World) :
  exists o,
    snapshot_entry snap w = (o, w) /\
    match o with
    | Ret entries => Forall named_entry entries
    | Raise e => is_Exception e = true
    | OutOfFuel => False
    end.
Proof.
  unfold snapshot_entry, get_or.
  destruct snap as [| | | | | | |d];
    try (eexists; split; [reflexivity | reflexivity]).
  unfold bind, ret.
  destruct (not_current_or_none (dict_get_default "name" JNull d)) eqn:N.
  - eexists. split; [reflexivity|]. constructor; [|constructor].
    exists (dict_get_default "name" JNull d). split; [reflexivity|].
    now apply not_current_or_none_named.
  - eexists. split; [reflexivity|]. constructor.
Qed.

Lemma for_each_snapshot_entry (snaps : list json) (w : World) :
  exists o,
    for_each snapshot_entry snaps w = (o, w) /\
    match o with
    | Ret entries => Forall named_entry entries
    | Raise e => is_Exception e = true
    | OutOfFuel => False
    end.
Proof.
  induction snaps as [|snap rest IH]; simpl.
  - eexists. split; [reflexivity | constructor].
  - unfold bind. destruct (snapshot_entry_inv snap w) as (o & -> & P).
    destruct o as [entries|e|]; [|eauto|contradiction].
    destruct IH as (o' & -> & P').
    destruct o' as [entries'|e|]; [|eauto|contradiction].
    eexists. split; [reflexivity|]. apply Forall_app. auto.
Qed.

Lemma iterate_inv (v : json) (w : World) :
  exists o, iterate v w = (o, w) /\ catchable o.
Proof. destruct v; simpl; eexists; split; reflexivity || exact I. Qed.

Lemma by_kind_inv (vm_type : string) (on_qemu on_lxc : M World json)
    (w w' : World) (o : Outcome (option json)) :
  by_kind vm_type on_qemu on_lxc w = (o, w') ->
  (o = Ret None /\ w' = w) \/
  (exists m, (m = on_qemu \/ m = on_lxc) /\
     ((exists body, m w = (Ret body, w') /\ o = Ret (Some body)) \/
      (exists e, m w = (Raise e, w') /\ o = Raise e) \/
      (m w = (OutOfFuel, w') /\ o = OutOfFuel))).
Proof.
  unfold by_kind, bind, ret.
  destruct (vm_type =? "qemu")%string; [|destruct (vm_type =? "lxc")%string].
  - destruct (on_qemu w) as [[body|e|] w1] eqn:E; intros H; inversion H; subst;
      right; exists on_qemu; split; auto; rewrite E; eauto 6.
  - destruct (on_lxc w) as [[body|e|] w1] eqn:E; intros H; inversion H; subst;
      right; exists on_lxc; split; auto; rewrite E; eauto 6.
  - intros H; inversion H; subst. auto.
Qed.

Lemma not_current_or_none_listed (snap : dict) :
  not_current_or_none (dict_get_default "name" JNull snap) = listed snap.
Proof.
  unfold listed, dict_get_default, not_current_or_none, eq_str.
  destruct (dict_get "name" snap) as [[| | | |name| | |]|]; try reflexivity.
  destruct (String.eqb_spec name "current") as [->|N]; [reflexivity|].
  simpl. destruct name as [|c name]; [reflexivity|].
  repeat (match goal with
          | |- context [match ?x with _ => _ end] => destruct x; try reflexivity
          end).
  congruence.
Qed.

Lemma for_each_listed (snaps : list dict) (w : World) :
  for_each snapshot_entry (map JDict snaps) w
  = (Ret (map entry_of (filter listed snaps)), w).
Proof.
  induction snaps as [|snap rest IH]; simpl; [reflexivity|].
  assert (E : snapshot_entry (JDict snap) w
              = (Ret (if listed snap then [entry_of snap] else []), w)).
  { unfold snapshot_entry, get_or, bind, ret.
    rewrite not_current_or_none_listed. destruct (listed snap); reflexivity. }
  unfold bind. rewrite E, IH. destruct (listed snap); reflexivity.
Qed.

(** A failure document has no [data]. *)
Lemma failure_has_no_data (msg : string) (w : World) :
  exists doc,
    json_response false None (Some msg) None w = (Ret doc, tick w) /\
    ~ succeeded doc /\
    forall k, data_field k doc = None.
Proof.
  destruct (proxmox_json_response_spec false None (Some msg) None w)
    as (doc & Hrun & Hsuccess & Hdata & _).
  exists (JDict doc). split; [exact Hrun|].
  unfold succeeded, data_field, field. rewrite Hsuccess, Hdata. simpl.
  split; [congruence | reflexivity].
Qed.

Lemma by_kind_valid (vm_type : string) (on_qemu on_lxc : string -> M World json)
    (w : World) :
  vm_type = "qemu" \/ vm_type = "lxc" ->
  by_kind vm_type (on_qemu "qemu") (on_lxc "lxc") w
  = (let (o, w') := (if (vm_type =? "qemu")%string then on_qemu else on_lxc) vm_type w in
     match o with
     | Ret body => (Ret (Some body), w')
     | Raise e => (Raise e, w')
     | OutOfFuel => (OutOfFuel, w')
     end).
Proof.
  intros [-> | ->]; reflexivity.
Qed.

(** The part of [list_snapshots] that follows the request. *)
Lemma listing_entries (node : string) (vmid : Z) (vm_type : string)
    (body : json) (w : World) :
  exists o w',
    (snaps <- iterate body ;;
     snapshot_list <- for_each snapshot_entry snaps ;;
     json_response true
       (Some [("vmid", JInt vmid); ("node", JStr node); ("type", JStr vm_type);
              ("snapshots", JList snapshot_list);
              ("count", JInt (Z.of_nat (List.length snapshot_list)))]) None None) w
    = (o, w') /\
    match o with
    | Ret doc =>
        succeeded doc /\
        (exists entries,
            data_field "snapshots" doc = Some (JList entries) /\
            Forall named_entry entries /\
            data_field "count" doc = Some (JInt (Z.of_nat (List.length entries)))) /\
        (forall snaps,
            body = JList (map JDict snaps) ->
            data_field "snapshots" doc
              = Some (JList (map entry_of (filter listed snaps))))
    | Raise e =>
        is_Exception e = true /\ forall snaps, body <> JList (map JDict snaps)
    | OutOfFuel => False
    end.
Proof.
  unfold bind at 1.
  destruct (iterate_inv body w) as (o1 & E1 & C1). rewrite E1.
  destruct o1 as [snaps|e|]; [|exists (Raise e), w; split; [reflexivity|] |contradiction].
  - unfold bind at 1.
    destruct (for_each_snapshot_entry snaps w) as (o2 & E2 & C2). rewrite E2.
    destruct o2 as [entries|e|]; [| |contradiction].
    + run_response doc Hsuccess Hdata Herror Hmessage.
      exists (Ret (JDict doc)), (tick w). split; [reflexivity|].
      unfold succeeded, data_field, field. rewrite Hsuccess, Hdata. simpl.
      split; [reflexivity|]. split; [eauto|].
      intros ds ->. simpl in E1. unfold ret in E1. inversion E1; subst snaps.
      rewrite for_each_listed in E2. inversion E2; subst. reflexivity.
    + exists (Raise e), w. split; [reflexivity|]. split; [exact C2|].
      intros ds ->. simpl in E1. unfold ret in E1. inversion E1; subst snaps.
      rewrite for_each_listed in E2. discriminate E2.
  - split; [exact C1|]. intros ds ->. discriminate E1.
Qed.

(** C10.  The snapshot list that the hypervisor script's [list_snapshots]
    returns holds only entries with a name that is neither [None] nor
    ['current'], and [count] is the length of that list; when the
    hypervisor answers with a list of snapshot objects, the result is a
    success whose list has one entry for each of them that has such a
    name, in order. *)
Theorem proxmox_list_snapshots_names_and_count
    (api_url username token node : string) (vmid : Z) (vm_type : string)
    (verify_ssl : bool) (w : World) :
  exists doc w',
    list_snapshots api_url username token node vmid vm_type verify_ssl w
      = (Ret doc, w') /\
    (forall entries,
        data_field "snapshots" doc = Some (JList entries) ->
        Forall named_entry entries /\
        data_field "count" doc = Some (JInt (Z.of_nat (List.length entries)))) /\
    (forall snaps,
        vm_type = "qemu" \/ vm_type = "lxc" ->
        respond w (List.length (log w)) (snapshot_query node vm_type vmid)
          = Answer (JList (map JDict snaps)) ->
        succeeded doc /\
        data_field "snapshots" doc
          = Some (JList (map entry_of (filter listed snaps)))).
Proof.
  unfold list_snapshots, try_except, bind at 1.
  destruct (connect_proxmox_returns api_url username token verify_ssl w)
    as (proxmox & ->).
  unfold falsy_client. unfold bind at 1.
  assert (V : (vm_type = "qemu" \/ vm_type = "lxc") \/
              ((vm_type =? "qemu")%string = false /\ (vm_type =? "lxc")%string = false)).
  { destruct (String.eqb_spec vm_type "qemu"); auto.
    destruct (String.eqb_spec vm_type "lxc"); auto. }
  destruct V as [V|[Nq Nl]].
  - rewrite (by_kind_valid vm_type
               (fun kind => request GET (guest node kind vmid ++ ["snapshot"]) [])
               (fun kind => request GET (guest node kind vmid ++ ["snapshot"]) [])
               w V).
    assert (R : exists o w1,
               (if (vm_type =? "qemu")%string
                then fun kind => request GET (guest node kind vmid ++ ["snapshot"]) []
                else fun kind => request GET (guest node kind vmid ++ ["snapshot"]) [])
                 vm_type w = (o, w1) /\
               match respond w (List.length (log w)) (snapshot_query node vm_type vmid) with
               | Answer body => o = Ret body
               | Failure msg => o = Raise (APIException msg)
               end).
    { destruct (vm_type =? "qemu")%string;
        destruct (request GET _ [] w) as [o w1] eqn:Q;
        exists o, w1; (split; [reflexivity|]);
        apply request_inv in Q; apply Q. }
    destruct R as (o & w1 & -> & R).
    destruct (respond w _ _) as [body|msg]; subst o.
    + destruct (listing_entries node vmid vm_type body w1) as (o & w2 & -> & P).
      destruct o as [doc|e|]; [| |contradiction].
      * exists doc, w2. split; [reflexivity|].
        destruct P as (S & (entries & D & F & C) & N). split.
        -- intros entries' D'. rewrite D in D'. inversion D'; subst. auto.
        -- intros snaps _ A. inversion A; subst. auto.
      * destruct P as (X & N). rewrite X.
        destruct (failure_has_no_data (str_exn e) w2) as (doc & -> & _ & D).
        exists doc, (tick w2). split; [reflexivity|]. split.
        -- intros entries E. rewrite D in E. discriminate.
        -- intros snaps _ A. inversion A; subst. now destruct (N snaps).
    + simpl.
      destruct (failure_has_no_data msg w1) as (doc & -> & _ & D).
      exists doc, (tick w1). split; [reflexivity|]. split.
      * intros entries E. rewrite D in E. discriminate.
      * intros snaps _ A. discriminate A.
  - unfold by_kind. rewrite Nq, Nl. unfold ret at 1, invalid_vm_type.
    destruct (failure_has_no_data ("Invalid VM type: " ++ vm_type) w)
      as (doc & -> & _ & D).
    exists doc, (tick w). split; [reflexivity|]. split.
    + intros entries E. rewrite D in E. discriminate.
    + intros snaps [-> | ->] _; discriminate.
Qed.

(** C10 at work: of three reported snapshots, the one without a name and
    the ['current'] one are left out. *)
Lemma proxmox_list_snapshots_example :
  exists doc w',
    list_snapshots "https://pve:8006" "root@pam" "ops=secret" "pve" 101 "lxc" true
      (PveScenario.answering PveScenario.guest_snapshots) = (Ret doc, w') /\
    succeeded doc /\
    data_field "snapshots" doc
      = Some (JList [JDict [("name", JStr "before-upgrade");
                            ("description", JStr "");
                            ("snaptime", JInt 1700000000);
                            ("vmstate", JInt 0)]]) /\
    data_field "count" doc = Some (JInt 1).
Proof.
  destruct (proxmox_list_snapshots_names_and_count
              "https://pve:8006" "root@pam" "ops=secret" "pve" 101 "lxc" true
              (PveScenario.answering PveScenario.guest_snapshots))
    as (doc & w' & R & N & A).
  exists doc, w'. split; [exact R|].
  destruct (A [[("name", JStr "before-upgrade"); ("snaptime", JInt 1700000000)];
               [("description", JStr "no name")];
               [("name", JStr "current"); ("description", JStr "You are here!")]]
              (or_intror eq_refl) eq_refl) as [S D].
  split; [exact S|]. split; [exact D|].
  destruct (N _ D) as [_ C]. exact C.
Defined.

(** *** No operation of the hypervisor script raises *)

Lemma json_response_returns (success : bool) (data : option dict)
    (error message : option string) :
  returns (json_response success data error message).
Proof.
  intros w.
  destruct (proxmox_json_response_spec success data error message w)
    as (doc & -> & _).
  eexists. eexists. split; reflexivity.
Qed.

Lemma safe_request (m : Method) (p : list string) (args : dict) :
  safe (request m p args).
Proof.
  intros w. unfold request. destruct (respond w _ _); split; reflexivity || exact I.
Qed.

Lemma safe_connect (api_url username token : string) (verify_ssl : bool) :
  safe (connect_proxmox api_url username token verify_ssl).
Proof.
  apply returns_safe. intros w.
  destruct (connect_proxmox_returns api_url username token verify_ssl w) as (c & ->).
  eauto.
Qed.

Lemma safe_item (v : json) (k : string) : safe (item v k).
Proof.
  intros w. unfold item, subscript.
  destruct v as [| | | | | | |d]; try (split; reflexivity).
  destruct (dict_get k d); split; reflexivity || exact I.
Qed.

Lemma safe_get_or (v : json) (k : string) (default : json) : safe (get_or v k default).
Proof. intros w. destruct v; split; reflexivity || exact I. Qed.

Lemma safe_iterate (v : json) : safe (iterate v).
Proof. intros w. destruct v; split; reflexivity || exact I. Qed.

Lemma safe_len (v : json) : safe (len v).
Proof. intros w. destruct v; split; reflexivity || exact I. Qed.

Lemma safe_time_sleep (seconds : Q) : safe (time_sleep seconds).
Proof. intros w. split; [exact I | reflexivity]. Qed.

Lemma safe_for_each {A B : Type} (body : A -> M World (list B)) (xs : list A) :
  (forall x, safe (body x)) -> safe (for_each body xs).
Proof.
  intros H. induction xs as [|x rest IH]; simpl.
  - apply safe_ret.
  - apply safe_bind; [apply H|]. intros ys.
    apply safe_bind; [exact IH|]. intros zs. apply safe_ret.
Qed.

Lemma safe_argv_at (argv : list string) (i : nat) : safe (argv_at argv i).
Proof.
  intros w. unfold argv_at. destruct (nth_error argv i); split; reflexivity || exact I.
Qed.

Create HintDb pve_safe.

#[local] Hint Resolve safe_ret safe_request safe_connect safe_item safe_get_or
  safe_iterate safe_len safe_time_sleep safe_int safe_argv_at
  json_response_returns returns_safe : pve_safe.

(** Walks through a computation of the script, one [bind] or branch at a
    time. *)
Ltac walk :=
  repeat first
    [ solve [auto with pve_safe]
    | apply safe_raise; reflexivity
    | match goal with
      | |- safe (if ?c then _ else _) => destruct c
      | |- safe (match ?x with _ => _ end) => destruct x
      end
    | apply safe_for_each; intro
    | apply safe_bind; [|intro] ].

Ltac operation :=
  intros; apply try_except_returns;
    [ walk | intro; apply json_response_returns ].

Lemma safe_check_then_post (node kind : string) (vmid : Z)
    (vm_type settled action : string) :
  safe (check_then_post node kind vmid vm_type settled action).
Proof. unfold check_then_post. walk. Qed.

Lemma safe_by_kind (vm_type : string) (on_qemu on_lxc : M World json) :
  safe on_qemu -> safe on_lxc -> safe (by_kind vm_type on_qemu on_lxc).
Proof. intros Hq Hl. unfold by_kind. walk. Qed.

#[local] Hint Resolve safe_check_then_post safe_by_kind : pve_safe.

Lemma get_vm_status_returns api_url username token node vmid vm_type verify_ssl :
  returns (get_vm_status api_url username token node vmid vm_type verify_ssl).
Proof. unfold get_vm_status, failed_to_connect, invalid_vm_type. operation. Qed.

Lemma start_vm_returns api_url username token node vmid vm_type verify_ssl :
  returns (start_vm api_url username token node vmid vm_type verify_ssl).
Proof.
  unfold start_vm, failed_to_connect, invalid_vm_type, refreshed_status. operation.
Qed.

Lemma stop_vm_returns api_url username token node vmid vm_type verify_ssl :
  returns (stop_vm api_url username token node vmid vm_type verify_ssl).
Proof.
  unfold stop_vm, failed_to_connect, invalid_vm_type, refreshed_status. operation.
Qed.

Lemma shutdown_vm_returns api_url username token node vmid vm_type verify_ssl :
  returns (shutdown_vm api_url username token node vmid vm_type verify_ssl).
Proof. unfold shutdown_vm, failed_to_connect, invalid_vm_type. operation. Qed.

Lemma reboot_vm_returns api_url username token node vmid vm_type verify_ssl :
  returns (reboot_vm api_url username token node vmid vm_type verify_ssl).
Proof. unfold reboot_vm, failed_to_connect, invalid_vm_type. operation. Qed.

Lemma list_snapshots_returns api_url username token node vmid vm_type verify_ssl :
  returns (list_snapshots api_url username token node vmid vm_type verify_ssl).
Proof.
  unfold list_snapshots, failed_to_connect, invalid_vm_type, snapshot_entry.
  operation.
Qed.

Lemma create_snapshot_returns api_url username token node vmid vm_type snap_name
    description verify_ssl :
  returns (create_snapshot api_url username token node vmid vm_type snap_name
             description verify_ssl).
Proof. unfold create_snapshot, failed_to_connect, invalid_vm_type. operation. Qed.

Lemma rollback_snapshot_returns api_url username token node vmid vm_type snap_name
    verify_ssl :
  returns (rollback_snapshot api_url username token node vmid vm_type snap_name
             verify_ssl).
Proof. unfold rollback_snapshot, failed_to_connect, invalid_vm_type. operation. Qed.

Lemma delete_snapshot_returns api_url username token node vmid vm_type snap_name
    verify_ssl :
  returns (delete_snapshot api_url username token node vmid vm_type snap_name
             verify_ssl).
Proof. unfold delete_snapshot, failed_to_connect, invalid_vm_type. operation. Qed.

Lemma list_vms_returns api_url username token node verify_ssl :
  returns (list_vms api_url username token node verify_ssl).
Proof. unfold list_vms, failed_to_connect, vm_entry. operation. Qed.

Lemma test_connection_returns api_url username token verify_ssl :
  returns (test_connection api_url username token verify_ssl).
Proof. unfold test_connection, failed_to_connect. operation. Qed.

(** *** The main block of the hypervisor script always reports *)

Lemma reports_print (op : M World json) :
  returns op -> reports (doc <- op ;; print doc).
Proof.
  intros H w. unfold bind, print. destruct (H w) as (doc & w' & -> & S).
  simpl. exists doc. congruence.
Qed.

Lemma reports_failure (msg : string) :
  reports (doc <- json_response false None (Some msg) None ;; print doc ;;; sys_exit 1).
Proof.
  intros w. unfold bind, print, sys_exit, raise.
  destruct (json_response_returns false None (Some msg) None w) as (doc & w' & -> & S).
  simpl. exists doc. congruence.
Qed.

Lemma safe_unpack4 (xs : list string) : safe (unpack4 xs).
Proof.
  intros w. unfold unpack4.
  destruct xs as [|a [|b [|c [|d [|e xs]]]]]; split; reflexivity || exact I.
Qed.

Lemma safe_unpack6 (xs : list string) : safe (unpack6 xs).
Proof.
  intros w. unfold unpack6.
  destruct xs as [|a [|b [|c [|d [|e [|f [|g xs]]]]]]]; split; reflexivity || exact I.
Qed.

Lemma safe_unpack7 (xs : list string) : safe (unpack7 xs).
Proof.
  intros w. unfold unpack7.
  destruct xs as [|a [|b [|c [|d [|e [|f [|g [|h xs]]]]]]]];
    split; reflexivity || exact I.
Qed.

Lemma safe_verify_ssl_at (argv : list string) (i : nat) : safe (verify_ssl_at argv i).
Proof. unfold verify_ssl_at. walk. Qed.

#[local] Hint Resolve safe_unpack4 safe_unpack6 safe_unpack7 safe_verify_ssl_at
  : pve_safe.

Lemma reports_on_guest (argv : list string)
    (op : string -> string -> string -> string -> Z -> string -> bool -> M World json) :
  (forall api_url username token node vmid vm_type verify_ssl,
      returns (op api_url username token node vmid vm_type verify_ssl)) ->
  reports (on_guest argv op).
Proof.
  intros H. unfold on_guest.
  apply reports_bind; [walk|]. intros [[[[[api_url username] token] node] vmid] vm_type].
  apply reports_bind; [walk|]. intros verify_ssl.
  apply reports_bind; [walk|]. intros id.
  apply reports_print. apply H.
Qed.

Lemma reports_dispatch (command : string) (argv : list string) :
  reports (dispatch command argv).
Proof.
  unfold dispatch.
  repeat match goal with
         | |- reports (if ?c then _ else _) => destruct c
         end;
    try (apply reports_on_guest; intros;
         first [ apply get_vm_status_returns | apply start_vm_returns
               | apply stop_vm_returns | apply shutdown_vm_returns
               | apply reboot_vm_returns | apply list_snapshots_returns ]);
    try apply reports_failure;
    repeat first
      [ apply reports_print;
        first [ apply test_connection_returns | apply create_snapshot_returns
              | apply rollback_snapshot_returns | apply delete_snapshot_returns
              | apply list_vms_returns ]
      | apply reports_bind; [walk|];
        match goal with
        | |- forall _ : _ * _, _ => intros [[[[[[? ?] ?] ?] ?] ?] ?] || intros [[[? ?] ?] ?]
        | |- _ => intro
        end ].
Qed.

Lemma failure_exit (msg : string) (w : World) :
  exists doc w',
    (doc <- json_response false None (Some msg) None ;;
     print doc ;;; (sys_exit 1 : M World unit)) w = (Raise (SystemExit 1), w') /\
    stdout w' = doc :: stdout w.
Proof.
  unfold bind, print, sys_exit, raise.
  destruct (json_response_returns false None (Some msg) None w)
    as (doc & w' & -> & S).
  exists doc. eexists. split; [reflexivity|]. simpl. congruence.
Qed.

(** Whatever the arguments and whatever the hypervisor answers, the main
    block of [proxmox_api.py] prints exactly one document and ends with an
    exit status: no exception is left unhandled. *)
Lemma proxmox_main_always_reports (argv : list string) (w : World) :
  exists code doc,
    exit_of (fst (main argv w)) = Exited code /\
    stdout (snd (main argv w)) = doc :: stdout w.
Proof.
  destruct argv as [|a0 [|command rest]];
    try (destruct (failure_exit "Usage: proxmox_api.py <command> <args>" w)
           as (doc & w' & E & S);
         exists 1, doc;
         match goal with
         | |- context [main ?argv w] =>
             change (main argv w)
               with ((doc <- json_response false None
                               (Some "Usage: proxmox_api.py <command> <args>") None ;;
                      print doc ;;; (sys_exit 1 : M World unit)) w)
         end;
         rewrite E; auto).
  change (main (a0 :: command :: rest) w)
    with (try_except (dispatch command (a0 :: command :: rest)) (on_error command) w).
  unfold try_except.
  pose proof (reports_dispatch command (a0 :: command :: rest) w) as R.
  destruct (dispatch command (a0 :: command :: rest) w) as [[u|e|] w1];
    simpl in R; [| |contradiction].
  - destruct R as [doc R]. exists 0, doc. auto.
  - destruct e; simpl in *;
      try (eexists; eexists; split; [reflexivity | rewrite R; reflexivity]).
    destruct R as [doc R]. eauto.
Qed.

End ProxmoxCalls.

(** ** Both scripts *)

(** C6.  In both scripts, powering on what already runs is a success that
    says so and issues no start call.  For the cloud script: when the
    server is found with status [running], the result carries "Server is
    already running" and the server query is the only provider call.  For
    the hypervisor script, for a virtual machine ([qemu]) and for a
    container ([lxc]): when the status query answers [running], the result
    carries "<KIND> is already running" and the status query is the only
    request. *)
Theorem power_on_of_running_resource_is_noop :
  (forall (api_token : string) (server_id : Z) (w w1 : Hetzner.World)
          (server : Hetzner.Server),
      Hetzner.servers_get_by_id server_id w = (Ret (Some server), w1) ->
      Hetzner.server_status server = Hetzner.STATUS_RUNNING ->
      exists doc w',
        Hetzner.start_server api_token server_id w = (Ret doc, w') /\
        succeeded doc /\
        data_field "status" doc = Some (JStr "running") /\
        data_field "message" doc = Some (JStr "Server is already running") /\
        Hetzner.log w' = Hetzner.ServersGetById server_id :: Hetzner.log w /\
        filter HetznerLog.is_power_on (Hetzner.log w')
          = filter HetznerLog.is_power_on (Hetzner.log w)) /\
  (forall (api_url username token node : string) (vmid : Z) (vm_type : string)
          (verify_ssl : bool) (w : Proxmox.World) (current : json),
      vm_type = "qemu" \/ vm_type = "lxc" ->
      Proxmox.respond w (List.length (Proxmox.log w))
        (ProxmoxLog.status_query node vm_type vmid) = Proxmox.Answer current ->
      field "status" current = Some (JStr "running") ->
      exists doc w',
        Proxmox.start_vm api_url username token node vmid vm_type verify_ssl w
          = (Ret doc, w') /\
        succeeded doc /\
        data_field "status" doc = Some (JStr "running") /\
        field "message" doc = Some (JStr (upper vm_type ++ " is already running")) /\
        Proxmox.log w' = ProxmoxLog.status_query node vm_type vmid :: Proxmox.log w /\
        filter ProxmoxLog.is_write (Proxmox.log w')
          = filter ProxmoxLog.is_write (Proxmox.log w)).
Proof.
  split.
  - intros api_token server_id w w1 server H S.
    destruct (start_server_running_is_noop api_token server_id w w1 server H S)
      as (doc & w' & R & P1 & P2 & P3 & L).
    exists doc, w'. rewrite L. simpl. auto 10.
  - intros api_url username token node vmid vm_type verify_ssl w current K R S.
    destruct (start_vm_running_is_noop api_url username token node vmid vm_type
                verify_ssl w current K R S) as (doc & w' & E & P1 & P2 & P3 & L).
    exists doc, w'. rewrite L. simpl. auto 10.
Qed.

(** C6 at work: server 1 runs, and so does container 101. *)
Lemma power_on_of_running_resource_example :
  (exists doc w',
      Hetzner.start_server "token" 1 Scenario.idle_world = (Ret doc, w') /\
      succeeded doc /\
      data_field "message" doc = Some (JStr "Server is already running") /\
      Hetzner.log w' = [Hetzner.ServersGetById 1]) /\
  (exists doc w',
      Proxmox.start_vm "https://pve:8006" "root@pam" "ops=secret" "pve" 101 "lxc" true
        (PveScenario.answering PveScenario.running_guest) = (Ret doc, w') /\
      succeeded doc /\
      field "message" doc = Some (JStr "LXC is already running") /\
      Proxmox.log w' = [ProxmoxLog.status_query "pve" "lxc" 101]).
Proof.
  destruct power_on_of_running_resource_is_noop as [H P]. split.
  - destruct (H "token" 1 Scenario.idle_world
                (snd (Hetzner.servers_get_by_id 1 Scenario.idle_world))
                Scenario.web eq_refl eq_refl)
      as (doc & w' & R & S & _ & M & L & _).
    exists doc, w'. auto.
  - destruct (P "https://pve:8006" "root@pam" "ops=secret" "pve" 101 "lxc" true
                (PveScenario.answering PveScenario.running_guest)
                PveScenario.running_guest (or_intror eq_refl) eq_refl eq_refl)
      as (doc & w' & R & S & _ & M & L & _).
    exists doc, w'. auto.
Defined.

(** C7, at the input where it fails.  The cloud script converts the server
    id with [int] in [main], outside every [try]: for the arguments
    [start token abc] the [ValueError] leaves [main], nothing is printed,
    and the process ends on the unhandled exception.  That conversion is
    the only leak: every other run of its [main] prints one document.
    The hypervisor script wraps its whole dispatch, conversions included,
    in the [try] of its main block: whatever the arguments and the
    answers, it prints exactly one document and ends with an exit status;
    for a guest id [abc] the document is a failure with the text of the
    error and the status is 1. *)
Theorem hetzner_main_lets_bad_id_escape (fuel : nat) :
  (forall w : Hetzner.World,
      Hetzner.main fuel ["hetzner_cloud.py"; "start"; "token"; "abc"] w
      = (Raise (ValueError "invalid literal for int() with base 10: 'abc'"), w) /\
      exit_of (fst (Hetzner.main fuel ["hetzner_cloud.py"; "start"; "token"; "abc"] w))
      = Unhandled (ValueError "invalid literal for int() with base 10: 'abc'")) /\
  (forall (argv : list string) (w : Hetzner.World),
      HetznerLog.main_ends w (Hetzner.main fuel argv w)) /\
  (forall (argv : list string) (w : Proxmox.World),
      exists code doc,
        exit_of (fst (Proxmox.main argv w)) = Exited code /\
        Proxmox.stdout (snd (Proxmox.main argv w)) = doc :: Proxmox.stdout w) /\
  (forall w : Proxmox.World,
      exists doc w',
        Proxmox.main ["proxmox_api.py"; "start_vm"; "https://pve:8006"; "root@pam";
                      "ops=secret"; "pve"; "abc"; "qemu"] w
        = (Raise (SystemExit 1), w') /\
        Proxmox.stdout w' = doc :: Proxmox.stdout w /\
        failed_with "invalid literal for int() with base 10: 'abc'" doc /\
        Proxmox.log w' = Proxmox.log w).
Proof.
  split; [|split; [|split]].
  - intros w. split; reflexivity.
  - apply hetzner_main_ends.
  - exact proxmox_main_always_reports.
  - intros w. eexists. eexists. split; [reflexivity|]. simpl.
    repeat split.
Qed.

(** ** The cloud script: the other operations *)

Section HetznerOperations.
Import Hetzner HetznerLog.

(** Runs the [json_response] met in the goal. *)
Ltac run_response doc Hsuccess Hdata Herror :=
  match goal with
  | |- context [json_response ?s ?d ?e ?w] =>
      let Hrun := fresh "Hrun" in
      destruct (hetzner_json_response_spec s d e w)
        as (doc & Hrun & Hsuccess & Hdata & Herror & _);
      rewrite Hrun; clear Hrun
  end.

(** Runs the [json_response] met in the goal and offers its document as
    the result. *)
Ltac respond :=
  match goal with
  | |- context [json_response ?s ?d ?e ?w] =>
      let doc := fresh "doc" in
      let Hsuccess := fresh "Hsuccess" in
      let Hdata := fresh "Hdata" in
      let Herror := fresh "Herror" in
      run_response doc Hsuccess Hdata Herror;
      exists (JDict doc), (snd (env_step w));
      unfold succeeded, failed_with, data_field, field
  end.

(** What any call to the provider leaves in the log, and how it can end. *)
Lemma provider_call_trace {A : Type} (ev : Outcome A -> Event)
    (serve : Provider -> A * Provider) (w w' : World) (o : Outcome A) :
  provider_call ev serve w = (o, w') ->
  log w' = ev o :: log w /\
  ((exists msg, o = Raise (APIException msg)) \/ exists a, o = Ret a).
Proof.
  unfold provider_call. destruct (env_step_keeps w) as [Hl _].
  destruct (env_step w) as [s w1]; simpl in *.
  destruct (fault s); [|destruct (serve (provider w1))];
    intros H; inversion H; subst; simpl; rewrite Hl; eauto.
Qed.

(** X1.  [stop_server] on a server whose status is [off] is a success
    that says "Server is already stopped"; the server query is its only
    provider call, so no shutdown is issued. *)
Theorem stop_server_of_stopped_server_is_noop
    (api_token : string) (server_id : Z) (w w1 : World) (server : Server) :
  servers_get_by_id server_id w = (Ret (Some server), w1) ->
  server_status server = STATUS_OFF ->
  exists doc w',
    stop_server api_token server_id w = (Ret doc, w') /\
    succeeded doc /\
    data_field "status" doc = Some (JStr "off") /\
    data_field "message" doc = Some (JStr "Server is already stopped") /\
    log w' = ServersGetById server_id :: log w.
Proof.
  intros H S. unfold stop_server, try_except, bind. rewrite H, S. simpl.
  apply servers_get_by_id_inv in H. destruct H as (L & _).
  destruct (env_step_keeps w1) as [L1 _].
  respond. rewrite Hsuccess, Hdata. simpl. repeat split. congruence.
Qed.

(** X1 at work: server 2 is off, and stopping it asks the provider for
    nothing but the server. *)
Lemma stop_server_of_stopped_server_example :
  exists doc w',
    stop_server "token" 2 Estate.fleet_world = (Ret doc, w') /\
    succeeded doc /\
    data_field "status" doc = Some (JStr "off") /\
    data_field "message" doc = Some (JStr "Server is already stopped") /\
    log w' = [ServersGetById 2].
Proof.
  apply (stop_server_of_stopped_server_is_noop "token" 2 Estate.fleet_world
           (snd (servers_get_by_id 2 Estate.fleet_world)) Estate.db);
    reflexivity.
Defined.

(** X2.  For a server the provider does not know, the lookup raises the
    SDK's exception, and [start_server], [stop_server], [reboot_server],
    [get_server_status] and [create_snapshot] each return a failure that
    carries the text of that exception and no data; the lookup is their
    only provider call. *)
Theorem missing_server_is_reported_without_action
    (api_token : string) (server_id : Z) (description : string) (w : World) :
  find (fun s => Hetzner.server_id s =? server_id)
    (servers (provider (snd (env_step w)))) = None ->
  exists e w1,
    servers_get_by_id server_id w = (Raise e, w1) /\
    forall op,
      In op [start_server api_token server_id;
             stop_server api_token server_id;
             reboot_server api_token server_id;
             get_server_status api_token server_id;
             create_snapshot api_token server_id description] ->
      exists doc w',
        op w = (Ret doc, w') /\
        field "success" doc = Some (JBool false) /\
        field "error" doc = error_text (str_exn e) /\
        field "data" doc = None /\
        log w' = ServersGetById server_id :: log w.
Proof.
  intros F.
  destruct (servers_get_by_id server_id w) as [o w1] eqn:H.
  pose proof (provider_lookup_inv _ _ _ _ _ _ _ H) as (L & _ & P & _ & _ & O).
  destruct O as [(msg & ->) | (a & -> & Fa)];
    [|rewrite P in Fa; congruence].
  exists (APIException msg), w1. split; [reflexivity|].
  intros op I.
  destruct (env_step_keeps w1) as [L1 _].
  simpl in I. destruct I as [<-|[<-|[<-|[<-|[<-|[]]]]]];
    unfold start_server, stop_server, reboot_server, get_server_status,
      create_snapshot, try_except, bind; rewrite H; simpl is_Exception; cbv iota;
    respond; unfold error_text; rewrite Hsuccess, Herror, Hdata; simpl;
    repeat split; congruence.
Qed.

(** X2 at work: there is no server 9 to reboot. *)
Lemma missing_server_example :
  exists e w1,
    servers_get_by_id 9 Scenario.idle_world = (Raise e, w1) /\
    exists doc w',
      reboot_server "token" 9 Scenario.idle_world = (Ret doc, w') /\
      field "success" doc = Some (JBool false) /\
      field "error" doc = error_text (str_exn e) /\
      field "data" doc = None /\
      log w' = [ServersGetById 9].
Proof.
  destruct (missing_server_is_reported_without_action "token" 9 "before-upgrade"
              Scenario.idle_world eq_refl) as (e & w1 & H & Ops).
  exists e, w1. split; [exact H|].
  apply Ops. simpl. tauto.
Defined.

(** X3.  For a server that does not run, [start_server] issues the
    power-on, waits for the action with 60 retries, reads the server
    again, in this order, and returns a success that reports the status
    and the address of the second reading, whatever that status is. *)
Theorem start_server_powers_on_then_reads_again
    (api_token : string) (server_id : Z) (w w1 w2 w3 w4 : World)
    (server refreshed : Server) (action : Action) :
  servers_get_by_id server_id w = (Ret (Some server), w1) ->
  server_status server <> STATUS_RUNNING ->
  server_power_on server w1 = (Ret action, w2) ->
  action_wait_until_finished action 60 w2 = (Ret tt, w3) ->
  servers_get_by_id server_id w3 = (Ret (Some refreshed), w4) ->
  exists doc w',
    start_server api_token server_id w = (Ret doc, w') /\
    succeeded doc /\
    data_field "status" doc = Some (JStr (server_status refreshed)) /\
    data_field "public_ipv4" doc = Some (json_of_opt_str (public_ipv4 refreshed)) /\
    data_field "message" doc = Some (JStr "Server started successfully") /\
    log w' = ServersGetById server_id
               :: ActionWaitUntilFinished (action_id action) 60
               :: ServerPowerOn server_id
               :: ServersGetById server_id :: log w.
Proof.
  intros H1 S H2 H3 H4.
  unfold start_server, try_except, bind. rewrite H1.
  apply String.eqb_neq in S. rewrite S, H2, H3, H4.
  pose proof (servers_get_by_id_inv _ _ _ _ H1) as (L1 & _ & _ & _ & _ & I1).
  specialize (I1 server eq_refl).
  apply provider_call_trace in H2. destruct H2 as [L2 _].
  apply provider_call_trace in H3. destruct H3 as [L3 _].
  apply servers_get_by_id_inv in H4. destruct H4 as (L4 & _).
  destruct (env_step_keeps w4) as [L5 _].
  respond. rewrite Hsuccess, Hdata. simpl. repeat split. congruence.
Qed.

(** X3 at work: server 2 is off; the second reading finds it
    [starting], and this is what the success reports. *)
Lemma start_server_powers_on_example :
  exists doc w',
    start_server "token" 2 Estate.fleet_world = (Ret doc, w') /\
    succeeded doc /\
    data_field "status" doc = Some (JStr "starting") /\
    data_field "public_ipv4" doc = Some (JStr "203.0.113.9") /\
    data_field "message" doc = Some (JStr "Server started successfully") /\
    log w' = [ServersGetById 2; ActionWaitUntilFinished 100 60;
              ServerPowerOn 2; ServersGetById 2].
Proof.
  pose (w1 := snd (servers_get_by_id 2 Estate.fleet_world)).
  pose (w2 := snd (server_power_on Estate.db w1)).
  pose (w3 := snd (action_wait_until_finished (mkAction 100) 60 w2)).
  pose (w4 := snd (servers_get_by_id 2 w3)).
  apply (start_server_powers_on_then_reads_again "token" 2 Estate.fleet_world
           w1 w2 w3 w4 Estate.db (set_status 2 "starting" Estate.db) (mkAction 100));
    solve [reflexivity | discriminate].
Defined.

(** X4.  When waiting for the power-on action fails, [start_server]
    returns a failure with the text of the error; the power-on stays
    issued, nothing undoes it, and the server is not read again. *)
Theorem start_server_reports_a_failed_wait
    (api_token : string) (server_id : Z) (w w1 w2 w3 : World)
    (server : Server) (action : Action) (e : exn) :
  servers_get_by_id server_id w = (Ret (Some server), w1) ->
  server_status server <> STATUS_RUNNING ->
  server_power_on server w1 = (Ret action, w2) ->
  action_wait_until_finished action 60 w2 = (Raise e, w3) ->
  exists doc w',
    start_server api_token server_id w = (Ret doc, w') /\
    field "success" doc = Some (JBool false) /\
    field "error" doc = error_text (str_exn e) /\
    log w' = ActionWaitUntilFinished (action_id action) 60
               :: ServerPowerOn server_id
               :: ServersGetById server_id :: log w.
Proof.
  intros H1 S H2 H3.
  unfold start_server, try_except, bind. rewrite H1.
  apply String.eqb_neq in S. rewrite S, H2, H3.
  pose proof (servers_get_by_id_inv _ _ _ _ H1) as (L1 & _ & _ & _ & _ & I1).
  specialize (I1 server eq_refl).
  apply provider_call_trace in H2. destruct H2 as [L2 _].
  apply provider_call_trace in H3. destruct H3 as [L3 [[msg E]|[a E]]];
    inversion E; subst e. simpl is_Exception. cbv iota.
  destruct (env_step_keeps w3) as [L4 _].
  respond. rewrite Hsuccess, Herror. simpl. repeat split. congruence.
Qed.

(** X4 at work: the wait for the power-on of server 2 fails. *)
Lemma start_server_failed_wait_example :
  exists doc w',
    start_server "token" 2 Estate.fleet_wait_fails = (Ret doc, w') /\
    field "success" doc = Some (JBool false) /\
    field "error" doc = Some (JStr "action did not finish in time") /\
    log w' = [ActionWaitUntilFinished 100 60; ServerPowerOn 2; ServersGetById 2].
Proof.
  pose (w1 := snd (servers_get_by_id 2 Estate.fleet_wait_fails)).
  pose (w2 := snd (server_power_on Estate.db w1)).
  pose (w3 := snd (action_wait_until_finished (mkAction 100) 60 w2)).
  apply (start_server_reports_a_failed_wait "token" 2 Estate.fleet_wait_fails
           w1 w2 w3 Estate.db (mkAction 100)
           (APIException "action did not finish in time"));
    solve [reflexivity | discriminate].
Defined.

(** X5.  [reboot_server] never looks at the status of the server: for a
    server that is found, it issues the reboot, waits for the action, and
    returns a success whose status is the fixed text "rebooting", without
    reading the server again. *)
Theorem reboot_server_reboots_without_checking
    (api_token : string) (server_id : Z) (w w1 w2 w3 : World)
    (server : Server) (action : Action) :
  servers_get_by_id server_id w = (Ret (Some server), w1) ->
  server_reboot server w1 = (Ret action, w2) ->
  action_wait_until_finished action 60 w2 = (Ret tt, w3) ->
  exists doc w',
    reboot_server api_token server_id w = (Ret doc, w') /\
    succeeded doc /\
    data_field "status" doc = Some (JStr "rebooting") /\
    data_field "name" doc = Some (JStr (server_name server)) /\
    log w' = ActionWaitUntilFinished (action_id action) 60
               :: ServerReboot server_id
               :: ServersGetById server_id :: log w.
Proof.
  intros H1 H2 H3.
  unfold reboot_server, try_except, bind. rewrite H1, H2, H3.
  pose proof (servers_get_by_id_inv _ _ _ _ H1) as (L1 & _ & _ & _ & _ & I1).
  specialize (I1 server eq_refl).
  apply provider_call_trace in H2. destruct H2 as [L2 _].
  apply provider_call_trace in H3. destruct H3 as [L3 _].
  destruct (env_step_keeps w3) as [L4 _].
  respond. rewrite Hsuccess, Hdata. simpl. repeat split. congruence.
Qed.

(** X5 at work: server 2 is off, and is rebooted all the same. *)
Lemma reboot_server_example :
  exists doc w',
    reboot_server "token" 2 Estate.fleet_world = (Ret doc, w') /\
    succeeded doc /\
    data_field "status" doc = Some (JStr "rebooting") /\
    data_field "name" doc = Some (JStr "db") /\
    log w' = [ActionWaitUntilFinished 100 60; ServerReboot 2; ServersGetById 2].
Proof.
  pose (w1 := snd (servers_get_by_id 2 Estate.fleet_world)).
  pose (w2 := snd (server_reboot Estate.db w1)).
  pose (w3 := snd (action_wait_until_finished (mkAction 100) 60 w2)).
  apply (reboot_server_reboots_without_checking "token" 2 Estate.fleet_world
           w1 w2 w3 Estate.db (mkAction 100));
    reflexivity.
Defined.

(** X6.  [get_server_status] only reads: whatever the provider answers,
    the server query is its one provider call, and when nobody else acts
    the provider is left as it was.  For a server that is found the
    result carries its status, type and addresses, with [null] for an
    address or a datacenter it does not have. *)
Theorem get_server_status_only_reads
    (api_token : string) (server_id : Z) (w : World) :
  exists doc w',
    get_server_status api_token server_id w = (Ret doc, w') /\
    log w' = ServersGetById server_id :: log w /\
    (undisturbed w -> provider w' = provider w) /\
    (forall server w1,
        servers_get_by_id server_id w = (Ret (Some server), w1) ->
        succeeded doc /\
        data_field "status" doc = Some (JStr (server_status server)) /\
        data_field "server_type" doc = Some (JStr (server_type_name server)) /\
        data_field "public_ipv4" doc = Some (json_of_opt_str (public_ipv4 server)) /\
        data_field "public_ipv6" doc = Some (json_of_opt_str (public_ipv6 server)) /\
        data_field "datacenter" doc
          = Some (json_of_opt_str (option_map fst (server_datacenter server))) /\
        data_field "locked" doc = Some (JBool (locked server))).
Proof.
  unfold get_server_status, try_except, bind.
  destruct (servers_get_by_id server_id w) as [o w1] eqn:H.
  pose proof (servers_get_by_id_inv _ _ _ _ H) as (L1 & _ & P1 & S1 & O & _).
  destruct (env_step_keeps w1) as [L2 _].
  assert (U : undisturbed w -> provider (snd (env_step w1)) = provider w).
  { intros U. destruct (undisturbed_after w w1 U P1 S1) as [Q1 U1].
    destruct (env_step_undisturbed w1 U1) as [Q2 _]. congruence. }
  destruct O as [[msg ->]|[[server|] ->]]; simpl;
    respond; (split; [reflexivity|]); (split; [congruence|]);
    (split; [exact U|]); intros s w1' E; inversion E; subst.
  rewrite Hsuccess, Hdata. simpl. repeat split.
Qed.

(** X7.  For a snapshot the provider does not know, the lookup raises
    the SDK's exception, and [delete_snapshot] returns a failure that
    carries the text of that exception; no delete call is issued. *)
Theorem delete_snapshot_of_missing_snapshot_fails
    (api_token : string) (snapshot_id : Z) (w : World) :
  find (fun i => image_id i =? snapshot_id)
    (images (provider (snd (env_step w)))) = None ->
  exists e w1 doc w',
    images_get_by_id snapshot_id w = (Raise e, w1) /\
    delete_snapshot api_token snapshot_id w = (Ret doc, w') /\
    field "success" doc = Some (JBool false) /\
    field "error" doc = error_text (str_exn e) /\
    field "data" doc = None /\
    log w' = ImagesGetById snapshot_id (Raise e) :: log w.
Proof.
  intros F.
  destruct (images_get_by_id snapshot_id w) as [o w1] eqn:H.
  pose proof (provider_lookup_inv _ _ _ _ _ _ _ H) as (L & _ & P & _ & _ & O).
  destruct O as [(msg & ->) | (a & -> & Fa)];
    [|rewrite P in Fa; congruence].
  exists (APIException msg), w1.
  destruct (env_step_keeps w1) as [L1 _].
  unfold delete_snapshot, try_except, bind. rewrite H. simpl is_Exception. cbv iota.
  respond. split; [reflexivity|]. split; [reflexivity|].
  unfold error_text. rewrite Hsuccess, Herror, Hdata. simpl.
  repeat split. congruence.
Qed.

(** X7 at work: the provider holds no snapshot 9. *)
Lemma delete_snapshot_of_missing_snapshot_example :
  exists e w1 doc w',
    images_get_by_id 9 Scenario.idle_world = (Raise e, w1) /\
    delete_snapshot "token" 9 Scenario.idle_world = (Ret doc, w') /\
    field "success" doc = Some (JBool false) /\
    field "error" doc = error_text (str_exn e) /\
    field "data" doc = None /\
    log w' = [ImagesGetById 9 (Raise e)].
Proof.
  apply (delete_snapshot_of_missing_snapshot_fails "token" 9 Scenario.idle_world).
  reflexivity.
Defined.

(** X8.  In a calm world, [delete_snapshot] of a snapshot the provider
    holds succeeds, and afterwards the provider holds exactly the
    snapshots with another id, in their order; its servers are the
    same. *)
Theorem delete_snapshot_removes_that_snapshot_only
    (api_token : string) (snapshot_id : Z) (w : World) (img : Image) :
  calm w ->
  find (fun i => image_id i =? snapshot_id) (images (provider w)) = Some img ->
  exists doc w',
    delete_snapshot api_token snapshot_id w = (Ret doc, w') /\
    succeeded doc /\
    data_field "snapshot_id" doc = Some (JInt snapshot_id) /\
    images (provider w')
      = filter (fun i => negb (image_id i =? snapshot_id)) (images (provider w)) /\
    servers (provider w') = servers (provider w) /\
    log w' = ImageDelete snapshot_id
               :: ImagesGetById snapshot_id (Ret (Some img)) :: log w.
Proof.
  intros C F. unfold delete_snapshot, try_except, bind.
  destruct (provider_lookup_calm (fun o => ImagesGetById snapshot_id o) "image"
              snapshot_id (fun p => find (fun i => image_id i =? snapshot_id) (images p))
              w C) as (w1 & E1 & P1 & C1 & L1).
  rewrite F in E1, L1.
  unfold images_get_by_id. rewrite E1.
  destruct (provider_call_calm (fun _ => ImageDelete (image_id img))
              (fun p => (tt, {| servers := servers p;
                                images := filter (fun i => negb (image_id i =? image_id img))
                                            (images p);
                                next_id := next_id p |}))
              w1 C1) as (w2 & E2 & P2 & C2).
  cbv beta iota. unfold image_delete. rewrite E2. simpl fst in *. simpl snd in P2.
  pose proof (provider_call_trace _ _ _ _ _ E2) as [L2 _].
  apply find_some in F. destruct F as [_ F]. apply Z.eqb_eq in F. rewrite F in *.
  destruct (env_step_keeps w2) as [L3 _].
  destruct (env_step_calm w2 C2) as (_ & Q3 & _).
  respond. rewrite Hsuccess, Hdata, Q3, P2, P1. simpl. repeat split. congruence.
Qed.

(** X8 at work: of the two snapshots, the weekly one is deleted and the
    old backup stays. *)
Lemma delete_snapshot_removes_that_snapshot_example :
  exists doc w',
    delete_snapshot "token" 5 Scenario.idle_world = (Ret doc, w') /\
    succeeded doc /\
    data_field "snapshot_id" doc = Some (JInt 5) /\
    images (provider w') = [Scenario.legacy] /\
    servers (provider w') = [Scenario.web] /\
    log w' = [ImageDelete 5; ImagesGetById 5 (Ret (Some Scenario.weekly))].
Proof.
  apply (delete_snapshot_removes_that_snapshot_only "token" 5 Scenario.idle_world
           Scenario.weekly); [constructor | reflexivity].
Defined.

(** X9.  A server id of 0 and an empty server name are no filter for
    [list_snapshots]: given only these (or nothing), it returns every
    snapshot of the project, whatever they were made from and however
    they are named, and says [all_project]. *)
Theorem list_snapshots_treats_zero_and_empty_as_no_filter
    (api_token : string) (server_name : option string) (server_id : option Z)
    (w w1 : World) (imgs : list Image) :
  images_get_all w = (Ret imgs, w1) ->
  server_name = None \/ server_name = Some "" ->
  server_id = None \/ server_id = Some 0 ->
  exists doc w',
    list_snapshots api_token server_name server_id w = (Ret doc, w') /\
    succeeded doc /\
    data_field "snapshots" doc = Some (JList (map snapshot_info imgs)) /\
    data_field "count" doc = Some (JInt (Z.of_nat (List.length imgs))) /\
    data_field "filter_used" doc = Some (JStr "all_project").
Proof.
  intros H N I.
  assert (Tn : truthy_opt_str server_name = false) by (destruct N as [-> | ->]; reflexivity).
  assert (Ti : truthy_opt_Z server_id = false) by (destruct I as [-> | ->]; reflexivity).
  unfold list_snapshots, try_except, bind. rewrite H, fold_list_step, Tn, Ti.
  cbn [snapshots snapshots_with_prefix snapshots_for_server
       all_snapshots_for_project app andb orb].
  respond. rewrite Hsuccess, Hdata. simpl. rewrite length_map. repeat split.
Qed.

(** X9 at work: server id 0 and an empty name select nothing, and all
    three snapshots come back. *)
Lemma list_snapshots_no_filter_example :
  exists doc w',
    list_snapshots "token" (Some "") (Some 0) Scenario.busy_world = (Ret doc, w') /\
    succeeded doc /\
    data_field "snapshots" doc
      = Some (JList (map snapshot_info
                       [Scenario.legacy; Scenario.weekly; Scenario.nightly])) /\
    data_field "count" doc = Some (JInt 3) /\
    data_field "filter_used" doc = Some (JStr "all_project").
Proof.
  apply (list_snapshots_treats_zero_and_empty_as_no_filter "token" (Some "") (Some 0)
           Scenario.busy_world (snd (images_get_all Scenario.busy_world))
           (images Scenario.busy));
    [reflexivity | right; reflexivity | right; reflexivity].
Defined.

(** *** The command line *)

Lemma fail_with_trace (msg : string) (w : World) :
  truthy_str msg = true ->
  exists doc w',
    fail_with msg w = (Raise (SystemExit 1), w') /\
    stdout w' = doc :: stdout w /\
    log w' = log w /\
    failed_with msg doc.
Proof.
  intros T. unfold fail_with, bind, print, sys_exit, raise.
  destruct (hetzner_json_response_spec false None (Some msg) w)
    as (doc & -> & Hsuccess & _ & Herror & _).
  destruct (env_step_keeps w) as [L S].
  exists (JDict doc). eexists. split; [reflexivity|]. simpl.
  unfold failed_with, field. rewrite Hsuccess, Herror. simpl. rewrite T.
  repeat split; congruence.
Qed.

Ltac dispatch :=
  cbv [main argv_at nth_error List.length Nat.ltb Nat.leb bind ret].

(** X10.  A command line too short for its command never reaches the
    provider: with fewer than four words and a command other than
    [list_snapshots], or with fewer than five and [create_snapshot],
    [main] prints one failure document, either a usage line or the
    unknown command, and exits with status 1. *)
Theorem hetzner_main_rejects_short_command_line
    (fuel : nat) (argv : list string) (w : World) :
  ((List.length argv < 4)%nat /\ nth_error argv 1 <> Some "list_snapshots") \/
  ((List.length argv < 5)%nat /\ nth_error argv 1 = Some "create_snapshot") ->
  exists msg doc w',
    main fuel argv w = (Raise (SystemExit 1), w') /\
    stdout w' = doc :: stdout w /\
    failed_with msg doc /\
    log w' = log w /\
    (prefix "Usage: hetzner_cloud.py" msg = true \/
     exists command, nth_error argv 1 = Some command /\
                     msg = "Unknown command: " ++ command).
Proof.
  assert (Usage : forall msg,
            prefix "Usage: hetzner_cloud.py" msg = true ->
            exists msg' doc w',
              fail_with msg w = (Raise (SystemExit 1), w') /\
              stdout w' = doc :: stdout w /\
              failed_with msg' doc /\
              log w' = log w /\
              (prefix "Usage: hetzner_cloud.py" msg' = true \/
               exists command, nth_error argv 1 = Some command /\
                               msg' = "Unknown command: " ++ command)).
  { intros msg P.
    destruct (fail_with_trace msg w) as (doc & w' & E & S & L & F).
    - destruct msg; [discriminate | reflexivity].
    - exists msg, doc, w'. auto 6. }
  destruct argv as [|a [|command [|api_token [|x [|y rest]]]]];
    intros [[Short Other] | [Short Create]]; simpl in Short; try lia;
    try discriminate Create;
    try (apply Usage; reflexivity).
  - (* three words *)
    dispatch.
    repeat match goal with
           | |- context [(command =? ?c)%string] =>
               destruct (String.eqb_spec command c);
                 [try (apply Usage; reflexivity)|]
           end.
    + subst. contradiction Other. reflexivity.
    + destruct (fail_with_trace ("Unknown command: " ++ command) w)
        as (doc & w' & E & S & L & F); [reflexivity|].
      exists ("Unknown command: " ++ command), doc, w'.
      repeat split; try assumption; try apply F. right. exists command. auto.
  - injection Create as ->. apply Usage. reflexivity.
  - injection Create as ->. apply Usage. reflexivity.
Qed.

(** X10 at work: [start] without a server id. *)
Lemma hetzner_main_rejects_short_command_line_example :
  exists msg doc w',
    main 0 ["hetzner_cloud.py"; "start"; "token"] Scenario.idle_world
      = (Raise (SystemExit 1), w') /\
    stdout w' = [doc] /\
    failed_with msg doc /\
    log w' = [] /\
    (prefix "Usage: hetzner_cloud.py" msg = true \/
     exists command,
       nth_error ["hetzner_cloud.py"; "start"; "token"] 1 = Some command /\
       msg = "Unknown command: " ++ command).
Proof.
  apply (hetzner_main_rejects_short_command_line 0
           ["hetzner_cloud.py"; "start"; "token"] Scenario.idle_world).
  left. split; [simpl; lia | discriminate].
Defined.

(** X11.  A command that is none of the eight the script knows is
    answered, whatever follows it on the command line, with the failure
    "Unknown command: <command>" and exit status 1, and no call to the
    provider. *)
Theorem hetzner_main_names_unknown_command
    (fuel : nat) (program command api_token : string) (rest : list string)
    (w : World) :
  ~ In command ["start"; "stop"; "reboot"; "status"; "create_snapshot";
                "wait_snapshot"; "list_snapshots"; "delete_snapshot"] ->
  exists doc w',
    main fuel (program :: command :: api_token :: rest) w
      = (Raise (SystemExit 1), w') /\
    stdout w' = doc :: stdout w /\
    failed_with ("Unknown command: " ++ command) doc /\
    log w' = log w.
Proof.
  intros Unknown. unfold main.
  change (List.length (program :: command :: api_token :: rest) <? 3)%nat with false.
  cbv [argv_at nth_error]. unfold bind at 1 2. unfold ret at 1 2.
  repeat match goal with
         | |- context [(command =? ?c)%string] =>
             destruct (String.eqb_spec command c);
               [exfalso; apply Unknown; subst; simpl; tauto|]
         end.
  destruct (fail_with_trace ("Unknown command: " ++ command) w)
    as (doc & w' & E & S & L & F); [reflexivity|].
  exists doc, w'. auto.
Qed.

(** X11 at work: there is no command [resize]. *)
Lemma hetzner_main_names_unknown_command_example :
  exists doc w',
    main 0 ["hetzner_cloud.py"; "resize"; "token"; "1"] Scenario.idle_world
      = (Raise (SystemExit 1), w') /\
    stdout w' = [doc] /\
    failed_with "Unknown command: resize" doc /\
    log w' = [].
Proof.
  apply (hetzner_main_names_unknown_command 0 "hetzner_cloud.py" "resize" "token"
           ["1"] Scenario.idle_world).
  simpl. intuition discriminate.
Defined.

Lemma list_snapshots_without_id (api_token : string) (server_name : option string)
    (w w1 : World) (imgs : list Image) :
  images_get_all w = (Ret imgs, w1) ->
  exists doc w',
    list_snapshots api_token server_name None w = (Ret doc, w') /\
    stdout w' = stdout w /\
    succeeded doc /\
    data_field "snapshots" doc
      = Some (JList (map snapshot_info
                       match filter (matches_prefix server_name) imgs with
                       | [] => imgs
                       | (_ :: _) as named => named
                       end)) /\
    data_field "filter_used" doc
      = Some (JStr match filter (matches_prefix server_name) imgs with
                   | [] => "all_project"
                   | _ :: _ => "hostname_prefix"
                   end).
Proof.
  intros H. unfold list_snapshots, try_except, bind. rewrite H, fold_list_step.
  cbn [snapshots snapshots_with_prefix snapshots_for_server
       all_snapshots_for_project app truthy_opt_Z andb].
  apply images_get_all_inv in H. destruct H as (_ & S1 & _).
  destruct (env_step_keeps w1) as [_ S2].
  assert (N : truthy_opt_str server_name = false ->
              filter (matches_prefix server_name) imgs = []).
  { intros T. apply filter_nothing. intros img.
    destruct server_name as [[|c n]|]; simpl in *; auto; discriminate. }
  respond. split; [reflexivity|]. split; [congruence|].
  rewrite Hsuccess, Hdata. clear Hdata.
  destruct (truthy_opt_str server_name);
    [|rewrite (N eq_refl); simpl; rewrite ?orb_false_r; auto].
  destruct (filter (matches_prefix server_name) imgs); simpl; auto.
Qed.

(** X12.  From the command line, [list_snapshots] never selects by the
    server a snapshot was made from: [main] passes no server id, so the
    document holds the snapshots whose description starts with
    "<name>-" when a name is given and some match, and every snapshot of
    the project otherwise; [filter_used] is never [server_id]. *)
Theorem hetzner_main_lists_by_name_only
    (fuel : nat) (program api_token : string) (rest : list string)
    (w w1 : World) (imgs : list Image) :
  images_get_all w = (Ret imgs, w1) ->
  exists doc w',
    main fuel (program :: "list_snapshots" :: api_token :: rest) w = (Ret tt, w') /\
    stdout w' = doc :: stdout w /\
    succeeded doc /\
    data_field "snapshots" doc
      = Some (JList (map snapshot_info
                       match filter (matches_prefix (hd_error rest)) imgs with
                       | [] => imgs
                       | (_ :: _) as named => named
                       end)) /\
    data_field "filter_used" doc
      = Some (JStr match filter (matches_prefix (hd_error rest)) imgs with
                   | [] => "all_project"
                   | _ :: _ => "hostname_prefix"
                   end).
Proof.
  intros H.
  destruct (list_snapshots_without_id api_token (hd_error rest) w w1 imgs H)
    as (doc & w' & E & S & Ok & Snapshots & Filter).
  exists doc. eexists. split; [|split; [|split; [exact Ok|split; eassumption]]].
  - destruct rest as [|name rest];
      cbv [main argv_at nth_error List.length Nat.ltb Nat.leb bind ret
           String.eqb Ascii.eqb Bool.eqb];
      simpl hd_error in E; rewrite E; reflexivity.
  - simpl. congruence.
Qed.

(** X12 at work: two of the three snapshots are named after [web]. *)
Lemma hetzner_main_lists_by_name_example :
  exists doc w',
    main 0 ["hetzner_cloud.py"; "list_snapshots"; "token"; "web"] Scenario.busy_world
      = (Ret tt, w') /\
    stdout w' = [doc] /\
    succeeded doc /\
    data_field "snapshots" doc
      = Some (JList (map snapshot_info [Scenario.weekly; Scenario.nightly])) /\
    data_field "filter_used" doc = Some (JStr "hostname_prefix").
Proof.
  apply (hetzner_main_lists_by_name_only 0 "hetzner_cloud.py" "token" ["web"]
           Scenario.busy_world (snd (images_get_all Scenario.busy_world))
           (images Scenario.busy)).
  reflexivity.
Defined.

(** *** Waiting for a snapshot *)

Lemma images_get_by_id_provider (id : Z) (w : World) :
  provider (snd (images_get_by_id id w)) = provider (snd (env_step w)) /\
  sched (snd (images_get_by_id id w)) = sched (snd (env_step w)).
Proof.
  destruct (images_get_by_id id w) as [o w'] eqn:E.
  apply provider_lookup_inv in E. destruct E as (_ & _ & P & _ & S & _).
  simpl. auto.
Qed.

Lemma time_sleep_provider (seconds : Q) (w : World) :
  provider (snd (time_sleep seconds w)) = provider (snd (env_step w)) /\
  sched (snd (time_sleep seconds w)) = sched (snd (env_step w)).
Proof. unfold time_sleep. destruct (env_step w) as [s w1]. simpl. auto. Qed.

(** The events of the polling loop, and what it does to the provider. *)
Lemma wait_loop_trace (fuel : nat) (id timeout : Z) (start_time : Q) :
  forall (w w' : World) (o : Outcome json),
    wait_loop fuel id timeout start_time w = (o, w') ->
    exists events,
      log w' = (events ++ log w)%list /\
      Forall (fun e => (exists reply, e = ImagesGetById id reply) \/ e = Sleep 10)
        events /\
      (undisturbed w -> provider w' = provider w /\ undisturbed w').
Proof.
  induction fuel as [|fuel IH]; intros w w' o; cbn [wait_loop].
  - unfold out_of_fuel. intros H; inversion H; subst.
    exists []. repeat split; auto.
  - unfold bind at 1.
    destruct (time_time w) as [ot wa] eqn:T.
    apply time_time_inv in T. destruct T as [-> ->].
    destruct (env_step_keeps w) as [La _]. set (wa := snd (env_step w)) in *.
    assert (Ua : undisturbed w -> provider wa = provider w /\ undisturbed wa)
      by apply env_step_undisturbed.
    assert (Stop : forall s d e,
               json_response s d e wa = (o, w') ->
               exists events,
                 log w' = (events ++ log w)%list /\
                 Forall (fun e => (exists reply, e = ImagesGetById id reply)
                                  \/ e = Sleep 10) events /\
                 (undisturbed w -> provider w' = provider w /\ undisturbed w')).
    { intros s d e. destruct (env_step_keeps wa) as [Lb _].
      run_response doc Hsuccess Hdata Herror.
      intros H; inversion H; subst.
      exists []. split; [simpl; congruence|]. split; [constructor|].
      intros U. destruct (Ua U) as [Pa U'].
      destruct (env_step_undisturbed wa U') as [Pb U'']. split; [congruence | exact U'']. }
    destruct (Qltb (now wa - start_time) (inject_Z timeout)); [|apply Stop].
    clear Stop. unfold bind at 1.
    destruct (images_get_by_id_provider id wa) as [Pb Sb].
    destruct (images_get_by_id id wa) as [oi wb] eqn:I. simpl in Pb, Sb.
    apply images_get_by_id_inv in I.
    destruct I as (Lb & _ & _ & Reply).
    assert (Ub : undisturbed w -> provider wb = provider w /\ undisturbed wb).
    { intros U. destruct (Ua U) as [Pa U'].
      destruct (undisturbed_after wa wb U' Pb Sb). split; [congruence | assumption]. }
    assert (Stop : forall s d e (wc : World),
               (undisturbed wb -> provider wc = provider wb /\ undisturbed wc) ->
               log wc = log wb ->
               json_response s d e wc = (o, w') ->
               exists events,
                 log w' = (events ++ log w)%list /\
                 Forall (fun e => (exists reply, e = ImagesGetById id reply)
                                  \/ e = Sleep 10) events /\
                 (undisturbed w -> provider w' = provider w /\ undisturbed w')).
    { intros s d e wc Uc Lc. destruct (env_step_keeps wc) as [Ld _].
      run_response doc Hsuccess Hdata Herror.
      intros H; inversion H; subst.
      exists [ImagesGetById id oi]. split; [simpl; congruence|].
      split; [repeat constructor; eauto|].
      intros U. destruct (Ub U) as [Pb' U']. destruct (Uc U') as [Pc U''].
      destruct (env_step_undisturbed wc U'') as [Pd U3]. split; [congruence | exact U3]. }
    destruct Reply as [[msg ->]|[[img|] ->]].
    + intros H; inversion H; subst.
      exists [ImagesGetById id (Raise (APIException msg))].
      split; [simpl; congruence|]. split; [repeat constructor; eauto|].
      intros U. apply (Ub U).
    + destruct (image_status img =? "available")%string.
      * unfold bind at 1.
        destruct (time_time wb) as [ot wc] eqn:T.
        apply time_time_inv in T. destruct T as [-> ->].
        apply Stop; [apply env_step_undisturbed | apply env_step_keeps].
      * destruct (image_status img =? "creating")%string.
        -- unfold bind at 1.
           destruct (time_sleep_provider 10 wb) as [Pc Sc].
           destruct (time_sleep 10 wb) as [os wc] eqn:S. simpl in Pc, Sc.
           apply time_sleep_inv in S. destruct S as (-> & Lc & _).
           intros H. apply IH in H. destruct H as (events & L & F & P).
           exists (events ++ [Sleep 10; ImagesGetById id (Ret (Some img))])%list.
           split; [rewrite L, Lc, Lb, La, <- app_assoc; reflexivity|].
           split.
           ++ apply Forall_app. split; [exact F|].
              constructor; [right; reflexivity|].
              constructor; [left; eauto | constructor].
           ++ intros U. destruct (Ub U) as [Pb' U'].
              destruct (undisturbed_after wb wc U' Pc Sc) as [Pc' U''].
              destruct (P U'') as [Pe U3]. split; [congruence | exact U3].
        -- apply Stop; auto.
    + apply Stop; auto.
Qed.

(** X13.  A wait only watches: whatever the run and however it ends, the
    events [wait_for_snapshot] adds to the log are status queries of that
    one snapshot and sleeps of ten seconds, and when nobody else acts on
    the provider its state at the end is its state at the start.  A wait
    that times out leaves the snapshot job as it is. *)
Theorem wait_for_snapshot_only_polls_and_sleeps
    (fuel : nat) (api_token : string) (snapshot_id timeout : Z) (w : World) :
  exists events,
    log (snd (wait_for_snapshot fuel api_token snapshot_id timeout w))
      = (events ++ log w)%list /\
    Forall (fun e => (exists reply, e = ImagesGetById snapshot_id reply)
                     \/ e = Sleep 10) events /\
    (undisturbed w ->
     provider (snd (wait_for_snapshot fuel api_token snapshot_id timeout w))
       = provider w).
Proof.
  unfold wait_for_snapshot, try_except, bind.
  destruct (time_time w) as [ot wa] eqn:T.
  apply time_time_inv in T. destruct T as [-> ->].
  destruct (env_step_keeps w) as [La _].
  destruct (wait_loop fuel snapshot_id timeout (now (snd (env_step w)))
              (snd (env_step w))) as [o wb] eqn:W.
  apply wait_loop_trace in W. destruct W as (events & L & F & P).
  exists events.
  assert (Pb : undisturbed w -> provider wb = provider w /\ undisturbed wb).
  { intros U. destruct (env_step_undisturbed w U) as [Pa U'].
    destruct (P U') as [Pb U'']. split; [congruence | exact U'']. }
  destruct o as [doc|e|]; simpl;
    try (split; [congruence | split; [exact F | intros U; apply (Pb U)]]).
  destruct (is_Exception e); simpl;
    try (split; [congruence | split; [exact F | intros U; apply (Pb U)]]).
  run_response doc Hsuccess Hdata Herror. simpl.
  destruct (env_step_keeps wb) as [Lc _].
  split; [congruence|]. split; [exact F|].
  intros U. destruct (Pb U) as [Pb' U'].
  destruct (env_step_undisturbed wb U') as [Pc _]. congruence.
Qed.

(** X13 at work: a wait of 15 seconds for the nightly snapshot times
    out and leaves the provider as it was. *)
Lemma wait_for_snapshot_only_polls_example :
  provider (snd (wait_for_snapshot 3 "token" 7 15 Scenario.busy_world))
    = Scenario.busy.
Proof.
  destruct (wait_for_snapshot_only_polls_and_sleeps 3 "token" 7 15 Scenario.busy_world)
    as (events & _ & _ & P).
  apply P. constructor.
Defined.

Lemma Qltb_true (x y : Q) : Qltb x y = true -> (x < y)%Q.
Proof.
  unfold Qltb. intros H. apply negb_true_iff in H.
  apply Qnot_le_lt. intros L. apply Qle_bool_iff in L. congruence.
Qed.

(** With [10 * n] seconds or less of the budget left, the loop asks at
    most [n] times. *)
Lemma wait_loop_polls (fuel : nat) (id timeout : Z) (start_time : Q) :
  forall (n : nat) (w : World),
    monotone w ->
    (inject_Z timeout - (now w - start_time) <= 10 * inject_Z (Z.of_nat n))%Q ->
    exists events,
      log (snd (wait_loop fuel id timeout start_time w)) = (events ++ log w)%list /\
      (List.length (filter is_poll events) <= n)%nat.
Proof.
  induction fuel as [|fuel IH]; intros n w M R; cbn [wait_loop].
  - exists []. simpl. split; [reflexivity | lia].
  - unfold bind at 1.
    destruct (time_time w) as [ot wa] eqn:T.
    apply time_time_inv in T. destruct T as [-> ->].
    destruct (env_step_keeps w) as [La _].
    destruct (env_step_clock w M) as [Ca Ma]. set (wa := snd (env_step w)) in *.
    destruct (Qltb (now wa - start_time) (inject_Z timeout)) eqn:Before.
    + apply Qltb_true in Before.
      destruct n as [|n];
        [change (inject_Z (Z.of_nat 0)) with 0%Q in R; lra|].
      unfold bind at 1.
      destruct (images_get_by_id id wa) as [oi wb] eqn:I.
      apply images_get_by_id_inv in I.
      destruct I as (Lb & Nb & Sb & Reply).
      assert (One : forall s d e (wc : World),
                 log wc = log wb ->
                 exists events,
                   log (snd (json_response s d e wc)) = (events ++ log w)%list /\
                   (List.length (filter is_poll events) <= S n)%nat).
      { intros s d e wc Lc. destruct (env_step_keeps wc) as [Ld _].
        run_response doc Hsuccess Hdata Herror.
        exists [ImagesGetById id oi]. simpl. split; [congruence | lia]. }
      destruct Reply as [[msg ->]|[[img|] ->]].
      * exists [ImagesGetById id (Raise (APIException msg))]. simpl.
        split; [congruence | lia].
      * destruct (image_status img =? "available")%string.
        -- unfold bind at 1.
           destruct (time_time wb) as [ot wc] eqn:T.
           apply time_time_inv in T. destruct T as [-> ->].
           apply One. apply env_step_keeps.
        -- destruct (image_status img =? "creating")%string; [|apply One; reflexivity].
           unfold bind at 1.
           destruct (time_sleep 10 wb) as [os wc] eqn:S.
           apply time_sleep_inv in S. destruct S as (-> & Lc & Nc & Sc).
           pose proof (monotone_after wa wb Ma Sb) as Mb.
           destruct (env_step_clock wa Ma) as [Cb _].
           destruct (env_step_clock wb Mb) as [Cc _].
           destruct (IH n wc (monotone_after wb wc Mb Sc)) as (events & L & B).
           { rewrite Nc. rewrite <- Nb in Cb.
             rewrite Nat2Z.inj_succ, <- Z.add_1_r, inject_Z_plus in R.
             change (inject_Z 1) with 1%Q in R. lra. }
           exists (events ++ [Sleep 10; ImagesGetById id (Ret (Some img))])%list.
           split; [rewrite L, Lc, Lb, La, <- app_assoc; reflexivity|].
           rewrite filter_app, length_app. simpl. lia.
      * apply One. reflexivity.
    + destruct (env_step_keeps wa) as [Lb _].
      run_response doc Hsuccess Hdata Herror.
      exists []. simpl. split; [congruence | lia].
Qed.

(** X14.  With a clock that does not run backwards, [wait_for_snapshot]
    asks for the snapshot's status at most once per started ten seconds
    of its timeout, whatever the provider answers: at most
    [(timeout + 9) / 10] queries, and none when the timeout is not
    positive. *)
Theorem wait_for_snapshot_polls_are_bounded
    (fuel : nat) (api_token : string) (snapshot_id timeout : Z) (w : World) :
  monotone w ->
  exists events,
    log (snd (wait_for_snapshot fuel api_token snapshot_id timeout w))
      = (events ++ log w)%list /\
    (Z.of_nat (List.length (filter is_poll events))
       <= Z.max 0 ((timeout + 9) / 10))%Z.
Proof.
  intros M. unfold wait_for_snapshot, try_except, bind.
  destruct (time_time w) as [ot wa] eqn:T.
  apply time_time_inv in T. destruct T as [-> ->].
  destruct (env_step_keeps w) as [La _].
  destruct (env_step_clock w M) as [_ Ma]. set (wa := snd (env_step w)) in *.
  destruct (wait_loop_polls fuel snapshot_id timeout (now wa)
              (Z.to_nat ((timeout + 9) / 10)) wa Ma) as (events & L & B).
  { assert (timeout <= 10 * Z.of_nat (Z.to_nat ((timeout + 9) / 10)))%Z as Le.
    { pose proof (Z.mod_pos_bound (timeout + 9) 10 ltac:(lia)).
      pose proof (Z.div_mod (timeout + 9) 10 ltac:(lia)). lia. }
    rewrite Zle_Qle, inject_Z_mult in Le.
    change (inject_Z 10) with 10%Q in Le. lra. }
  exists events. split; [|lia].
  destruct (wait_loop fuel snapshot_id timeout (now wa) wa) as [[doc|e|] wb];
    simpl in *; try congruence.
  destruct (is_Exception e); simpl; try congruence.
  destruct (env_step_keeps wb) as [Lc _].
  run_response doc Hsuccess Hdata Herror. simpl. congruence.
Qed.

(** X14 at work: a budget of 15 seconds allows two status queries. *)
Lemma wait_for_snapshot_polls_example :
  exists events,
    log (snd (wait_for_snapshot 5 "token" 7 15 Scenario.busy_world))
      = (events ++ [])%list /\
    (Z.of_nat (List.length (filter is_poll events)) <= 2)%Z.
Proof.
  apply (wait_for_snapshot_polls_are_bounded 5 "token" 7 15 Scenario.busy_world).
  constructor.
Defined.




(** *** Two requests for a snapshot in a row *)

Lemma create_snapshot_creates_when_calm
    (api_token : string) (server_id : Z) (description : string) (w : World)
    (server : Server) :
  calm w ->
  find (fun s => Hetzner.server_id s =? server_id) (servers (provider w)) = Some server ->
  creating_count server_id (provider w) = 0%nat ->
  exists doc w',
    create_snapshot api_token server_id description w = (Ret doc, w') /\
    succeeded doc /\
    data_field "snapshot_id" doc = Some (JInt (next_id (provider w))) /\
    data_field "already_in_progress" doc = Some (JBool false) /\
    images (provider w')
      = (images (provider w) ++ [new_snapshot (provider w) server description])%list /\
    servers (provider w') = servers (provider w) /\
    calm w' /\
    log w' = ServerCreateImage server_id description
               :: ImagesGetAll :: ServersGetById server_id :: log w.
Proof.
  intros C F Z0. unfold create_snapshot, try_except, bind.
  destruct (servers_get_by_id_calm server_id w C) as (w1 & E1 & P1 & C1).
  rewrite E1, F. apply servers_get_by_id_inv in E1. destruct E1 as (L1 & _).
  unfold check_snapshot_in_progress, try_except, bind.
  destruct (images_get_all_calm w1 C1) as (w2 & E2 & P2 & C2).
  rewrite E2. apply images_get_all_inv in E2. destruct E2 as (L2 & _).
  unfold ret. rewrite P1.
  rewrite check_images_none
    by (unfold creating_count in Z0; now apply length_zero_iff_nil in Z0).
  simpl.
  destruct (provider_call_calm
              (fun _ => ServerCreateImage (Hetzner.server_id server) description)
              (fun p =>
                 ({| response_image := new_snapshot p server description;
                     response_action := mkAction (next_id p + 1) |},
                  with_images
                    (fun l => (l ++ [new_snapshot p server description])%list) p))
              w2 C2) as (w3 & E3 & P3 & C3).
  unfold server_create_image. cbv zeta. rewrite E3.
  pose proof (provider_call_trace _ _ _ _ _ E3) as [L3 _].
  apply find_some in F. destruct F as [_ F]. apply Z.eqb_eq in F. rewrite F in L3.
  simpl in P3. simpl fst.
  destruct (env_step_keeps w3) as [L4 _].
  destruct (env_step_calm w3 C3) as (_ & Q4 & C4).
  respond. rewrite Hsuccess, Hdata, Q4, P3, P2, P1. simpl.
  repeat split; [exact C4 | congruence].
Qed.

Lemma create_snapshot_attaches_when_calm
    (api_token : string) (server_id : Z) (description : string) (w : World)
    (server : Server) (img : Image) :
  calm w ->
  find (fun s => Hetzner.server_id s =? server_id) (servers (provider w)) = Some server ->
  find (creating_for server_id) (images (provider w)) = Some img ->
  exists doc w',
    create_snapshot api_token server_id description w = (Ret doc, w') /\
    succeeded doc /\
    data_field "snapshot_id" doc = Some (JInt (image_id img)) /\
    data_field "description" doc = Some (JStr (image_description img)) /\
    data_field "already_in_progress" doc = Some (JBool true) /\
    provider w' = provider w /\
    log w' = ImagesGetAll :: ServersGetById server_id :: log w.
Proof.
  intros C F Fi. unfold create_snapshot, try_except, bind.
  destruct (servers_get_by_id_calm server_id w C) as (w1 & E1 & P1 & C1).
  rewrite E1, F. apply servers_get_by_id_inv in E1. destruct E1 as (L1 & _).
  unfold check_snapshot_in_progress, try_except, bind.
  destruct (images_get_all_calm w1 C1) as (w2 & E2 & P2 & C2).
  rewrite E2. apply images_get_all_inv in E2. destruct E2 as (L2 & _).
  unfold ret. rewrite P1, (check_images_found _ _ _ Fi). simpl.
  destruct (env_step_keeps w2) as [L3 _].
  destruct (env_step_calm w2 C2) as (_ & Q3 & _).
  respond. rewrite Hsuccess, Hdata. simpl.
  repeat split; congruence.
Qed.

(** X16.  Two requests in a row share one snapshot.  In a calm world,
    for a server the provider knows and that has no snapshot in state
    [creating], a first [create_snapshot] opens one and a second, made
    right after it with any description, opens none: it returns the
    first one's identifier and description, tagged
    [already_in_progress].  The log holds one create call, and the
    provider one snapshot of the server in state [creating]. *)
Theorem create_snapshot_twice_references_one_snapshot
    (api_token : string) (server_id : Z) (first second : string) (w : World)
    (server : Server) :
  calm w ->
  find (fun s => Hetzner.server_id s =? server_id) (servers (provider w)) = Some server ->
  creating_count server_id (provider w) = 0%nat ->
  exists doc1 w1 doc2 w2,
    create_snapshot api_token server_id first w = (Ret doc1, w1) /\
    create_snapshot api_token server_id second w1 = (Ret doc2, w2) /\
    succeeded doc1 /\
    succeeded doc2 /\
    data_field "already_in_progress" doc1 = Some (JBool false) /\
    data_field "already_in_progress" doc2 = Some (JBool true) /\
    data_field "snapshot_id" doc1 = Some (JInt (next_id (provider w))) /\
    data_field "snapshot_id" doc2 = data_field "snapshot_id" doc1 /\
    data_field "description" doc2 = Some (JStr first) /\
    creates (log w2) = S (creates (log w)) /\
    creating_count server_id (provider w2) = 1%nat.
Proof.
  intros C F Z0.
  destruct (create_snapshot_creates_when_calm api_token server_id first w server C F Z0)
    as (doc1 & w1 & E1 & Ok1 & Id1 & New1 & I1 & S1 & C1 & L1).
  pose proof F as Fid. apply find_some in Fid. destruct Fid as [_ Fid].
  apply Z.eqb_eq in Fid.
  assert (Nil : filter (creating_for server_id) (images (provider w)) = [])
    by (unfold creating_count in Z0; now apply length_zero_iff_nil in Z0).
  assert (Mine : creating_for server_id (new_snapshot (provider w) server first) = true).
  { unfold creating_for, created_from_is. simpl. rewrite Fid, Z.eqb_refl. reflexivity. }
  assert (Fi : find (creating_for server_id) (images (provider w1))
               = Some (new_snapshot (provider w) server first)).
  { rewrite I1. clear - Nil Mine.
    induction (images (provider w)) as [|i rest IH]; simpl in *.
    - rewrite Mine. reflexivity.
    - destruct (creating_for server_id i); [discriminate | auto]. }
  rewrite <- S1 in F.
  destruct (create_snapshot_attaches_when_calm api_token server_id second w1 server
              _ C1 F Fi)
    as (doc2 & w2 & E2 & Ok2 & Id2 & D2 & Old2 & P2 & L2).
  exists doc1, w1, doc2, w2.
  repeat split; try assumption.
  - rewrite Id2, Id1. reflexivity.
  - rewrite L2, L1. reflexivity.
  - unfold creating_count. rewrite P2, I1, filter_app, Nil. simpl.
    rewrite Mine. reflexivity.
Qed.

(** X16 at work: two requests for a snapshot of server 1 in a row. *)
Lemma create_snapshot_twice_example :
  exists doc1 w1 doc2 w2,
    create_snapshot "token" 1 "web-nightly" Scenario.idle_world = (Ret doc1, w1) /\
    create_snapshot "token" 1 "web-retry" w1 = (Ret doc2, w2) /\
    succeeded doc1 /\
    succeeded doc2 /\
    data_field "already_in_progress" doc1 = Some (JBool false) /\
    data_field "already_in_progress" doc2 = Some (JBool true) /\
    data_field "snapshot_id" doc1 = Some (JInt 100) /\
    data_field "snapshot_id" doc2 = data_field "snapshot_id" doc1 /\
    data_field "description" doc2 = Some (JStr "web-nightly") /\
    creates (log w2) = 1%nat /\
    creating_count 1 (provider w2) = 1%nat.
Proof.
  apply (create_snapshot_twice_references_one_snapshot "token" 1
           "web-nightly" "web-retry" Scenario.idle_world Scenario.web);
    [constructor | reflexivity | reflexivity].
Defined.

(** X17.  For a server that is not off, [stop_server] asks for the
    shutdown, waits with 60 retries and looks the server up again; the
    result reports what this second lookup gives: the status it finds,
    whatever it is, under a success, and when it raises, as it does for a
    server that is gone by then, a failure with the text of the
    exception.  The shutdown stays issued in both cases. *)
Theorem stop_server_reports_the_second_reading
    (api_token : string) (server_id : Z) (w w1 w2 w3 w4 : World)
    (server : Server) (second : Outcome (option Server)) (action : Action) :
  servers_get_by_id server_id w = (Ret (Some server), w1) ->
  server_status server <> STATUS_OFF ->
  server_shutdown server w1 = (Ret action, w2) ->
  action_wait_until_finished action 60 w2 = (Ret tt, w3) ->
  servers_get_by_id server_id w3 = (second, w4) ->
  exists doc w',
    stop_server api_token server_id w = (Ret doc, w') /\
    log w' = ServersGetById server_id
               :: ActionWaitUntilFinished (action_id action) 60
               :: ServerShutdown server_id
               :: ServersGetById server_id :: log w /\
    (forall refreshed,
        second = Ret (Some refreshed) ->
        succeeded doc /\
        data_field "status" doc = Some (JStr (server_status refreshed)) /\
        data_field "message" doc = Some (JStr "Server stopped successfully")) /\
    (forall e,
        second = Raise e ->
        field "success" doc = Some (JBool false) /\
        field "error" doc = error_text (str_exn e) /\
        field "data" doc = None).
Proof.
  intros H1 S H2 H3 H4.
  unfold stop_server, try_except, bind. rewrite H1.
  apply String.eqb_neq in S. rewrite S, H2, H3, H4.
  pose proof (servers_get_by_id_inv _ _ _ _ H1) as (L1 & _ & _ & _ & _ & I1).
  specialize (I1 server eq_refl).
  apply provider_call_trace in H2. destruct H2 as [L2 _].
  apply provider_call_trace in H3. destruct H3 as [L3 _].
  apply provider_lookup_inv in H4.
  destruct H4 as (L4 & _ & _ & _ & _ & [(msg & ->) | (refreshed & -> & _)]).
  - destruct (env_step_keeps w4) as [L5 _]. simpl is_Exception. cbv iota.
    respond. split; [reflexivity|]. split; [congruence|].
    split; [discriminate|].
    intros e E. inversion E; subst e. unfold error_text.
    rewrite Hsuccess, Herror, Hdata. simpl. auto.
  - destruct (env_step_keeps w4) as [L5 _]. cbv iota.
    respond. split; [reflexivity|]. split; [congruence|].
    split; [|discriminate].
    intros r E. inversion E; subst r. rewrite Hsuccess, Hdata. simpl. auto.
Qed.

(** X17 at work: server 1 is deleted while the script waits for its
    shutdown, and the second lookup raises. *)
Lemma stop_server_of_vanished_server_example :
  exists doc w',
    stop_server "token" 1 Estate.idle_decommissioned = (Ret doc, w') /\
    log w' = [ServersGetById 1; ActionWaitUntilFinished 100 60;
              ServerShutdown 1; ServersGetById 1] /\
    field "success" doc = Some (JBool false) /\
    field "error" doc = error_text (str_exn (not_found "server" 1)) /\
    field "data" doc = None.
Proof.
  pose (w1 := snd (servers_get_by_id 1 Estate.idle_decommissioned)).
  pose (w2 := snd (server_shutdown Scenario.web w1)).
  pose (w3 := snd (action_wait_until_finished (mkAction 100) 60 w2)).
  pose (w4 := snd (servers_get_by_id 1 w3)).
  destruct (stop_server_reports_the_second_reading "token" 1
              Estate.idle_decommissioned w1 w2 w3 w4 Scenario.web
              (Raise (not_found "server" 1)) (mkAction 100)
              eq_refl ltac:(discriminate) eq_refl eq_refl eq_refl)
    as (doc & w' & E & L & _ & Gone).
  exists doc, w'. split; [exact E|]. split; [exact L|].
  exact (Gone (not_found "server" 1) eq_refl).
Defined.

End HetznerOperations.

(** ** The hypervisor script: the other operations *)

Section ProxmoxOperations.
Import Proxmox ProxmoxLog ProxmoxRequests.

Ltac run_response doc Hsuccess Hdata Herror Hmessage :=
  match goal with
  | |- context [json_response ?s ?d ?e ?m ?w] =>
      let Hrun := fresh "Hrun" in
      destruct (proxmox_json_response_spec s d e m w)
        as (doc & Hrun & Hsuccess & Hdata & Herror & Hmessage & _);
      rewrite Hrun; clear Hrun
  end.

Ltac respond :=
  match goal with
  | |- context [json_response ?s ?d ?e ?m ?w] =>
      let doc := fresh "doc" in
      let Hsuccess := fresh "Hsuccess" in
      let Hdata := fresh "Hdata" in
      let Herror := fresh "Herror" in
      let Hmessage := fresh "Hmessage" in
      run_response doc Hsuccess Hdata Herror Hmessage;
      exists (JDict doc), (tick w);
      unfold succeeded, failed_with, data_field, field
  end.

(** Opens an operation: the client is built, and is never false. *)
Ltac connect api_url username token verify_ssl w :=
  let proxmox := fresh "proxmox" in
  let C := fresh "C" in
  unfold try_except; unfold bind at 1;
  destruct (connect_proxmox_returns api_url username token verify_ssl w)
    as (proxmox & C);
  rewrite C; clear C; unfold falsy_client; cbv iota.

(** X18.  A guest kind other than [qemu] and [lxc] is refused before
    anything is asked of the hypervisor: each of the nine operations on a
    guest returns the failure "Invalid VM type: <kind>" and sends no
    request. *)
Theorem invalid_vm_type_sends_no_request
    (api_url username token node : string) (vmid : Z) (vm_type : string)
    (snap_name description : string) (verify_ssl : bool) (w : World) :
  vm_type <> "qemu" ->
  vm_type <> "lxc" ->
  forall op,
    In op [get_vm_status api_url username token node vmid vm_type verify_ssl;
           start_vm api_url username token node vmid vm_type verify_ssl;
           stop_vm api_url username token node vmid vm_type verify_ssl;
           shutdown_vm api_url username token node vmid vm_type verify_ssl;
           reboot_vm api_url username token node vmid vm_type verify_ssl;
           list_snapshots api_url username token node vmid vm_type verify_ssl;
           create_snapshot api_url username token node vmid vm_type snap_name
             description verify_ssl;
           rollback_snapshot api_url username token node vmid vm_type snap_name
             verify_ssl;
           delete_snapshot api_url username token node vmid vm_type snap_name
             verify_ssl] ->
    exists doc w',
      op w = (Ret doc, w') /\
      failed_with ("Invalid VM type: " ++ vm_type) doc /\
      log w' = log w.
Proof.
  intros Q L op I.
  apply String.eqb_neq in Q. apply String.eqb_neq in L.
  simpl in I.
  repeat (destruct I as [<- | I]); try contradiction;
    unfold get_vm_status, start_vm, stop_vm, shutdown_vm, reboot_vm, list_snapshots,
      create_snapshot, rollback_snapshot, delete_snapshot;
    connect api_url username token verify_ssl w;
    unfold by_kind, invalid_vm_type, bind, ret; rewrite ?Q, ?L; cbv iota;
    respond; rewrite Hsuccess, Herror; simpl; repeat split.
Qed.

(** X18 at work: there is no guest kind [kvm]. *)
Lemma invalid_vm_type_example :
  exists doc w',
    reboot_vm "https://pve1:8006" "root@pam" "secret" "pve1" 101 "kvm" true
      (PveScenario.answering PveScenario.running_guest) = (Ret doc, w') /\
    failed_with "Invalid VM type: kvm" doc /\
    log w' = [].
Proof.
  apply (invalid_vm_type_sends_no_request "https://pve1:8006" "root@pam" "secret"
           "pve1" 101 "kvm" "before-upgrade" "" true
           (PveScenario.answering PveScenario.running_guest)
           ltac:(discriminate) ltac:(discriminate)).
  simpl. tauto.
Defined.

(** X19.  Stopping a guest that is stopped already does nothing, by
    force or gracefully: [stop_vm] and [shutdown_vm] return a success
    with the status [stopped] after the status query alone. *)
Theorem stop_of_stopped_guest_is_noop
    (api_url username token node : string) (vmid : Z) (vm_type : string)
    (verify_ssl : bool) (w : World) (current : json) :
  vm_type = "qemu" \/ vm_type = "lxc" ->
  respond w (List.length (log w)) (status_query node vm_type vmid) = Answer current ->
  field "status" current = Some (JStr "stopped") ->
  forall op,
    In op [stop_vm api_url username token node vmid vm_type verify_ssl;
           shutdown_vm api_url username token node vmid vm_type verify_ssl] ->
    exists doc w',
      op w = (Ret doc, w') /\
      succeeded doc /\
      data_field "status" doc = Some (JStr "stopped") /\
      field "message" doc = Some (JStr (upper vm_type ++ " is already stopped")) /\
      log w' = status_query node vm_type vmid :: log w.
Proof.
  intros K R S op I. simpl in I.
  destruct I as [<- | [<- | []]].
  - destruct (check_then_post_settled node vm_type vmid vm_type "stopped" "stop"
                w current R S) as (doc & w' & E & P).
    exists doc, w'. split; [|exact P].
    unfold stop_vm. connect api_url username token verify_ssl w.
    unfold bind. destruct K as [-> | ->].
    + change (("qemu" =? "qemu")%string) with true. cbv iota. rewrite E. reflexivity.
    + change (("lxc" =? "qemu")%string) with false.
      change (("lxc" =? "lxc")%string) with true. cbv iota. rewrite E. reflexivity.
  - destruct (check_then_post_settled node vm_type vmid vm_type "stopped" "shutdown"
                w current R S) as (doc & w' & E & P).
    exists doc, w'. split; [|exact P].
    unfold shutdown_vm. connect api_url username token verify_ssl w.
    unfold bind. destruct K as [-> | ->].
    + change (("qemu" =? "qemu")%string) with true. cbv iota. rewrite E. reflexivity.
    + change (("lxc" =? "qemu")%string) with false.
      change (("lxc" =? "lxc")%string) with true. cbv iota. rewrite E. reflexivity.
Qed.

(** X19 at work: container 200 is stopped, and is not shut down again. *)
Lemma stop_of_stopped_guest_example :
  exists doc w',
    shutdown_vm "https://pve1:8006" "root@pam" "secret" "pve1" 200 "lxc" true
      (PveScenario.answering Cluster.stopped_guest) = (Ret doc, w') /\
    succeeded doc /\
    data_field "status" doc = Some (JStr "stopped") /\
    field "message" doc = Some (JStr "LXC is already stopped") /\
    log w' = [status_query "pve1" "lxc" 200].
Proof.
  apply (stop_of_stopped_guest_is_noop "https://pve1:8006" "root@pam" "secret"
           "pve1" 200 "lxc" true (PveScenario.answering Cluster.stopped_guest)
           Cluster.stopped_guest (or_intror eq_refl) eq_refl eq_refl).
  simpl. tauto.
Defined.

(** The check of [start_vm], [stop_vm] and [shutdown_vm] for a guest
    that is not yet in the state asked for: the action is posted. *)
Lemma check_then_post_acts (node kind : string) (vmid : Z)
    (vm_type settled action : string) (w : World) (current status done : json) :
  respond w (List.length (log w)) (status_query node kind vmid) = Answer current ->
  field "status" current = Some status ->
  eq_str status settled = false ->
  respond w (S (List.length (log w))) (power_request node kind vmid action)
    = Answer done ->
  check_then_post node kind vmid vm_type settled action w
  = (Ret None,
     {| respond := respond w; clock := clock w; ticks := ticks w;
        log := power_request node kind vmid action
                 :: status_query node kind vmid :: log w;
        stdout := stdout w |}).
Proof.
  intros R S N P. unfold check_then_post, bind at 1.
  unfold request at 1.
  fold (status_query node kind vmid). rewrite R.
  destruct current as [| | | | | | |d]; try discriminate S. simpl in S.
  unfold bind at 1, item, subscript. rewrite S. unfold ret at 1. rewrite N.
  unfold bind, request. cbn [log respond List.length].
  fold (power_request node kind vmid action). rewrite P. reflexivity.
Qed.

(** X20.  For a guest that is not yet in the state asked for,
    [start_vm] and [stop_vm] send three requests in this order: the
    status query, the action, and, two seconds later, the status query
    again; the success reports the status of the second answer,
    whatever it is, so a guest still [stopped] after [start] is
    reported as a started one. *)
Theorem start_and_stop_report_the_second_status
    (api_url username token node : string) (vmid : Z) (vm_type : string)
    (verify_ssl : bool) (w : World) (current status done refreshed status' : json) :
  vm_type = "qemu" \/ vm_type = "lxc" ->
  respond w (List.length (log w)) (status_query node vm_type vmid) = Answer current ->
  field "status" current = Some status ->
  respond w (S (S (List.length (log w)))) (status_query node vm_type vmid)
    = Answer refreshed ->
  field "status" refreshed = Some status' ->
  forall op settled action,
    In (op, settled, action)
       [(start_vm api_url username token node vmid vm_type verify_ssl,
         "running", "start");
        (stop_vm api_url username token node vmid vm_type verify_ssl,
         "stopped", "stop")] ->
    eq_str status settled = false ->
    respond w (S (List.length (log w))) (power_request node vm_type vmid action)
      = Answer done ->
    exists doc w',
      op w = (Ret doc, w') /\
      succeeded doc /\
      data_field "status" doc = Some status' /\
      field "message" doc = Some (JStr (upper vm_type ++ " " ++ action ++ " initiated")) /\
      log w' = status_query node vm_type vmid
                 :: power_request node vm_type vmid action
                 :: status_query node vm_type vmid :: log w.
Proof.
  intros K R S R' S' op settled action I N P.
  pose proof (check_then_post_acts node vm_type vmid vm_type settled action
                w current status done R S N P) as E.
  assert (Again : forall w1,
             respond w1 = respond w ->
             log w1 = power_request node vm_type vmid action
                        :: status_query node vm_type vmid :: log w ->
             exists w2,
               refreshed_status node vmid vm_type (tick w1) = (Ret refreshed, w2) /\
               log w2 = status_query node vm_type vmid :: log w1).
  { intros w1 Rw Lw. unfold refreshed_status.
    destruct K as [-> | ->];
      [change (("qemu" =? "qemu")%string) with true
      |change (("lxc" =? "qemu")%string) with false]; cbv iota;
      unfold request, guest; simpl app;
      cbn [tick respond log]; rewrite Rw, Lw; cbn [List.length];
      match goal with
      | H : respond w _ ?q = Answer refreshed |- context [respond w _ ?r] =>
          change r with q
      end; rewrite R'; eexists; split; reflexivity. }
  set (w1 := {| respond := respond w; clock := clock w; ticks := ticks w;
                log := power_request node vm_type vmid action
                         :: status_query node vm_type vmid :: log w;
                stdout := stdout w |}) in E.
  destruct (Again w1 eq_refl eq_refl) as (w2 & E2 & L2). clear Again.
  cbn [log w1] in L2.
  destruct refreshed as [| | | | | | |d]; try discriminate S'. simpl in S'.
  assert (T : forall s, truthy_opt_str (Some (upper vm_type ++ s)) = true).
  { intros s. destruct K as [-> | ->]; reflexivity. }
  simpl in I. destruct I as [I | [I | []]]; inversion I; subst op settled action; clear I.
  - unfold start_vm. connect api_url username token verify_ssl w.
    unfold bind at 1.
    assert (E' : (if (vm_type =? "qemu")%string
                  then check_then_post node "qemu" vmid vm_type "running" "start"
                  else if (vm_type =? "lxc")%string
                       then check_then_post node "lxc" vmid vm_type "running" "start"
                       else doc <- invalid_vm_type vm_type ;; ret (Some doc)) w
                 = check_then_post node vm_type vmid vm_type "running" "start" w)
      by (destruct K as [-> | ->]; reflexivity).
    rewrite E', E. clear E' E. cbv iota.
    unfold bind at 1, time_sleep. unfold bind at 1. rewrite E2.
    unfold bind at 1, item, subscript. rewrite S'. unfold ret.
    respond. rewrite Hsuccess, Hdata, Hmessage, T. simpl.
    repeat split. exact L2.
  - unfold stop_vm. connect api_url username token verify_ssl w.
    unfold bind at 1.
    assert (E' : (if (vm_type =? "qemu")%string
                  then check_then_post node "qemu" vmid vm_type "stopped" "stop"
                  else if (vm_type =? "lxc")%string
                       then check_then_post node "lxc" vmid vm_type "stopped" "stop"
                       else doc <- invalid_vm_type vm_type ;; ret (Some doc)) w
                 = check_then_post node vm_type vmid vm_type "stopped" "stop" w)
      by (destruct K as [-> | ->]; reflexivity).
    rewrite E', E. clear E' E. cbv iota.
    unfold bind at 1, time_sleep. unfold bind at 1. rewrite E2.
    unfold bind at 1, item, subscript. rewrite S'. unfold ret.
    respond. rewrite Hsuccess, Hdata, Hmessage, T. simpl.
    repeat split. exact L2.
Qed.

(** X20 at work: machine 101 is stopped, is started, and runs at the
    second look. *)
Lemma start_vm_reports_second_status_example :
  exists doc w',
    start_vm "https://pve1:8006" "root@pam" "secret" "pve1" 101 "qemu" true
      Cluster.booting = (Ret doc, w') /\
    succeeded doc /\
    data_field "status" doc = Some (JStr "running") /\
    field "message" doc = Some (JStr "QEMU start initiated") /\
    log w' = [status_query "pve1" "qemu" 101;
              power_request "pve1" "qemu" 101 "start";
              status_query "pve1" "qemu" 101].
Proof.
  apply (start_and_stop_report_the_second_status "https://pve1:8006" "root@pam"
           "secret" "pve1" 101 "qemu" true Cluster.booting
           Cluster.stopped_guest (JStr "stopped") Cluster.task
           PveScenario.running_guest (JStr "running")
           (or_introl eq_refl) eq_refl eq_refl eq_refl eq_refl
           (start_vm "https://pve1:8006" "root@pam" "secret" "pve1" 101 "qemu" true)
           "running" "start");
    [left; reflexivity | reflexivity | reflexivity].
Defined.

(** X21.  A graceful shutdown is asked for and not followed: for a guest
    that is not stopped, [shutdown_vm] sends the status query and the
    shutdown, and returns at once with the status [shutting_down],
    without a second look at the guest. *)
Theorem shutdown_vm_does_not_read_again
    (api_url username token node : string) (vmid : Z) (vm_type : string)
    (verify_ssl : bool) (w : World) (current status done : json) :
  vm_type = "qemu" \/ vm_type = "lxc" ->
  respond w (List.length (log w)) (status_query node vm_type vmid) = Answer current ->
  field "status" current = Some status ->
  eq_str status "stopped" = false ->
  respond w (S (List.length (log w))) (power_request node vm_type vmid "shutdown")
    = Answer done ->
  exists doc w',
    shutdown_vm api_url username token node vmid vm_type verify_ssl w = (Ret doc, w') /\
    succeeded doc /\
    data_field "status" doc = Some (JStr "shutting_down") /\
    field "message" doc
      = Some (JStr (upper vm_type ++ " graceful shutdown initiated")) /\
    log w' = power_request node vm_type vmid "shutdown"
               :: status_query node vm_type vmid :: log w.
Proof.
  intros K R St N P.
  pose proof (check_then_post_acts node vm_type vmid vm_type "stopped" "shutdown"
                w current status done R St N P) as E.
  unfold shutdown_vm. connect api_url username token verify_ssl w.
  unfold bind at 1.
  assert (E' : (if (vm_type =? "qemu")%string
                then check_then_post node "qemu" vmid vm_type "stopped" "shutdown"
                else if (vm_type =? "lxc")%string
                     then check_then_post node "lxc" vmid vm_type "stopped" "shutdown"
                     else doc <- invalid_vm_type vm_type ;; ret (Some doc)) w
               = check_then_post node vm_type vmid vm_type "stopped" "shutdown" w)
    by (destruct K as [-> | ->]; reflexivity).
  rewrite E', E. clear E' E. cbv iota.
  assert (T : forall s, truthy_opt_str (Some (upper vm_type ++ s)) = true).
  { intros s. destruct K as [-> | ->]; reflexivity. }
  respond. rewrite Hsuccess, Hdata, Hmessage, T. simpl. repeat split.
Qed.

(** X21 at work: machine 101 runs and is asked to shut down. *)
Lemma shutdown_vm_example :
  exists doc w',
    shutdown_vm "https://pve1:8006" "root@pam" "secret" "pve1" 101 "qemu" true
      (PveScenario.answering PveScenario.running_guest) = (Ret doc, w') /\
    succeeded doc /\
    data_field "status" doc = Some (JStr "shutting_down") /\
    field "message" doc = Some (JStr "QEMU graceful shutdown initiated") /\
    log w' = [power_request "pve1" "qemu" 101 "shutdown";
              status_query "pve1" "qemu" 101].
Proof.
  apply (shutdown_vm_does_not_read_again "https://pve1:8006" "root@pam" "secret"
           "pve1" 101 "qemu" true (PveScenario.answering PveScenario.running_guest)
           PveScenario.running_guest (JStr "running") PveScenario.running_guest
           (or_introl eq_refl));
    reflexivity.
Defined.

(** The one request of the operations that do not look at the guest
    first. *)
Lemma by_kind_request (node : string) (vmid : Z) (vm_type : string) (m : Method)
    (suffix : list string) (on_qemu on_lxc : dict) (r : Request) (w : World) :
  vm_type = "qemu" \/ vm_type = "lxc" ->
  r = {| meth := m;
         path := (guest node vm_type vmid ++ suffix)%list;
         params := if (vm_type =? "qemu")%string then on_qemu else on_lxc |} ->
  by_kind vm_type (request m (guest node "qemu" vmid ++ suffix) on_qemu)
    (request m (guest node "lxc" vmid ++ suffix) on_lxc) w
  = match respond w (List.length (log w)) r with
    | Answer body =>
        (Ret (Some body),
         {| respond := respond w; clock := clock w; ticks := ticks w;
            log := r :: log w; stdout := stdout w |})
    | Failure msg =>
        (Raise (APIException msg),
         {| respond := respond w; clock := clock w; ticks := ticks w;
            log := r :: log w; stdout := stdout w |})
    end.
Proof.
  intros [-> | ->] ->; unfold by_kind, request, bind, ret;
    [change (("qemu" =? "qemu")%string) with true
    |change (("lxc" =? "qemu")%string) with false;
     change (("lxc" =? "lxc")%string) with true];
    cbv beta iota zeta;
    match goal with |- context [respond w ?n ?r] => destruct (respond w n r) end;
    reflexivity.
Qed.

(** X22.  [reboot_vm] never looks at the guest's power state: for a
    guest of either kind its only request is the reboot itself, and the
    result follows the hypervisor's answer to it, a success when it
    answers and a failure with its text when it does not. *)
Theorem reboot_vm_posts_without_checking
    (api_url username token node : string) (vmid : Z) (vm_type : string)
    (verify_ssl : bool) (w : World) :
  vm_type = "qemu" \/ vm_type = "lxc" ->
  exists doc w',
    reboot_vm api_url username token node vmid vm_type verify_ssl w = (Ret doc, w') /\
    log w' = power_request node vm_type vmid "reboot" :: log w /\
    follows (respond w (List.length (log w)) (power_request node vm_type vmid "reboot"))
      (upper vm_type ++ " reboot initiated") doc.
Proof.
  intros K.
  assert (T : forall s, truthy_opt_str (Some (upper vm_type ++ s)) = true).
  { intros s. destruct K as [-> | ->]; reflexivity. }
  unfold reboot_vm. connect api_url username token verify_ssl w.
  unfold bind at 1.
  rewrite (by_kind_request node vmid vm_type POST ["status"; "reboot"] [] []
             (power_request node vm_type vmid "reboot") w K)
    by (destruct K as [-> | ->]; reflexivity).
  destruct (respond w (List.length (log w)) (power_request node vm_type vmid "reboot"))
    as [body|msg]; cbv iota; simpl is_Exception; cbv iota.
  - respond. unfold follows, succeeded, field.
    rewrite Hsuccess, Hmessage, T. simpl. repeat split.
  - respond. unfold follows, field, error_text.
    rewrite Hsuccess, Herror. simpl. repeat split.
Qed.

(** X22 at work: the hypervisor refuses the reboot, and its text is the
    error. *)
Lemma reboot_vm_example :
  exists doc w',
    reboot_vm "https://pve1:8006" "root@pam" "secret" "pve1" 101 "qemu" true
      (Cluster.refusing "VM 101 not running") = (Ret doc, w') /\
    log w' = [power_request "pve1" "qemu" 101 "reboot"] /\
    field "success" doc = Some (JBool false) /\
    field "error" doc = Some (JStr "VM 101 not running").
Proof.
  destruct (reboot_vm_posts_without_checking "https://pve1:8006" "root@pam" "secret"
              "pve1" 101 "qemu" true (Cluster.refusing "VM 101 not running")
              (or_introl eq_refl)) as (doc & w' & E & L & F).
  exists doc, w'. split; [exact E|]. split; [exact L|]. exact F.
Defined.

(** X23.  [create_snapshot] sends one request, the creation, without
    looking for a snapshot of that name or for one under way.  It
    carries the name and the description as given, and for a [qemu]
    guest, and only there, [vmstate] 0: the memory is never saved.  The
    result follows the hypervisor's answer. *)
Theorem proxmox_create_snapshot_sends_one_request
    (api_url username token node : string) (vmid : Z)
    (vm_type snap_name description : string) (verify_ssl : bool) (w : World) :
  vm_type = "qemu" \/ vm_type = "lxc" ->
  exists doc w',
    create_snapshot api_url username token node vmid vm_type snap_name description
      verify_ssl w = (Ret doc, w') /\
    log w' = snapshot_request node vm_type vmid snap_name description :: log w /\
    follows
      (respond w (List.length (log w))
         (snapshot_request node vm_type vmid snap_name description))
      ("Snapshot " ++ snap_name ++ " created") doc /\
    (dict_get "vmstate" (params (snapshot_request node vm_type vmid snap_name description))
     = if (vm_type =? "qemu")%string then Some (JInt 0) else None).
Proof.
  intros K.
  unfold create_snapshot. connect api_url username token verify_ssl w.
  unfold bind at 1.
  rewrite (by_kind_request node vmid vm_type POST ["snapshot"]
             [("snapname", JStr snap_name); ("description", JStr description);
              ("vmstate", JInt 0)]
             [("snapname", JStr snap_name); ("description", JStr description)]
             (snapshot_request node vm_type vmid snap_name description) w K)
    by (destruct K as [-> | ->]; reflexivity).
  destruct (respond w (List.length (log w))
              (snapshot_request node vm_type vmid snap_name description))
    as [body|msg]; cbv iota; simpl is_Exception; cbv iota.
  - respond. unfold follows, succeeded, field.
    rewrite Hsuccess, Hmessage. simpl. repeat split.
    destruct K as [-> | ->]; reflexivity.
  - respond. unfold follows, field, error_text.
    rewrite Hsuccess, Herror. simpl. repeat split.
    destruct K as [-> | ->]; reflexivity.
Qed.

(** X23 at work: a snapshot of container 200 is asked for, with no word
    about the memory. *)
Lemma proxmox_create_snapshot_example :
  exists doc w',
    create_snapshot "https://pve1:8006" "root@pam" "secret" "pve1" 200 "lxc"
      "before-upgrade" "" true (PveScenario.answering Cluster.task) = (Ret doc, w') /\
    log w' = [{| meth := POST;
                 path := ["nodes"; "pve1"; "lxc"; "200"; "snapshot"];
                 params := [("snapname", JStr "before-upgrade");
                            ("description", JStr "")] |}] /\
    succeeded doc /\
    field "message" doc = Some (JStr "Snapshot before-upgrade created").
Proof.
  destruct (proxmox_create_snapshot_sends_one_request "https://pve1:8006" "root@pam"
              "secret" "pve1" 200 "lxc" "before-upgrade" "" true
              (PveScenario.answering Cluster.task) (or_intror eq_refl))
    as (doc & w' & E & L & F & _).
  exists doc, w'. split; [exact E|]. split; [exact L|]. exact F.
Defined.

Lemma string_rev_twice (s acc cur : string) :
  string_rev acc (string_rev cur s) = string_rev (s ++ acc) cur.
Proof.
  revert acc cur. induction s as [|c s IH]; intros acc cur; simpl; [reflexivity|].
  rewrite IH. reflexivity.
Qed.

Lemma append_empty (s : string) : (s ++ "")%string = s.
Proof. induction s as [|c s IH]; simpl; [reflexivity | now rewrite IH]. Qed.

Lemma split_slash_plain (s cur : string) :
  has_slash s = false ->
  split_slash cur s = [string_rev "" (string_rev cur s)].
Proof.
  revert cur. induction s as [|c s IH]; intros cur; simpl.
  - reflexivity.
  - intros H. apply orb_false_iff in H. destruct H as [C H].
    rewrite C. apply IH. exact H.
Qed.

(** A plain name is one piece of the path. *)
Lemma resource_plain (s : string) : plain s = true -> resource s = [s].
Proof.
  unfold plain, resource. intros H. apply andb_true_iff in H. destruct H as [N S].
  apply negb_true_iff in N. apply negb_true_iff in S.
  rewrite N, (split_slash_plain s "" S), string_rev_twice. simpl.
  rewrite append_empty. reflexivity.
Qed.

(** X24.  [rollback_snapshot] and [delete_snapshot] send one request
    each, a POST to the [rollback] of the snapshot and a DELETE of the
    snapshot; neither looks whether the snapshot exists, and the
    hypervisor's refusal, if any, is the failure they return.  For a node
    and a snapshot name that are plain, the requests go to
    [nodes/<node>/<kind>/<vmid>/snapshot/<name>/rollback] and
    [nodes/<node>/<kind>/<vmid>/snapshot/<name>].  An empty name is not
    refused: it adds no piece to the path, so that the DELETE addresses
    the guest's [snapshot] collection, and the POST its [rollback]. *)
Theorem rollback_and_delete_send_one_request
    (api_url username token node : string) (vmid : Z)
    (vm_type snap_name : string) (verify_ssl : bool) (w : World) :
  vm_type = "qemu" \/ vm_type = "lxc" ->
  (exists doc w',
      rollback_snapshot api_url username token node vmid vm_type snap_name
        verify_ssl w = (Ret doc, w') /\
      log w' = rollback_request node vm_type vmid snap_name :: log w /\
      follows
        (respond w (List.length (log w)) (rollback_request node vm_type vmid snap_name))
        ("Rolled back to snapshot " ++ snap_name) doc) /\
  (exists doc w',
      delete_snapshot api_url username token node vmid vm_type snap_name
        verify_ssl w = (Ret doc, w') /\
      log w' = removal_request node vm_type vmid snap_name :: log w /\
      follows
        (respond w (List.length (log w)) (removal_request node vm_type vmid snap_name))
        ("Snapshot " ++ snap_name ++ " deleted") doc) /\
  (plain node = true ->
   (plain snap_name = true ->
    path (rollback_request node vm_type vmid snap_name)
      = ["nodes"; node; vm_type; str_Z vmid; "snapshot"; snap_name; "rollback"] /\
    path (removal_request node vm_type vmid snap_name)
      = ["nodes"; node; vm_type; str_Z vmid; "snapshot"; snap_name]) /\
   (snap_name = "" ->
    path (rollback_request node vm_type vmid snap_name)
      = ["nodes"; node; vm_type; str_Z vmid; "snapshot"; "rollback"] /\
    path (removal_request node vm_type vmid snap_name)
      = ["nodes"; node; vm_type; str_Z vmid; "snapshot"])).
Proof.
  intros K. split; [|split].
  - unfold rollback_snapshot. connect api_url username token verify_ssl w.
    unfold bind at 1.
    rewrite (by_kind_request node vmid vm_type POST
               ("snapshot" :: resource snap_name ++ ["rollback"])
               [] [] (rollback_request node vm_type vmid snap_name) w K)
      by (destruct K as [-> | ->]; reflexivity).
    destruct (respond w (List.length (log w))
                (rollback_request node vm_type vmid snap_name))
      as [body|msg]; cbv iota; simpl is_Exception; cbv iota.
    + respond. unfold follows, succeeded, field.
      rewrite Hsuccess, Hmessage. simpl. repeat split.
    + respond. unfold follows, field, error_text.
      rewrite Hsuccess, Herror. simpl. repeat split.
  - unfold delete_snapshot. connect api_url username token verify_ssl w.
    unfold bind at 1.
    rewrite (by_kind_request node vmid vm_type DELETE
               ("snapshot" :: resource snap_name)
               [] [] (removal_request node vm_type vmid snap_name) w K)
      by (destruct K as [-> | ->]; reflexivity).
    destruct (respond w (List.length (log w))
                (removal_request node vm_type vmid snap_name))
      as [body|msg]; cbv iota; simpl is_Exception; cbv iota.
    + respond. unfold follows, succeeded, field.
      rewrite Hsuccess, Hmessage. simpl. repeat split.
    + respond. unfold follows, field, error_text.
      rewrite Hsuccess, Herror. simpl. repeat split.
  - intros Pn. unfold rollback_request, removal_request, guest. cbn [path].
    rewrite (resource_plain node Pn). split.
    + intros Ps. rewrite (resource_plain snap_name Ps). split; reflexivity.
    + intros ->. split; reflexivity.
Qed.

(** X24 at work: there is no snapshot of that name to delete. *)
Lemma delete_snapshot_refused_example :
  exists doc w',
    delete_snapshot "https://pve1:8006" "root@pam" "secret" "pve1" 101 "qemu"
      "before-upgrade" true (Cluster.refusing "snapshot 'before-upgrade' does not exist")
      = (Ret doc, w') /\
    log w' = [{| meth := DELETE;
                 path := ["nodes"; "pve1"; "qemu"; "101"; "snapshot"; "before-upgrade"];
                 params := [] |}] /\
    field "success" doc = Some (JBool false) /\
    field "error" doc = Some (JStr "snapshot 'before-upgrade' does not exist").
Proof.
  destruct (rollback_and_delete_send_one_request "https://pve1:8006" "root@pam"
              "secret" "pve1" 101 "qemu" "before-upgrade" true
              (Cluster.refusing "snapshot 'before-upgrade' does not exist")
              (or_introl eq_refl)) as (_ & (doc & w' & E & L & F) & _).
  exists doc, w'. split; [exact E|]. split; [exact L|]. exact F.
Defined.

(** *** Listings *)

Lemma vm_entry_identified (kind prefix : string) (vm : dict) (w : World) :
  vm_entry kind prefix (JDict vm) w
  = (if identified vm then Ret [guest_entry kind prefix vm]
     else Raise (KeyError "vmid"), w).
Proof.
  unfold vm_entry, identified, guest_entry, item, subscript, get_or,
    dict_get_default, bind, ret, raise.
  destruct (dict_get "vmid" vm); reflexivity.
Qed.

Lemma for_each_guests (kind prefix : string) (vms : list dict) (w : World) :
  for_each (vm_entry kind prefix) (map JDict vms) w
  = (if forallb identified vms then Ret (map (guest_entry kind prefix) vms)
     else Raise (KeyError "vmid"), w).
Proof.
  induction vms as [|vm rest IH]; simpl; [reflexivity|].
  unfold bind at 1. rewrite vm_entry_identified.
  destruct (identified vm); simpl; [|reflexivity].
  unfold bind. rewrite IH. destruct (forallb identified rest); reflexivity.
Qed.

Lemma numbered_identified (vms : list dict) :
  forallb numbered vms = true -> forallb identified vms = true.
Proof.
  induction vms as [|vm rest IH]; simpl; [reflexivity|].
  intros H. apply andb_true_iff in H. destruct H as [N H].
  rewrite (IH H), andb_true_r. unfold numbered, identified in *.
  destruct (dict_get "vmid" vm); [reflexivity | discriminate].
Qed.

(** X25.  [list_vms] asks for the virtual machines, then for the
    containers, and returns the machines followed by the containers,
    each with its kind; [count] is the number of both.  A guest without
    a name is called [vm-<id>] or [ct-<id>], one without a status
    [unknown].  The guests are identified by an integer or a string, as
    the hypervisor does. *)
Theorem list_vms_lists_machines_then_containers
    (api_url username token node : string) (verify_ssl : bool) (w : World)
    (machines containers : list dict) :
  respond w (List.length (log w)) (guests_query node "qemu")
    = Answer (JList (map JDict machines)) ->
  respond w (S (List.length (log w))) (guests_query node "lxc")
    = Answer (JList (map JDict containers)) ->
  forallb numbered machines = true ->
  forallb numbered containers = true ->
  exists doc w',
    list_vms api_url username token node verify_ssl w = (Ret doc, w') /\
    succeeded doc /\
    data_field "vms" doc
      = Some (JList (map (guest_entry "qemu" "vm") machines
                       ++ map (guest_entry "lxc" "ct") containers)%list) /\
    data_field "count" doc
      = Some (JInt (Z.of_nat (List.length machines + List.length containers))) /\
    log w' = guests_query node "lxc" :: guests_query node "qemu" :: log w.
Proof.
  intros Rq Rl Nq Nl.
  pose proof (numbered_identified _ Nq) as Iq.
  pose proof (numbered_identified _ Nl) as Il.
  unfold list_vms. connect api_url username token verify_ssl w.
  unfold bind at 1, request at 1. fold (guests_query node "qemu"). rewrite Rq.
  unfold bind at 1, iterate, ret at 1.
  unfold bind at 1. rewrite for_each_guests, Iq.
  unfold bind at 1, request at 1. cbn [log respond List.length].
  fold (guests_query node "lxc"). rewrite Rl.
  unfold bind at 1, ret at 1.
  unfold bind at 1. rewrite for_each_guests, Il.
  respond. rewrite Hsuccess, Hdata. simpl.
  rewrite length_app, !length_map. repeat split.
Qed.

(** X25 at work: two machines, one of them without a name, and one
    container. *)
Lemma list_vms_example :
  exists doc w',
    list_vms "https://pve1:8006" "root@pam" "secret" "pve1" true Cluster.inventory
      = (Ret doc, w') /\
    succeeded doc /\
    data_field "vms" doc
      = Some (JList (map (guest_entry "qemu" "vm") Cluster.machines
                       ++ map (guest_entry "lxc" "ct") Cluster.containers)%list) /\
    data_field "count" doc = Some (JInt 3) /\
    log w' = [guests_query "pve1" "lxc"; guests_query "pve1" "qemu"].
Proof.
  apply (list_vms_lists_machines_then_containers "https://pve1:8006" "root@pam"
           "secret" "pve1" true Cluster.inventory Cluster.machines Cluster.containers);
    reflexivity.
Defined.

(** X26.  One guest without an identifier spoils the listing: when a
    virtual machine of the hypervisor's answer has no [vmid],
    [list_vms] returns the failure "'vmid'" with no guest at all, and
    does not ask for the containers. *)
Theorem list_vms_fails_on_a_guest_without_id
    (api_url username token node : string) (verify_ssl : bool) (w : World)
    (machines : list dict) :
  respond w (List.length (log w)) (guests_query node "qemu")
    = Answer (JList (map JDict machines)) ->
  forallb identified machines = false ->
  exists doc w',
    list_vms api_url username token node verify_ssl w = (Ret doc, w') /\
    failed_with "'vmid'" doc /\
    (forall k, data_field k doc = None) /\
    log w' = guests_query node "qemu" :: log w.
Proof.
  intros Rq Iq.
  unfold list_vms. connect api_url username token verify_ssl w.
  unfold bind at 1, request at 1. fold (guests_query node "qemu"). rewrite Rq.
  unfold bind at 1, iterate, ret at 1.
  unfold bind at 1. rewrite for_each_guests, Iq. simpl is_Exception. cbv iota.
  respond. rewrite Hsuccess, Hdata, Herror. simpl. repeat split.
Qed.

(** X26 at work: the second machine has no identifier. *)
Lemma list_vms_fails_example :
  exists doc w',
    list_vms "https://pve1:8006" "root@pam" "secret" "pve1" true
      (PveScenario.answering (JList (map JDict Cluster.orphaned))) = (Ret doc, w') /\
    failed_with "'vmid'" doc /\
    (forall k, data_field k doc = None) /\
    log w' = [guests_query "pve1" "qemu"].
Proof.
  apply (list_vms_fails_on_a_guest_without_id "https://pve1:8006" "root@pam"
           "secret" "pve1" true
           (PveScenario.answering (JList (map JDict Cluster.orphaned)))
           Cluster.orphaned);
    reflexivity.
Defined.

(** X27.  [test_connection] asks for the version, then for the nodes,
    and returns the version ([unknown] when the answer has none), the
    names of the nodes in the hypervisor's order and their number. *)
Theorem test_connection_reports_version_and_nodes
    (api_url username token : string) (verify_ssl : bool) (w : World)
    (version : dict) (nodes : list dict) :
  respond w (List.length (log w)) version_query = Answer (JDict version) ->
  respond w (S (List.length (log w))) nodes_query = Answer (JList (map JDict nodes)) ->
  Forall (fun node => dict_get "node" node <> None) nodes ->
  exists doc w',
    test_connection api_url username token verify_ssl w = (Ret doc, w') /\
    succeeded doc /\
    data_field "version" doc = Some (dict_get_default "version" (JStr "unknown") version) /\
    data_field "nodes" doc = Some (JList (map (dict_get_default "node" JNull) nodes)) /\
    data_field "node_count" doc = Some (JInt (Z.of_nat (List.length nodes))) /\
    field "message" doc = Some (JStr "Connection successful") /\
    log w' = nodes_query :: version_query :: log w.
Proof.
  intros Rv Rn Named.
  unfold test_connection. connect api_url username token verify_ssl w.
  unfold bind at 1, request at 1. fold version_query. rewrite Rv.
  unfold bind at 1, request at 1. cbn [log respond List.length].
  fold nodes_query. rewrite Rn.
  unfold bind at 1, get_or, ret at 1.
  unfold bind at 1, iterate, ret at 1.
  assert (E : forall w0,
             for_each (fun node => n <- item node "node" ;; ret [n]) (map JDict nodes) w0
             = (Ret (map (dict_get_default "node" JNull) nodes), w0)).
  { clear - Named. intros w0.
    induction Named as [|node rest N _ IH]; cbn [map for_each];
      [reflexivity|].
    assert (Step : (n <- item (JDict node) "node" ;; ret [n]) w0
                   = (Ret [dict_get_default "node" JNull node], w0)).
    { unfold bind, item, subscript, dict_get_default.
      destruct (dict_get "node" node) as [n|]; [reflexivity | congruence]. }
    unfold bind at 1. rewrite Step. unfold bind at 1. rewrite IH. reflexivity. }
  unfold bind at 1. rewrite E.
  unfold bind at 1, len, ret at 1.
  respond. rewrite Hsuccess, Hdata, Hmessage. simpl. rewrite length_map.
  repeat split.
Qed.

(** X27 at work: a cluster of two nodes whose answer names no version. *)
Lemma test_connection_example :
  exists doc w',
    test_connection "https://pve1:8006" "root@pam" "secret" true Cluster.two_nodes
      = (Ret doc, w') /\
    succeeded doc /\
    data_field "version" doc = Some (JStr "unknown") /\
    data_field "nodes" doc = Some (JList [JStr "pve1"; JStr "pve2"]) /\
    data_field "node_count" doc = Some (JInt 2) /\
    field "message" doc = Some (JStr "Connection successful") /\
    log w' = [nodes_query; version_query].
Proof.
  apply (test_connection_reports_version_and_nodes "https://pve1:8006" "root@pam"
           "secret" true Cluster.two_nodes Cluster.release Cluster.members);
    [reflexivity | reflexivity |].
  repeat constructor; discriminate.
Defined.

(** *** The client *)

Lemma split_eq_piece (name rest cur : string) :
  contains_eq name = false ->
  split_eq cur (name ++ String "=" rest)
  = string_rev "" (string_rev cur name) :: split_eq "" rest.
Proof.
  revert cur. induction name as [|c name IH]; intros cur; simpl.
  - reflexivity.
  - intros H. apply orb_false_iff in H. destruct H as [C H].
    rewrite C. apply IH. exact H.
Qed.

Lemma split_eq_last (name cur : string) :
  contains_eq name = false ->
  split_eq cur name = [string_rev "" (string_rev cur name)].
Proof.
  revert cur. induction name as [|c name IH]; intros cur; simpl.
  - reflexivity.
  - intros H. apply orb_false_iff in H. destruct H as [C H].
    rewrite C. apply IH. exact H.
Qed.

Lemma contains_eq_piece (name rest : string) :
  contains_eq (name ++ String "=" rest) = true.
Proof.
  induction name as [|c name IH]; simpl; [reflexivity|].
  rewrite IH. apply orb_true_r.
Qed.

Lemma string_rev_back (s : string) : string_rev "" (string_rev "" s) = s.
Proof. rewrite string_rev_twice. simpl. apply append_empty. Qed.

(** X28.  How [connect_proxmox] reads its arguments.  The address it is
    given plays no part: the host is [localhost].  A token without [=]
    is the secret of the token named [api]; a token [name=secret] is
    cut at the sign; and of a token with a second [=], what follows it
    is dropped from the secret. *)
Theorem connect_proxmox_cuts_the_token_at_the_sign
    (api_url username name secret more : string) (verify_ssl : bool) (w : World) :
  contains_eq name = false ->
  contains_eq secret = false ->
  let client token_name token_value :=
    {| host := "localhost"; user := username; token_name := token_name;
       token_value := token_value; backend := "https";
       client_verify_ssl := verify_ssl |} in
  connect_proxmox api_url username secret verify_ssl w
    = (Ret (client "api" secret), w) /\
  connect_proxmox api_url username (name ++ "=" ++ secret) verify_ssl w
    = (Ret (client name secret), w) /\
  connect_proxmox api_url username (name ++ "=" ++ secret ++ "=" ++ more) verify_ssl w
    = (Ret (client name secret), w).
Proof.
  intros Hn Hs client. unfold client, connect_proxmox, bind, ret.
  split; [|split].
  - rewrite Hs. reflexivity.
  - change (name ++ "=" ++ secret)%string with (name ++ String "=" secret)%string.
    rewrite contains_eq_piece, (split_eq_piece name secret "" Hn),
      (split_eq_last secret "" Hs), !string_rev_back.
    reflexivity.
  - change (name ++ "=" ++ secret ++ "=" ++ more)%string
      with (name ++ String "=" (secret ++ String "=" more))%string.
    rewrite contains_eq_piece, (split_eq_piece name _ "" Hn),
      (split_eq_piece secret more "" Hs), !string_rev_back.
    reflexivity.
Qed.

(** X28 at work: a token with a second sign, and an address that is
    not used. *)
Lemma connect_proxmox_example :
  connect_proxmox "https://203.0.113.5:8006" "root@pam"
    "monitoring=0f3a9c1e=trailing" true (PveScenario.answering JNull)
  = (Ret {| host := "localhost"; user := "root@pam"; token_name := "monitoring";
            token_value := "0f3a9c1e"; backend := "https";
            client_verify_ssl := true |},
     PveScenario.answering JNull).
Proof.
  exact (proj2 (proj2 (connect_proxmox_cuts_the_token_at_the_sign
                         "https://203.0.113.5:8006" "root@pam" "monitoring"
                         "0f3a9c1e" "trailing" true (PveScenario.answering JNull)
                         eq_refl eq_refl))).
Defined.

(** *** The command line *)

Lemma failure_exit_trace (msg : string) (w : World) :
  truthy_str msg = true ->
  exists doc w',
    (doc <- json_response false None (Some msg) None ;;
     print doc ;;; (sys_exit 1 : M World unit)) w = (Raise (SystemExit 1), w') /\
    stdout w' = doc :: stdout w /\
    failed_with msg doc /\
    log w' = log w.
Proof.
  intros T. unfold bind, print, sys_exit, raise.
  destruct (proxmox_json_response_spec false None (Some msg) None w)
    as (doc & -> & Hsuccess & _ & Herror & _).
  exists (JDict doc). eexists. split; [reflexivity|]. simpl.
  unfold failed_with, field. rewrite Hsuccess, Herror. simpl. rewrite T.
  repeat split.
Qed.

(** The commands that unpack a slice of the command line, with the
    number of values they unpack. *)
Lemma dispatch_short (program command : string) (expected : nat)
    (rest : list string) (w : World) :
  In (command, expected)
     [("get_vm_status", 6); ("start_vm", 6); ("stop_vm", 6); ("shutdown_vm", 6);
      ("reboot_vm", 6); ("list_snapshots", 6); ("create_snapshot", 7);
      ("rollback_snapshot", 7); ("delete_snapshot", 7); ("list_vms", 4)]%nat ->
  (List.length rest < expected)%nat ->
  dispatch command (program :: command :: rest) w
  = (Raise (not_enough_values expected (List.length rest)), w).
Proof.
  intros I L. simpl in I.
  repeat (destruct I as [I | I]; [inversion I; subst command expected; clear I|]);
    try contradiction;
    do 8 (destruct rest as [|? rest]; [first [reflexivity | simpl in L; lia]|]);
    simpl in L; lia.
Qed.

(** X29.  A command line that is too short ends in one failure document
    and exit status 1, with nothing asked of the hypervisor, but the
    text depends on the command: [test_connection] reads its arguments
    one by one and reports "Missing required arguments for command:
    test_connection", while the other commands unpack a slice of the
    command line and report Python's "not enough values to unpack"
    with the number they expect and the number given. *)
Theorem proxmox_main_reports_missing_arguments
    (program command msg : string) (rest : list string) (w : World) :
  (command = "test_connection" /\
   (List.length rest < 3)%nat /\
   msg = "Missing required arguments for command: test_connection") \/
  (exists expected,
      In (command, expected)
         [("get_vm_status", 6); ("start_vm", 6); ("stop_vm", 6); ("shutdown_vm", 6);
          ("reboot_vm", 6); ("list_snapshots", 6); ("create_snapshot", 7);
          ("rollback_snapshot", 7); ("delete_snapshot", 7); ("list_vms", 4)]%nat /\
      (List.length rest < expected)%nat /\
      msg = ("not enough values to unpack (expected " ++ str_Z (Z.of_nat expected)
             ++ ", got " ++ str_Z (Z.of_nat (List.length rest)) ++ ")")) ->
  exists doc w',
    main (program :: command :: rest) w = (Raise (SystemExit 1), w') /\
    stdout w' = doc :: stdout w /\
    failed_with msg doc /\
    log w' = log w.
Proof.
  intros H.
  change (main (program :: command :: rest) w)
    with (try_except (dispatch command (program :: command :: rest))
            (on_error command) w).
  unfold try_except.
  destruct H as [(-> & L & ->) | (expected & I & L & ->)].
  - assert (E : dispatch "test_connection" (program :: "test_connection" :: rest) w
                = (Raise (IndexError "list index out of range"), w)).
    { do 3 (destruct rest as [|? rest]; [reflexivity|]). simpl in L. lia. }
    rewrite E. simpl is_Exception. cbv iota.
    apply (failure_exit_trace "Missing required arguments for command: test_connection").
    reflexivity.
  - rewrite (dispatch_short program command expected rest w I L).
    simpl is_Exception. cbv iota.
    apply (failure_exit_trace
             ("not enough values to unpack (expected " ++ str_Z (Z.of_nat expected)
              ++ ", got " ++ str_Z (Z.of_nat (List.length rest)) ++ ")")).
    reflexivity.
Qed.

(** X29 at work: [start_vm] with two of its six arguments. *)
Lemma proxmox_main_missing_arguments_example :
  exists doc w',
    main ["proxmox_api.py"; "start_vm"; "https://pve1:8006"; "root@pam"]
      (PveScenario.answering PveScenario.running_guest)
      = (Raise (SystemExit 1), w') /\
    stdout w' = [doc] /\
    failed_with "not enough values to unpack (expected 6, got 2)" doc /\
    log w' = [].
Proof.
  apply (proxmox_main_reports_missing_arguments "proxmox_api.py" "start_vm"
           "not enough values to unpack (expected 6, got 2)"
           ["https://pve1:8006"; "root@pam"]
           (PveScenario.answering PveScenario.running_guest)).
  right. exists 6%nat. split; [simpl; tauto|]. split; [simpl; lia | reflexivity].
Defined.

(** X30.  A command that is none of the eleven the script knows is
    answered with the failure "Unknown command: <command>" and exit
    status 1, whatever follows it, and nothing is asked of the
    hypervisor. *)
Theorem proxmox_main_names_unknown_command
    (program command : string) (rest : list string) (w : World) :
  ~ In command ["test_connection"; "get_vm_status"; "start_vm"; "stop_vm";
                "shutdown_vm"; "reboot_vm"; "list_snapshots"; "create_snapshot";
                "rollback_snapshot"; "delete_snapshot"; "list_vms"] ->
  exists doc w',
    main (program :: command :: rest) w = (Raise (SystemExit 1), w') /\
    stdout w' = doc :: stdout w /\
    failed_with ("Unknown command: " ++ command) doc /\
    log w' = log w.
Proof.
  intros Unknown.
  change (main (program :: command :: rest) w)
    with (try_except (dispatch command (program :: command :: rest))
            (on_error command) w).
  unfold try_except, dispatch.
  repeat match goal with
         | |- context [(command =? ?c)%string] =>
             destruct (String.eqb_spec command c);
               [exfalso; apply Unknown; subst; simpl; tauto|]
         end.
  destruct (failure_exit_trace ("Unknown command: " ++ command) w eq_refl)
    as (doc & w' & E & P).
  rewrite E. simpl. exists doc, w'. auto.
Qed.

(** X30 at work: there is no command [migrate]. *)
Lemma proxmox_main_unknown_command_example :
  exists doc w',
    main ["proxmox_api.py"; "migrate"; "https://pve1:8006"]
      (PveScenario.answering PveScenario.running_guest)
      = (Raise (SystemExit 1), w') /\
    stdout w' = [doc] /\
    failed_with "Unknown command: migrate" doc /\
    log w' = [].
Proof.
  apply (proxmox_main_names_unknown_command "proxmox_api.py" "migrate"
           ["https://pve1:8006"] (PveScenario.answering PveScenario.running_guest)).
  simpl. intuition discriminate.
Defined.

End ProxmoxOperations.
